(** * SubNodeSync: lock guard, command dispatch, heartbeat and lifecycle

    A shallow embedding of the Go packages [pkg/util] (filelock.go),
    [pkg/sync] (context.go, handlers.go, command.go), [pkg/transport]
    (mqtt.go) and [pkg/node] (node.go), with the properties of the
    design document stated and settled against it. *)

From Stdlib Require Import ZArith String Ascii List Bool Lia.
From Stdlib Require Import DecimalString DecimalZ DecimalPos.
From stdpp Require Import base option gmap strings.

Local Open Scope Z_scope.

(** ** strconv: the two conversions the lock file goes through *)

Module strconv.

(** Go's [int] on the 64-bit targets. *)
Definition intMin : Z := - 2 ^ 63.
Definition intMax : Z := 2 ^ 63 - 1.

(** A non-empty run of ASCII digits, read in base ten. *)
Definition digits (s : string) : option Z :=
  match s with
  | EmptyString => None
  | _ => Z.of_uint <$> NilEmpty.uint_of_string s
  end.

(** [strconv.Atoi]: one optional sign, at least one digit, nothing else
    (no blanks, no newline, no underscore), and the value has to fit
    [int]; every other input is an error. *)
Definition Atoi (s : string) : option Z :=
  match s with
  | EmptyString => None
  | String c r =>
      let '(neg, body) :=
        if Ascii.eqb c "-" then (true, r)
        else if Ascii.eqb c "+" then (false, r)
        else (false, s) in
      match digits body with
      | None => None
      | Some n =>
          let v := if neg : bool then - n else n in
          if (intMin <=? v) && (v <=? intMax) then Some v else None
      end
  end.

(** The verb [%d] of [fmt.Fprintf]. *)
Definition FormatInt (z : Z) : string :=
  NilZero.string_of_int (Z.to_int z).

End strconv.


(** ** The host: files, processes, platform *)

Module os.

Inductive Errno := ENOENT | EEXIST | EACCES | EPERM | ESRCH.

(** A directory entry.  [ino] tells apart two files that were created
    under one path at different times; [readable] and [removable] are
    the caller's permission to read the file and to unlink it from its
    directory. *)
Record File := mkFile {
  ino : nat;
  content : string;
  readable : bool;
  removable : bool
}.

(** [*os.File] as returned by [os.OpenFile]. *)
Record Handle := mkHandle { h_ino : nat; h_path : string }.

Record World := mkWorld {
  GOOS : string;                 (* runtime.GOOS *)
  TempDir : string;              (* os.TempDir() *)
  Getpid : Z;                    (* os.Getpid() *)
  fs : gmap string File;         (* the name space *)
  next_ino : nat;                (* allocator of [ino] *)
  open_files : gset nat;         (* descriptors the process holds *)
  procs : gmap Z bool            (* process table: may the caller signal it *)
}.

Definition set_fs (w : World) (m : gmap string File) : World :=
  mkWorld (GOOS w) (TempDir w) (Getpid w) m (next_ino w) (open_files w) (procs w).

(** State passing: a call takes the world and gives its result and the
    world it leaves. *)
Definition M (A : Type) : Type := World -> A * World.
Definition ret {A} (a : A) : M A := fun w => (a, w).
Definition bind {A B} (m : M A) (k : A -> M B) : M B :=
  fun w => let '(a, w') := m w in k a w'.

(** What a path names.  The empty path names nothing (ENOENT). *)
Definition entry (w : World) (path : string) : option File :=
  if decide (path = EmptyString) then None else fs w !! path.

(** [os.Stat], of which the callers only look at the error. *)
Definition Stat (path : string) : M (option Errno) := fun w =>
  match entry w path with
  | Some _ => (None, w)
  | None => (Some ENOENT, w)
  end.

Definition IsNotExist (err : option Errno) : bool :=
  match err with Some ENOENT => true | _ => false end.

(** [os.ReadFile]. *)
Definition ReadFile (path : string) : M (string + Errno) := fun w =>
  match entry w path with
  | None => (inr ENOENT, w)
  | Some f => if readable f then (inl (content f), w) else (inr EACCES, w)
  end.

(** [os.Remove]. *)
Definition Remove (path : string) : M (option Errno) := fun w =>
  match entry w path with
  | None => (Some ENOENT, w)
  | Some f =>
      if removable f then (None, set_fs w (delete path (fs w)))
      else (Some EPERM, w)
  end.

(** [os.OpenFile(path, O_CREATE|O_EXCL|O_WRONLY, 0644)]: fails when the
    name is taken; a file it creates is empty and belongs to the
    caller. *)
Definition OpenFile_excl (path : string) : M (Handle + Errno) := fun w =>
  if decide (path = EmptyString) then (inr ENOENT, w) else
  match entry w path with
  | Some _ => (inr EEXIST, w)
  | None =>
      let i := next_ino w in
      (inl (mkHandle i path),
       mkWorld (GOOS w) (TempDir w) (Getpid w)
               (<[path := mkFile i EmptyString true true]> (fs w))
               (S i) ({[ i ]} ∪ open_files w) (procs w))
  end.

(** The bytes [data] written at offset 0 over [old]. *)
Definition overwrite (data old : string) : string :=
  data +:+ String.substring (String.length data)
                            (String.length old - String.length data) old.

(** The first write through a fresh descriptor.  It lands in the file
    the descriptor was opened on; when that file has been unlinked in
    the meantime the name space does not change. *)
Definition Write (h : Handle) (data : string) : M unit := fun w =>
  match entry w (h_path h) with
  | Some f =>
      if decide (ino f = h_ino h) then
        (tt, set_fs w (<[h_path h := mkFile (ino f) (overwrite data (content f))
                                             (readable f) (removable f)]> (fs w)))
      else (tt, w)
  | None => (tt, w)
  end.

(** [Close] of an open file. *)
Definition Close (h : Handle) : M unit := fun w =>
  (tt, mkWorld (GOOS w) (TempDir w) (Getpid w) (fs w) (next_ino w)
               (open_files w ∖ {[ h_ino h ]}) (procs w)).

(** [syscall.Kill(pid, 0)] for [pid > 0]: no signal is sent, the
    existence of the process and the permission to signal it are
    checked. *)
Definition Kill0 (pid : Z) : M (option Errno) := fun w =>
  match procs w !! pid with
  | None => (Some ESRCH, w)
  | Some true => (None, w)
  | Some false => (Some EPERM, w)
  end.

(** The host as another of its processes, [pid], sees it. *)
Definition as_process (pid : Z) (w : World) : World :=
  mkWorld (GOOS w) (TempDir w) pid (fs w) (next_ino w) ∅ (procs w).

(** The process [pid] exists. *)
Definition alive (w : World) (pid : Z) : bool := bool_decide (is_Some (procs w !! pid)).

End os.

Notation "'do' x <- c1 ; c2" := (os.bind c1 (fun x => c2))
  (at level 10, x pattern, c1 at level 100, c2 at level 200).

(** ** pkg/util/filelock.go *)

Module util.
Import os.

Section Filelock.
(** [filepath.Join] of the standard library. *)
Variable filepath_Join : string -> string -> string.

(** [type FileLock struct { File *os.File; Path string }] *)
Record FileLock := mkFileLock { File : option Handle; Path : string }.

Definition GetLockFilePath (appName : string) : M string := fun w =>
  (filepath_Join (TempDir w) (appName +:+ ".lock"), w).

Definition isProcessRunning (pid : Z) : M bool :=
  if pid <=? 0 then ret false
  else fun w =>
    if negb (String.eqb (GOOS w) "windows") then
      (do err <- Kill0 pid;
       match err with
       | None => ret true
       | Some _ => ret false
       end) w
    else (true, w).

Definition AcquireApplicationLock (appName : string) : M (option Handle * string) :=
  do lockPath <- GetLockFilePath appName;
  do busy <-
    (do err <- Stat lockPath;
     match err with
     | None =>
         do busy <-
           (do rd <- ReadFile lockPath;
            match rd with
            | inl pidBytes =>
                match strconv.Atoi pidBytes with
                | Some pid => isProcessRunning pid
                | None => ret false
                end
            | inr _ => ret false
            end);
         if busy : bool then ret true
         else do _ <- Remove lockPath; ret false
     | Some _ => ret false
     end);
  if busy : bool then ret (None, EmptyString)
  else
    do op <- OpenFile_excl lockPath;
    match op with
    | inr _ => ret (None, EmptyString)
    | inl f =>
        do pid <- (fun w => (Getpid w, w));
        do _ <- Write f (strconv.FormatInt pid);
        ret (Some f, lockPath)
    end.

Definition AcquireLock (appName : string) : M (option FileLock) :=
  do r <- AcquireApplicationLock appName;
  match r with
  | (None, _) => ret None
  | (Some file, path) => ret (Some (mkFileLock (Some file) path))
  end.

Definition ReleaseFileLock (lockFile : option Handle) (lockPath : string) : M unit :=
  do _ <- match lockFile with
          | Some f => Close f
          | None => ret tt
          end;
  if decide (lockPath = EmptyString) then ret tt
  else do _ <- Remove lockPath; ret tt.

(** [Release] of a [FileLock], nil receiver included. *)
Definition Release (l : option FileLock) : M unit :=
  match l with
  | None => ret tt
  | Some l => ReleaseFileLock (File l) (Path l)
  end.

Definition IsLocked (appName : string) : M (bool * Z) :=
  do lockPath <- GetLockFilePath appName;
  do err <- Stat lockPath;
  if IsNotExist err then ret (false, 0)
  else
    do rd <- ReadFile lockPath;
    match rd with
    | inr _ => ret (true, 0)
    | inl pidBytes =>
        match strconv.Atoi pidBytes with
        | None => ret (false, 0)
        | Some pid =>
            do running <- isProcessRunning pid;
            if running : bool then ret (true, pid) else ret (false, 0)
        end
    end.

(** *** What the guard finds at a lock path

    The cases the code tells apart, in the order it tests them. *)
Definition running (pid : Z) (w : World) : bool := fst (isProcessRunning pid w).

Inductive LockRecord :=
| Absent                (* no file *)
| Unreadable            (* [os.ReadFile] fails *)
| Corrupt               (* [strconv.Atoi] fails *)
| Stale (pid : Z)       (* the probe answers no *)
| Held (pid : Z).       (* the probe answers yes *)

Definition classify (w : World) (path : string) : LockRecord :=
  match entry w path with
  | None => Absent
  | Some f =>
      if readable f then
        match strconv.Atoi (content f) with
        | None => Corrupt
        | Some pid => if running pid w then Held pid else Stale pid
        end
      else Unreadable
  end.

Definition may_remove (w : World) (path : string) : bool :=
  match entry w path with
  | Some f => removable f
  | None => false
  end.

(** The world a successful acquisition leaves: a new file under
    [path], holding the caller's PID, and its descriptor open. *)
Definition locked_world (w : World) (path : string) : World :=
  mkWorld (GOOS w) (TempDir w) (Getpid w)
          (<[path := mkFile (next_ino w) (strconv.FormatInt (Getpid w)) true true]> (fs w))
          (S (next_ino w)) ({[ next_ino w ]} ∪ open_files w) (procs w).

Definition lock_path (w : World) (appName : string) : string :=
  fst (GetLockFilePath appName w).

(** *** The acquisition as the sequence of system calls it makes

    Between two of its system calls another process can run.  A
    program point stands before one call; [self] is the PID of the
    process that executes. *)
Inductive pc :=
| AtStat
| AtRead
| AtProbe (pid : Z)
| AtRemove
| AtCreate
| AtWrite (f : Handle)
| Done (r : option Handle * string).

Definition acquire_step (lockPath : string) (self : Z) (p : pc) : M pc :=
  match p with
  | AtStat =>
      do err <- Stat lockPath;
      match err with None => ret AtRead | Some _ => ret AtCreate end
  | AtRead =>
      do rd <- ReadFile lockPath;
      match rd with
      | inl pidBytes =>
          match strconv.Atoi pidBytes with
          | Some pid => ret (AtProbe pid)
          | None => ret AtRemove
          end
      | inr _ => ret AtRemove
      end
  | AtProbe pid =>
      do running <- isProcessRunning pid;
      if running : bool then ret (Done (None, EmptyString)) else ret AtRemove
  | AtRemove => do _ <- Remove lockPath; ret AtCreate
  | AtCreate =>
      do op <- OpenFile_excl lockPath;
      match op with
      | inr _ => ret (Done (None, EmptyString))
      | inl f => ret (AtWrite f)
      end
  | AtWrite f =>
      do _ <- Write f (strconv.FormatInt self); ret (Done (Some f, lockPath))
  | Done r => ret (Done r)
  end.

Fixpoint run_steps (n : nat) (lockPath : string) (self : Z) (p : pc) : M pc :=
  match n with
  | O => ret p
  | S n => do p' <- acquire_step lockPath self p; run_steps n lockPath self p'
  end.

(** Two processes on one host acquire the same name. *)
Inductive tid := ProcA | ProcB.

Record Race := mkRace { pcA : pc; pcB : pc; host : World }.

Definition race_step (lockPath : string) (pidA pidB : Z) (c : Race) (t : tid) : Race :=
  match t with
  | ProcA => let '(p, w) := acquire_step lockPath pidA (pcA c) (host c) in
             mkRace p (pcB c) w
  | ProcB => let '(p, w) := acquire_step lockPath pidB (pcB c) (host c) in
             mkRace (pcA c) p w
  end.

Definition race_run (lockPath : string) (pidA pidB : Z) (sched : list tid) (c : Race) : Race :=
  fold_left (race_step lockPath pidA pidB) sched c.

(** The process was given a descriptor by [os.OpenFile]. *)
Definition holds (p : pc) : bool :=
  match p with
  | AtWrite _ | Done (Some _, _) => true
  | _ => false
  end.

(** The process is past the test of an existing record: it will not
    call [os.Remove] any more. *)
Definition past_check (p : pc) : bool :=
  match p with
  | AtCreate | AtWrite _ | Done _ => true
  | _ => false
  end.

(** What holds of a race whose two processes both went straight to
    the creation. *)
Definition race_inv (lockPath : string) (c : Race) : Prop :=
  past_check (pcA c) = true /\ past_check (pcB c) = true
  /\ (holds (pcA c) || holds (pcB c) = true -> entry (host c) lockPath <> None)
  /\ holds (pcA c) && holds (pcB c) = false.





End Filelock.

(** [filepath.Join] where both operands are clean already. *)
Definition join_clean (dir file : string) : string := dir +:+ "/" +:+ file.

End util.

(** ** pkg/sync: context.go, handlers.go, command.go *)

Module Command.
(** [type Command struct]; the values of [Parameters] are kept as the
    JSON text they arrived in. *)
Record t := mk {
  Command : string;
  Timestamp : string;
  RequestID : string;
  Parameters : gmap string string
}.
End Command.

Module CommandResult.
Record t := mk {
  Success : bool;
  Message : string;
  RequestID : string
}.
End CommandResult.

Module sync.

(** *** context.go *)

Inductive NodeStatus :=
| StatusDiscovered | StatusPending | StatusStarting | StatusRunning
| StatusStopping | StatusStopped | StatusError | StatusUnknown.

Definition status_string (s : NodeStatus) : string :=
  match s with
  | StatusDiscovered => "discovered"
  | StatusPending => "pending"
  | StatusStarting => "starting"
  | StatusRunning => "running"
  | StatusStopping => "stopping"
  | StatusStopped => "stopped"
  | StatusError => "error"
  | StatusUnknown => "unknown"
  end.

(** [type NodeContext struct].  [done] is the state of the context made
    by [context.WithCancel] in the constructor; [status] is the
    [atomic.Value], empty until the first [Store]; a shutdown hook is
    known by the number it was registered under, and running it leaves
    that number in the trace [hooks_run] of the process. *)
Record NodeContext := mkNodeContext {
  done : bool;
  nodeName : string;
  version : string;
  status : option NodeStatus;
  startTime : Z;
  shutdownHooks : list nat
}.

(** *** The process the package runs in *)

(** What the broker and the engine answer. *)
Record Net := mkNet {
  mqtt_connect_ok : bool;
  mqtt_subscribe_ok : bool;
  mqtt_publish_ok : bool;
  http_status : option nat          (* [None]: the POST itself failed *)
}.

Inductive Body :=
| RegisterMsg (instanceID : string) (pid : Z)
| HeartbeatMsg (instanceID : string) (status : string) (pid uptime : Z).

Record Publication := mkPublication { topic : string; sent_at : Z; body : Body }.

(** Goroutines started with [go]. *)
Inductive Task :=
| ReconnectLoop
| CommandReceiverTask (brokerURL : string)
| HeartbeatLoop.

Record LogLine := mkLog { site : string; args : list string }.

Record Proc := mkProc {
  host : os.World;
  env : gmap string string;          (* os.Getenv *)
  hostname : option string;          (* os.Hostname, [None] on error *)
  clock : Z;                         (* time.Now, in nanoseconds *)
  net : Net;
  heap : gmap nat NodeContext;       (* the [NodeContext] objects *)
  log : list LogLine;                (* newest last *)
  hooks_run : list nat;              (* newest last *)
  spawned : list Task;
  published : list Publication       (* newest last *)
}.

Definition set_host (p : Proc) (w : os.World) : Proc :=
  mkProc w (env p) (hostname p) (clock p) (net p) (heap p) (log p)
         (hooks_run p) (spawned p) (published p).
Definition set_clock (p : Proc) (t : Z) : Proc :=
  mkProc (host p) (env p) (hostname p) t (net p) (heap p) (log p)
         (hooks_run p) (spawned p) (published p).
Definition set_heap (p : Proc) (h : gmap nat NodeContext) : Proc :=
  mkProc (host p) (env p) (hostname p) (clock p) (net p) h (log p)
         (hooks_run p) (spawned p) (published p).
Definition add_log (p : Proc) (l : LogLine) : Proc :=
  mkProc (host p) (env p) (hostname p) (clock p) (net p) (heap p) (log p ++ [l])
         (hooks_run p) (spawned p) (published p).
Definition add_hook_run (p : Proc) (h : nat) : Proc :=
  mkProc (host p) (env p) (hostname p) (clock p) (net p) (heap p) (log p)
         (hooks_run p ++ [h]) (spawned p) (published p).
Definition add_task (p : Proc) (t : Task) : Proc :=
  mkProc (host p) (env p) (hostname p) (clock p) (net p) (heap p) (log p)
         (hooks_run p) (spawned p ++ [t]) (published p).
Definition add_publication (p : Proc) (m : Publication) : Proc :=
  mkProc (host p) (env p) (hostname p) (clock p) (net p) (heap p) (log p)
         (hooks_run p) (spawned p) (published p ++ [m]).

(** The process after the hooks [hs] ran, in that order. *)
Definition add_hooks_run (p : Proc) (hs : list nat) : Proc :=
  mkProc (host p) (env p) (hostname p) (clock p) (net p) (heap p) (log p)
         (hooks_run p ++ hs) (spawned p) (published p).

(** A call returns, ends the process ([os.Exit]) or panics. *)
Inductive Outcome (A : Type) :=
| Returned (a : A) (p : Proc)
| Exited (code : Z) (p : Proc)
| Panicked (p : Proc).
Arguments Returned {A} a p.
Arguments Exited {A} code p.
Arguments Panicked {A} p.

Definition P (A : Type) : Type := Proc -> Outcome A.
Definition ret {A} (a : A) : P A := fun p => Returned a p.
Definition bind {A B} (m : P A) (k : A -> P B) : P B := fun p =>
  match m p with
  | Returned a p' => k a p'
  | Exited c p' => Exited c p'
  | Panicked p' => Panicked p'
  end.

Definition lift {A} (m : os.M A) : P A := fun p =>
  let '(a, w) := m (host p) in Returned a (set_host p w).
Definition logf (s : string) (a : list string) : P unit := fun p =>
  Returned tt (add_log p (mkLog s a)).
Definition go (t : Task) : P unit := fun p => Returned tt (add_task p t).
Definition Exit (code : Z) : P unit := fun p => Exited code p.
Definition now : P Z := fun p => Returned (clock p) p.
Definition Sleep (d : Z) : P unit := fun p => Returned tt (set_clock p (clock p + d)).
Definition Getenv (key : string) : P string := fun p =>
  Returned (default EmptyString (env p !! key)) p.
Definition Getpid : P Z := fun p => Returned (os.Getpid (host p)) p.

End sync.

Notation "'let*' x := c1 'in' c2" := (sync.bind c1 (fun x => c2))
  (at level 10, x pattern, c1 at level 100, c2 at level 200).

Module context.
Import sync.

(** [*NodeContext]; [None] is nil. *)
Definition ptr : Type := option nat.

Definition deref (c : ptr) : P NodeContext := fun p =>
  match c with
  | None => Panicked p
  | Some a =>
      match heap p !! a with
      | Some x => Returned x p
      | None => Panicked p
      end
  end.

Definition store (c : ptr) (x : NodeContext) : P unit := fun p =>
  match c with
  | None => Panicked p
  | Some a => Returned tt (set_heap p (<[a := x]> (heap p)))
  end.

Definition alloc (x : NodeContext) : P ptr := fun p =>
  let a := fresh (dom (heap p)) in
  Returned (Some a) (set_heap p (<[a := x]> (heap p))).

(** The value a [context.Context] carries under [contextKey{}], if any. *)
Definition Context : Type := option ptr.
Definition Background : Context := None.

Definition NewNodeContextWithVersion (parent : Context) (name ver : string) : P ptr :=
  let* t := now in
  alloc (mkNodeContext false name ver (Some StatusStarting) t []).

Definition NewNodeContext (parent : Context) (name ver : string) : P ptr :=
  NewNodeContextWithVersion parent name ver.

Definition GetNodeName (c : ptr) : P string :=
  let* x := deref c in ret (nodeName x).

Definition GetVersion (c : ptr) : P string :=
  let* x := deref c in ret (version x).

Definition GetStartTime (c : ptr) : P Z :=
  let* x := deref c in ret (startTime x).

Definition Second : Z := 1000000000.
Definition Millisecond : Z := 1000000.
Definition Minute : Z := 60 * Second.

(** [int64(time.Since(c.startTime).Seconds())] *)
Definition GetUptime (c : ptr) : P Z :=
  let* x := deref c in
  let* t := now in
  ret (Z.quot (t - startTime x) Second).

Definition SetStatus (c : ptr) (s : NodeStatus) : P unit :=
  let* x := deref c in
  store c (mkNodeContext (done x) (nodeName x) (version x) (Some s)
                         (startTime x) (shutdownHooks x)).

Definition GetStatus (c : ptr) : P NodeStatus :=
  let* x := deref c in
  match status x with
  | Some v => ret v
  | None => ret StatusUnknown
  end.

Definition Cancel (c : ptr) : P unit :=
  let* _ := SetStatus c StatusStopping in
  let* x := deref c in
  store c (mkNodeContext true (nodeName x) (version x) (status x)
                         (startTime x) (shutdownHooks x)).

Definition AddShutdownHook (c : ptr) (hook : nat) : P unit :=
  let* x := deref c in
  store c (mkNodeContext (done x) (nodeName x) (version x) (status x)
                         (startTime x) (shutdownHooks x ++ [hook])).

(** The call [c.shutdownHooks[i]()]. *)
Definition call_hook (hooks : list nat) (i : nat) : P unit := fun p =>
  match hooks !! i with
  | Some h => Returned tt (add_hook_run p h)
  | None => Panicked p
  end.

(** [for i := n - 1; i >= 0; i-- { c.shutdownHooks[i]() }] *)
Fixpoint hooks_downfrom (hooks : list nat) (n : nat) : P unit :=
  match n with
  | O => ret tt
  | S i => let* _ := call_hook hooks i in hooks_downfrom hooks i
  end.

Definition ExecuteShutdownHooks (c : ptr) : P unit :=
  let* x := deref c in
  let* _ := hooks_downfrom (shutdownHooks x) (length (shutdownHooks x)) in
  SetStatus c StatusStopped.

Definition WithNodeContext (parent : Context) (nodeCtx : ptr) : Context := Some nodeCtx.

Definition GetNodeContextFromContext (ctx : Context) : ptr :=
  match ctx with
  | Some v => v
  | None => None
  end.

(** The pointer is nil or points to a node context of the process. *)
Definition valid (nc : ptr) (p : Proc) : Prop :=
  nc = None \/ exists c, nc = Some c /\ is_Some (heap p !! c).

End context.

Module handlers.
Import sync context.

(** [type CommandHandler interface] *)
Record CommandHandler := mkHandler {
  Handle : Context -> Command.t -> P (option CommandResult.t * option string);
  GetCommandName : string
}.

(** [StopHandler]; [cancel] is the [context.CancelFunc] it was made
    with, [None] for nil. *)
Definition NewStopHandler (cancel : option (P unit)) : CommandHandler :=
  mkHandler
    (fun ctx cmd =>
       let* _ := logf "stop command received" [] in
       let nodeCtx := GetNodeContextFromContext ctx in
       let* _ := match nodeCtx with
                 | Some _ => SetStatus nodeCtx StatusStopping
                 | None => ret tt
                 end in
       let* _ := match cancel with
                 | Some f => f
                 | None => ret tt
                 end in
       ret (Some (CommandResult.mk true "Shutdown signal sent" (Command.RequestID cmd)),
            None))
    "stop".

Definition NewStatusHandler : CommandHandler :=
  mkHandler
    (fun ctx cmd =>
       let nodeCtx := GetNodeContextFromContext ctx in
       let* st := match nodeCtx with
                  | Some _ => GetStatus nodeCtx
                  | None => ret StatusUnknown
                  end in
       ret (Some (CommandResult.mk true (status_string st) (Command.RequestID cmd)),
            None))
    "status".

Definition NewRestartHandler (nodeCtx : ptr) : CommandHandler :=
  mkHandler
    (fun ctx cmd =>
       let* _ := logf "restart command received" [] in
       let* _ := match nodeCtx with
                 | Some _ =>
                     let* _ := SetStatus nodeCtx StatusStopping in
                     Cancel nodeCtx
                 | None => ret tt
                 end in
       ret (Some (CommandResult.mk true "Restart initiated" (Command.RequestID cmd)),
            None))
    "restart".

Definition formatNodeInfo (nodeCtx : ptr) : P string :=
  let* name := GetNodeName nodeCtx in
  let* ver := GetVersion nodeCtx in
  let* st := GetStatus nodeCtx in
  let* pid := Getpid in
  let* up := GetUptime nodeCtx in
  ret ("node_name=" +:+ name +:+ ",version=" +:+ ver +:+ ",status=" +:+ status_string st
       +:+ ",pid=" +:+ strconv.FormatInt pid +:+ ",uptime=" +:+ strconv.FormatInt up).

Definition NewQueryHandler : CommandHandler :=
  mkHandler
    (fun ctx cmd =>
       let nodeCtx := GetNodeContextFromContext ctx in
       match nodeCtx with
       | None =>
           ret (Some (CommandResult.mk false "Node context not available"
                                       (Command.RequestID cmd)), None)
       | Some _ =>
           let* info := formatNodeInfo nodeCtx in
           ret (Some (CommandResult.mk true info (Command.RequestID cmd)), None)
       end)
    "query".

Definition NewCustomHandler
           (name : string)
           (handler : Context -> Command.t -> P (option CommandResult.t * option string))
  : CommandHandler :=
  mkHandler (fun ctx cmd => handler ctx cmd) name.


End handlers.

Module command.
Import sync context handlers.

Definition TopicHeartbeat (n : string) : string := "v1/subapp/pcs/" +:+ n +:+ "/heartbeat".
Definition TopicRegister (n : string) : string := "v1/subapp/pcs/" +:+ n +:+ "/register".
Definition TopicControl (n : string) : string := "v1/subapp/pcs/" +:+ n +:+ "/control".

Inductive ReceiverStatus :=
| ReceiverStatusStopped | ReceiverStatusRunning | ReceiverStatusError.

(** The [mqtt.Client] of the paho library. *)
Record Client := mkClient { IsConnected : bool; subscriptions : list string }.

(** [type CommandReceiver struct].  [cancelFunc] is [None] while the
    field is nil, and then tells whether the function has been
    called. *)
Record CommandReceiver := mkReceiver {
  nodeName : string;
  instanceID : string;
  brokerURL : string;
  client : option Client;
  handlers : gmap string CommandHandler;
  status : ReceiverStatus;
  nodeCtx : ptr;
  cancelFunc : option bool
}.

Definition NewCommandReceiver (name url : string) : CommandReceiver :=
  mkReceiver name name url None ∅ ReceiverStatusStopped None None.

Definition NewCommandReceiverWithInstanceID (name id url : string) : CommandReceiver :=
  mkReceiver name id url None ∅ ReceiverStatusStopped None None.

Definition RegisterHandler (r : CommandReceiver) (cmd : string) (h : CommandHandler)
  : CommandReceiver :=
  mkReceiver (nodeName r) (instanceID r) (brokerURL r) (client r)
             (<[cmd := h]> (handlers r)) (status r) (nodeCtx r) (cancelFunc r).

Definition GetStatus (r : CommandReceiver) : ReceiverStatus := status r.

Definition Publish (t : string) (b : Body) : P bool := fun p =>
  if mqtt_publish_ok (net p)
  then Returned true (add_publication p (mkPublication t (clock p) b))
  else Returned false p.

Definition sendRegisterMessage (r : CommandReceiver) : P unit :=
  let* _ := GetVersion (nodeCtx r) in
  let* pid := Getpid in
  let* _ := GetStartTime (nodeCtx r) in
  let* ok := Publish (TopicRegister (nodeName r)) (RegisterMsg (instanceID r) pid) in
  if ok : bool then logf "register message sent" [instanceID r]
  else logf "register message failed" [instanceID r].

(** [getCPUUsage] samples the processor for half a second. *)
Definition getCPUUsage : P unit := Sleep (500 * Millisecond).

Definition sendHeartbeat (r : CommandReceiver) : P unit :=
  match client r with
  | None => ret tt
  | Some c =>
      if negb (IsConnected c) then ret tt
      else
        let* _ := getCPUUsage in
        let* st := context.GetStatus (nodeCtx r) in
        let* pid := Getpid in
        let* up := GetUptime (nodeCtx r) in
        let* _ := GetVersion (nodeCtx r) in
        let* ok := Publish (TopicHeartbeat (nodeName r))
                           (HeartbeatMsg (instanceID r) (status_string st) pid up) in
        if ok : bool then ret tt
        else logf "heartbeat failed" [instanceID r]
  end.

(** [time.Ticker]: the instant of the next tick and the period. *)
Record Ticker := mkTicker { next_tick : Z; period : Z }.

Definition NewTicker (d : Z) : P Ticker := fun p =>
  Returned (mkTicker (clock p + d) d) p.

(** [<-ticker.C]: blocks until the next tick. *)
Definition await (t : Ticker) : P Ticker := fun p =>
  Returned (mkTicker (next_tick t + period t) (period t))
           (set_clock p (Z.max (clock p) (next_tick t))).

(** The rounds of the [for { select { ... } }] in which the ticker
    fires, the context not being cancelled meanwhile. *)
Fixpoint heartbeat_rounds (n : nat) (r : CommandReceiver) (t : Ticker) : P unit :=
  match n with
  | O => ret tt
  | S n =>
      let* t' := await t in
      let* _ := sendHeartbeat r in
      heartbeat_rounds n r t'
  end.

Definition heartbeatLoop (rounds : nat) (r : CommandReceiver) : P unit :=
  let* ticker := NewTicker (30 * Second) in
  let* _ := Sleep (1 * Second) in
  let* _ := sendHeartbeat r in
  heartbeat_rounds rounds r ticker.

(** The instants [first], [first + d], [first + 2 d], ..., [n] of them. *)
Definition tick_times (first d : Z) (n : nat) : list Z :=
  map (fun i => first + d * Z.of_nat i) (seq 0 n).

Definition is_heartbeat (m : Publication) : bool :=
  match body m with
  | HeartbeatMsg _ _ _ _ => true
  | RegisterMsg _ _ => false
  end.

(** The instants at which the process published a heartbeat. *)
Definition heartbeat_instants (p : Proc) : list Z :=
  map sent_at (List.filter is_heartbeat (published p)).

(** The receiver can send: its node context exists, its client is
    connected, the broker takes the message. *)
Definition can_send (r : CommandReceiver) (p : Proc) : Prop :=
  (exists c x, nodeCtx r = Some c /\ heap p !! c = Some x)
  /\ (exists cl, client r = Some cl /\ IsConnected cl = true)
  /\ mqtt_publish_ok (net p) = true.

(** [Start]; [ctx] is the context it is given.  The callback
    [OnConnect] is run when the connection is made. *)
Definition Start (r : CommandReceiver) (ctx : Context)
  : P (option string * CommandReceiver) :=
  let* nc := match GetNodeContextFromContext ctx with
             | Some a => ret (Some a)
             | None => NewNodeContext ctx (nodeName r) EmptyString
             end in
  let* ok := (fun p => Returned (mqtt_connect_ok (net p)) p) in
  if ok : bool then
    let* _ := logf "receiver connected" [instanceID r] in
    let* sub := (fun p => Returned (mqtt_subscribe_ok (net p)) p) in
    let* _ := if sub : bool
              then logf "subscribed" [instanceID r; TopicControl (nodeName r)]
              else logf "subscribe failed" [instanceID r] in
    let r2 := mkReceiver (nodeName r) (instanceID r) (brokerURL r)
                         (Some (mkClient true
                                  (if sub : bool then [TopicControl (nodeName r)] else [])))
                         (handlers r) (status r) nc (Some false) in
    let* _ := sendRegisterMessage r2 in
    let r3 := mkReceiver (nodeName r) (instanceID r) (brokerURL r) (client r2)
                         (handlers r) ReceiverStatusRunning nc (Some false) in
    let* _ := SetStatus nc StatusRunning in
    let* _ := go HeartbeatLoop in
    ret (None, r3)
  else
    ret (Some "MQTT connect failed"%string,
         mkReceiver (nodeName r) (instanceID r) (brokerURL r)
                    (Some (mkClient false [])) (handlers r) ReceiverStatusError
                    nc (Some false)).

Definition Stop (r : CommandReceiver) : CommandReceiver :=
  let cancel := match cancelFunc r with
                | Some _ => Some true
                | None => None
                end in
  let cl := match client r with
            | Some c =>
                if IsConnected c
                then Some (mkClient false
                             (filter (fun t => t <> TopicControl (nodeName r))
                                     (subscriptions c)))
                else Some c
            | None => None
            end in
  mkReceiver (nodeName r) (instanceID r) (brokerURL r) cl (handlers r)
             ReceiverStatusStopped (nodeCtx r) cancel.

Section Dispatch.
(** [json.Unmarshal] into a [Command]. *)
Variable json_Unmarshal : string -> option Command.t.

Definition show_result (res : option CommandResult.t) : list string :=
  match res with
  | Some x => [if CommandResult.Success x then "true" else "false";
               CommandResult.Message x; CommandResult.RequestID x]%string
  | None => []
  end.

Definition handleControlMessage (r : CommandReceiver) (payload : string) : P unit :=
  match json_Unmarshal payload with
  | None => logf "control message undecodable" [nodeName r]
  | Some cmd =>
      let* _ := logf "control command" [nodeName r; Command.Command cmd] in
      match handlers r !! Command.Command cmd with
      | Some handler =>
          let ctx := WithNodeContext Background (nodeCtx r) in
          let* out := Handle handler ctx cmd in
          match out with
          | (_, Some err) => logf "command failed" [nodeName r; err]
          | (result, None) => logf "command result" (nodeName r :: show_result result)
          end
      | None => logf "no handler" [nodeName r; Command.Command cmd]
      end
  end.
End Dispatch.


End command.

(** ** pkg/transport/mqtt.go *)

Module transport.
Import sync.

Definition ControlTopic (n : string) : string := "v1/node/sync/" +:+ n +:+ "/control".
Definition HeartbeatTopic (n : string) : string := "v1/node/sync/" +:+ n +:+ "/heartbeat".
Definition LogTopic (n : string) : string := "v1/node/sync/" +:+ n +:+ "/log".

(** [type MQTTClient struct].  The callback [onControl] is only ever
    set to the method [handleControl] of the instance that owns the
    client, so the field records whether it is set. *)
Record MQTTClient := mkMQTTClient {
  NodeName : string;
  client : command.Client;
  connected : bool;
  controlTopic : string;
  statusTopic : string;
  logTopic : string;
  onControl : bool
}.

Definition NewMQTTClientWithID (name clientID url user pass : string) : MQTTClient :=
  mkMQTTClient name (command.mkClient false []) false
               (ControlTopic name) (HeartbeatTopic name) (LogTopic name) false.

(** [Connect]; the callback [onConnect] is run when the connection is
    made. *)
Definition Connect (m : MQTTClient) : P (option string * MQTTClient) := fun p =>
  if mqtt_connect_ok (net p) then
    let up := mkMQTTClient (NodeName m) (command.mkClient true (command.subscriptions (client m)))
                           true (controlTopic m) (statusTopic m) (logTopic m) (onControl m) in
    if mqtt_subscribe_ok (net p) then
      Returned (None,
                mkMQTTClient (NodeName m)
                             (command.mkClient true (command.subscriptions (client m)
                                                     ++ [controlTopic m]))
                             true (controlTopic m) (statusTopic m) (logTopic m) (onControl m))
               (add_log p (mkLog "transport connected" [NodeName m]))
    else Returned (Some "subscribe failed"%string, up)
                  (add_log p (mkLog "transport connected" [NodeName m]))
  else Returned (Some "connect failed"%string, m) p.

Definition Disconnect (m : MQTTClient) : MQTTClient :=
  if connected m then
    mkMQTTClient (NodeName m)
                 (command.mkClient false
                    (filter (fun t => t <> controlTopic m) (command.subscriptions (client m))))
                 (connected m) (controlTopic m) (statusTopic m) (logTopic m) (onControl m)
  else m.

Definition SetControlHandler (m : MQTTClient) : MQTTClient :=
  mkMQTTClient (NodeName m) (client m) (connected m)
               (controlTopic m) (statusTopic m) (logTopic m) true.

Definition IsConnected (m : MQTTClient) : bool :=
  connected m && command.IsConnected (client m).

Definition StatusTopic (n : string) : string := "v1/node/sync/" +:+ n +:+ "/status".

(** The callback [onConnectionLost]. *)
Definition onConnectionLost (m : MQTTClient) : P MQTTClient :=
  let* _ := logf "transport connection lost" [NodeName m] in
  ret (mkMQTTClient (NodeName m) (client m) false
                    (controlTopic m) (statusTopic m) (logTopic m) (onControl m)).

(** What can be passed as the [payload interface{}] of [Publish], and
    what goes out for it: bytes and strings as they are, the three
    structures of the package as their JSON encoding, and a value that
    [json.Marshal] refuses (a channel, a function). *)
Inductive Payload :=
| Bytes (data : string)
| Text (data : string)
| HeartbeatData (status : string) (pid : Z)
| StatusData (status : string) (pid : Z) (details : gmap string string)
| LogData (level message source : string)
| Unencodable.

(** A message handed to the library's [Publish]. *)
Record Sent := mkSent {
  s_topic : string;
  s_qos : nat;
  s_retained : bool;
  s_payload : Payload
}.

(** The send operations thread the queue of messages handed to the
    library, newest last; the process is only read (the answer of the
    broker, the PID). *)
Definition T (A : Type) : Type := Proc -> list Sent -> A * list Sent.

Definition errNotConnected : string := "MQTT client not connected".

Definition Publish (m : MQTTClient) (topic : string) (qos : nat) (retained : bool)
           (payload : Payload) : T (option string) := fun p out =>
  if negb (IsConnected m) then (Some errNotConnected, out)
  else
    match payload with
    | Unencodable => (Some "failed to marshal payload"%string, out)
    | _ =>
        if mqtt_publish_ok (net p)
        then (None, out ++ [mkSent topic qos retained payload])
        else (Some "publish failed"%string, out)
    end.

(** [Subscribe] and [Unsubscribe] return the error and the client with
    its subscriptions as the broker has them. *)
Definition with_subscriptions (m : MQTTClient) (subs : list string) : MQTTClient :=
  mkMQTTClient (NodeName m)
               (command.mkClient (command.IsConnected (client m)) subs)
               (connected m) (controlTopic m) (statusTopic m) (logTopic m) (onControl m).

Definition Subscribe (m : MQTTClient) (topic : string) (qos : nat)
  : P (option string * MQTTClient) := fun p =>
  if negb (IsConnected m) then Returned (Some errNotConnected, m) p
  else if mqtt_subscribe_ok (net p)
       then Returned (None, with_subscriptions m (command.subscriptions (client m) ++ [topic])) p
       else Returned (Some "subscribe failed"%string, m) p.

(** [accepted] is the answer of the broker to the request. *)
Definition Unsubscribe (m : MQTTClient) (topics : list string) (accepted : bool)
  : P (option string * MQTTClient) := fun p =>
  if negb (IsConnected m) then Returned (Some errNotConnected, m) p
  else if accepted
       then Returned (None,
                      with_subscriptions m
                        (filter (fun t => t ∉ topics) (command.subscriptions (client m)))) p
       else Returned (Some "unsubscribe failed"%string, m) p.

Definition SendHeartbeat (m : MQTTClient) : T (option string) := fun p out =>
  if negb (IsConnected m) then (Some errNotConnected, out)
  else Publish m (statusTopic m) 1 false
               (HeartbeatData "running" (os.Getpid (host p))) p out.

Definition SendStatus (m : MQTTClient) (status : string) (details : gmap string string)
  : T (option string) := fun p out =>
  if negb (IsConnected m) then (Some errNotConnected, out)
  else Publish m (statusTopic m) 1 false
               (StatusData status (os.Getpid (host p)) details) p out.

Definition SendLog (m : MQTTClient) (level message : string) : T (option string) :=
  fun p out =>
  if negb (IsConnected m) then (Some errNotConnected, out)
  else Publish m (logTopic m) 1 false (LogData level message (NodeName m)) p out.

Definition GetControlTopic (m : MQTTClient) : string := controlTopic m.
Definition GetStatusTopic (m : MQTTClient) : string := statusTopic m.
Definition GetLogTopic (m : MQTTClient) : string := logTopic m.

End transport.

(** ** pkg/node/node.go *)

Module node.
Import sync context handlers.

Definition DefaultMQTTBroker : string := "tcp://127.0.0.1:1883".
Definition ReconnectInterval : Z := 15 * Minute.
Definition HeartbeatInterval : Z := 30 * Second.

Record Config := mkConfig {
  MQTTBroker : string;
  MQTTUsername : string;
  MQTTPassword : string;
  EngineEndpoint : string;
  cfg_HeartbeatInterval : Z;
  EnableFileLock : bool;
  Metadata : gmap string string
}.

(** [type Instance struct].  [ctx] is [None] while [ctx] and [cancel]
    are nil, and then tells whether the context is done. *)
Record Instance := mkInstance {
  NodeName : string;
  InstanceID : string;
  Hostname : string;
  PID : Z;
  mqttClient : option transport.MQTTClient;
  receiver : option command.CommandReceiver;
  connected : bool;
  ctx : option bool;
  fileLock : option util.FileLock;
  config : Config
}.

Definition getEnvOrDefault (key def : string) : P string :=
  let* v := Getenv key in
  if decide (v = EmptyString) then ret def else ret v.

Definition getMQTTBroker : P string := fun p =>
  (if String.eqb (os.GOOS (host p)) "windows" || String.eqb (os.GOOS (host p)) "darwin"
   then
     let* e := Getenv "MQTT_BROKER_URL" in
     if decide (e = EmptyString)
     then getEnvOrDefault "MQTT_BROKER_URL" DefaultMQTTBroker
     else ret e
   else getEnvOrDefault "MQTT_BROKER_URL" DefaultMQTTBroker) p.

Definition DefaultConfig : P Config :=
  let* b := getMQTTBroker in
  ret (mkConfig b EmptyString EmptyString EmptyString HeartbeatInterval false ∅).

(** The package variable [Endpoint] is left at its zero value. *)
Definition resolveEndpoint : P string :=
  let* e := Getenv "NODE_ENGINE_URL" in
  if decide (e = EmptyString) then ret "http://localhost:9957"%string else ret e.

Definition GetInstanceID (nodeName : string) : P string := fun p =>
  let h := match hostname p with Some h => h | None => "unknown"%string end in
  Returned (nodeName +:+ "-" +:+ h +:+ "-" +:+ strconv.FormatInt (os.Getpid (host p))) p.

Definition set_receiver (inst : Instance) (r : command.CommandReceiver) : Instance :=
  mkInstance (NodeName inst) (InstanceID inst) (Hostname inst) (PID inst)
             (mqttClient inst) (Some r) (connected inst) (ctx inst)
             (fileLock inst) (config inst).

(** [Stop] *)
Definition Stop (inst : Instance) : P Instance :=
  let c := match ctx inst with
           | Some _ => Some true
           | None => None
           end in
  let m := match mqttClient inst with
           | Some m => Some (transport.Disconnect m)
           | None => None
           end in
  let r := match receiver inst with
           | Some r => Some (command.Stop r)
           | None => None
           end in
  let* _ := match fileLock inst with
            | Some l =>
                let* _ := lift (util.Release (Some l)) in
                logf "file lock released" [NodeName inst]
            | None => ret tt
            end in
  ret (mkInstance (NodeName inst) (InstanceID inst) (Hostname inst) (PID inst)
                  m r (connected inst) c (fileLock inst) (config inst)).

(** [handleControl] *)
Definition handleControl (inst : Instance) (action : string) : P Instance :=
  let* _ := logf "control action" [action] in
  if decide (action = "stop"%string) then
    let* _ := logf "stop: exiting" [] in
    let* _ := Exit 0 in
    ret inst
  else if decide (action = "restart"%string) then
    let* _ := logf "restart" [] in
    let* inst' := Stop inst in
    let* _ := Exit 0 in
    ret inst'
  else ret inst.

(** The function [startCommandReceiver] hands to [NewStopHandler]. *)
Definition stop_callback (inst : Instance) : P unit :=
  let* _ := logf "stop command: exiting" [InstanceID inst] in
  Exit 0.

Definition startCommandReceiver (inst : Instance) (brokerURL : string) : P Instance :=
  let r := command.NewCommandReceiverWithInstanceID (NodeName inst) (InstanceID inst) brokerURL in
  let r := command.RegisterHandler r "stop" (NewStopHandler (Some (stop_callback inst))) in
  let r := command.RegisterHandler r "status" NewStatusHandler in
  let r := command.RegisterHandler r "query" NewQueryHandler in
  let* out := command.Start r Background in
  match out with
  | (Some err, r') =>
      let* _ := logf "receiver start failed" [InstanceID inst; err] in
      ret (set_receiver inst r')
  | (None, r') =>
      let* _ := logf "receiver started" [InstanceID inst; brokerURL] in
      ret (set_receiver inst r')
  end.

Definition connectMQTT (inst : Instance) : P (option string * Instance) :=
  let* brokerURL := (if decide (MQTTBroker (config inst) = EmptyString)
                     then getMQTTBroker else ret (MQTTBroker (config inst))) in
  let m := transport.NewMQTTClientWithID (NodeName inst) (InstanceID inst) brokerURL
                                         (MQTTUsername (config inst))
                                         (MQTTPassword (config inst)) in
  let* out := transport.Connect m in
  match out with
  | (Some err, _) => ret (Some err, inst)
  | (None, m') =>
      let* _ := go (CommandReceiverTask brokerURL) in
      ret (None,
           mkInstance (NodeName inst) (InstanceID inst) (Hostname inst) (PID inst)
                      (Some (transport.SetControlHandler m')) (receiver inst) true
                      (ctx inst) (fileLock inst) (config inst))
  end.

Definition registerViaHTTP (inst : Instance) : P (option string) :=
  let* url := resolveEndpoint in
  fun p =>
    match http_status (net p) with
    | None => Returned (Some "post register"%string) p
    | Some code =>
        if decide (code = 200%nat) then Returned None p
        else Returned (Some "register failed"%string) p
    end.

(** The error [RegisterWithConfig] makes when the lock is not obtained. *)
Definition errAlreadyRunning (nodeName : string) : string :=
  "另一个 " +:+ nodeName +:+ " 实例已在运行中，无法获取文件锁".

Section Register.
Variable filepath_Join : string -> string -> string.

(** [RegisterWithConfig]; [cur] is the package variable
    [currentInstance] before the call, the second component of the
    result is that variable after it. *)
Definition RegisterWithConfig (nodeName : string) (cfg : Config) (cur : option Instance)
  : P (option string * option Instance) :=
  if decide (nodeName = EmptyString) then ret (Some "nodeName is required"%string, cur)
  else
    let* locked :=
      (if EnableFileLock cfg then
         let* l := lift (util.AcquireLock filepath_Join nodeName) in
         match l with
         | None => ret (inr (errAlreadyRunning nodeName))
         | Some fl =>
             let* path := lift (util.GetLockFilePath filepath_Join nodeName) in
             let* _ := logf "file lock acquired" [path] in
             ret (inl (Some fl))
         end
       else ret (inl None)) in
    match locked with
    | inr err => ret (Some err, cur)
    | inl fl =>
        let* hn := (fun p => Returned (default EmptyString (hostname p)) p) in
        let* id := GetInstanceID nodeName in
        let* pid := Getpid in
        let inst := mkInstance nodeName id hn pid None None false (Some false) fl cfg in
        let* _ := logf "instance" [nodeName; id; hn; strconv.FormatInt pid] in
        let* out := connectMQTT inst in
        let* _ := match out with
                  | (Some err, _) =>
                      let* _ := logf "initial MQTT connect failed" [err] in
                      go ReconnectLoop
                  | (None, _) => logf "MQTT connected" [id]
                  end in
        let inst' := snd out in
        let* herr := registerViaHTTP inst' in
        let* _ := match herr with
                  | Some err => logf "HTTP register failed" [err]
                  | None => ret tt
                  end in
        ret (None, Some inst')
    end.


Definition RegisterWithLock (nodeName : string) (cur : option Instance)
  : P (option string * option Instance) :=
  let* cfg := DefaultConfig in
  RegisterWithConfig nodeName
    (mkConfig (MQTTBroker cfg) (MQTTUsername cfg) (MQTTPassword cfg) (EngineEndpoint cfg)
              (cfg_HeartbeatInterval cfg) true (Metadata cfg))
    cur.

Definition IsAnotherInstanceRunning (nodeName : string) : P (bool * Z) :=
  lift (util.IsLocked filepath_Join nodeName).

(** [MustRegisterWithLock]; [log.Fatalf] writes the line and calls
    [os.Exit(1)]. *)
Definition MustRegisterWithLock (nodeName : string) (cur : option Instance)
  : P (option Instance) :=
  let* out := RegisterWithLock nodeName cur in
  match out with
  | (Some err, cur') =>
      let* _ := logf "register failed" [err] in
      let* _ := Exit 1 in
      ret cur'
  | (None, cur') => ret cur'
  end.

Definition GetLockFilePath (nodeName : string) : P string :=
  lift (util.GetLockFilePath filepath_Join nodeName).

End Register.


Definition Shutdown (cur : option Instance) : P (option Instance) :=
  match cur with
  | Some inst => let* _ := Stop inst in ret None
  | None => ret None
  end.

(** [IsConnected] of an instance. *)
Definition IsConnected (inst : Instance) : bool :=
  connected inst
  && match mqttClient inst with
     | Some m => transport.IsConnected m
     | None => false
     end.

Definition GetMQTTClient (inst : Instance) : option transport.MQTTClient :=
  mqttClient inst.

Definition set_connected (inst : Instance) (b : bool) : Instance :=
  mkInstance (NodeName inst) (InstanceID inst) (Hostname inst) (PID inst)
             (mqttClient inst) (receiver inst) b (ctx inst)
             (fileLock inst) (config inst).

(** The case [<-inst.reconnectTicker.C] of the loop in
    [startReconnectLoop]. *)
Definition reconnect_tick (inst : Instance) : P Instance :=
  let alive := match mqttClient inst with
               | Some m => transport.IsConnected m
               | None => false
               end in
  if connected inst && alive then ret inst
  else
    let inst1 := if connected inst then set_connected inst false else inst in
    let* _ := logf "reconnecting" [] in
    let* out := connectMQTT inst1 in
    match out with
    | (Some err, inst2) =>
        let* _ := logf "reconnect failed" [err] in ret inst2
    | (None, inst2) =>
        let* _ := logf "reconnected" [InstanceID inst2] in ret inst2
    end.

(** The rounds of the loop in which the ticker fires, the context of the
    instance not being cancelled meanwhile. *)
Fixpoint reconnect_rounds (n : nat) (inst : Instance) (t : command.Ticker) : P Instance :=
  match n with
  | O => ret inst
  | S n =>
      let* t' := command.await t in
      let* inst' := reconnect_tick inst in
      reconnect_rounds n inst' t'
  end.

Definition startReconnectLoop (rounds : nat) (inst : Instance) : P Instance :=
  let* ticker := command.NewTicker ReconnectInterval in
  let* _ := logf "reconnect loop started" [] in
  reconnect_rounds rounds inst ticker.

(** The connection attempts the reconnect loop has logged. *)
Definition attempts (p : Proc) : nat :=
  length (List.filter (fun l => String.eqb (site l) "reconnecting") (log p)).

(** The instant at which a ticker fired last, after [n] ticks were taken
    from it by a process that was at [start] and keeps up with it. *)
Definition after_ticks (n : nat) (t : command.Ticker) (start : Z) : Z :=
  match n with
  | O => start
  | S m => command.next_tick t + Z.of_nat m * command.period t
  end.

(** The instance a registration under [nodeName] builds in the process
    [p], with the lock handle [fl]. *)
Definition registered (nodeName : string) (cfg : Config) (fl : option util.FileLock)
           (p : Proc) (inst : Instance) : Prop :=
  NodeName inst = nodeName
  /\ InstanceID inst
     = nodeName +:+ "-" +:+ default "unknown"%string (hostname p) +:+ "-"
       +:+ strconv.FormatInt (os.Getpid (host p))
  /\ PID inst = os.Getpid (host p)
  /\ fileLock inst = fl
  /\ config inst = cfg
  /\ ctx inst = Some false
  /\ receiver inst = None.

Section Control.
(** [json.Unmarshal] into the [controlData] of [onControlMessage]:
    the field [action]. *)
Variable json_Unmarshal_action : string -> option string.

End Control.

End node.

(** ** pkg/log/log.go *)

Module log.

(** [zapcore.Level] *)
Inductive Level :=
| DebugLevel | InfoLevel | WarnLevel | ErrorLevel | DPanicLevel | PanicLevel | FatalLevel.

(** [type Options struct] *)
Record Options := mkOptions {
  opt_Level : string;
  Format : string;
  OutputPaths : list string;
  Development : bool;
  EnableColor : bool
}.

Definition DefaultOptions : Options :=
  mkOptions "info" "console" ["stdout"%string] false true.

(** What the zap logger is built from: where it writes, how it encodes
    a line and its level, and from which level on it writes. *)
Inductive WriteSyncer := Stdout | Stderr | FileSyncer (path : string).
Inductive Encoder := JSONEncoder | ConsoleEncoder.
Inductive LevelEncoder := CapitalLevelEncoder | CapitalColorLevelEncoder.

Record logger := mkLogger {
  level : Level;
  encoder : Encoder;
  EncodeLevel : LevelEncoder;
  writers : list WriteSyncer;
  development : bool
}.

(** The package variables [std] and [once]. *)
Record State := mkState { std : option logger; once_done : bool }.

Section Logger.
(** [zapcore.Level.UnmarshalText], and whether
    [os.OpenFile(path, O_APPEND|O_CREATE|O_WRONLY, 0644)] succeeds. *)
Variable UnmarshalText : string -> option Level.
Variable can_open : string -> bool.

(** The loop over [opts.OutputPaths]. *)
Definition open_writers (paths : list string) : list WriteSyncer :=
  fold_left
    (fun ws path =>
       if String.eqb path "stdout" then ws ++ [Stdout]
       else if String.eqb path "stderr" then ws ++ [Stderr]
       else if can_open path then ws ++ [FileSyncer path]
       else ws)
    paths [].

(** [newLogger]; a nil [opts] is [None]. *)
Definition newLogger (opts : option Options) : logger :=
  let opts := default DefaultOptions opts in
  let level := default InfoLevel (UnmarshalText (opt_Level opts)) in
  let enc_level := if EnableColor opts && String.eqb (Format opts) "console"
                   then CapitalColorLevelEncoder else CapitalLevelEncoder in
  let encoder := if String.eqb (Format opts) "json" then JSONEncoder else ConsoleEncoder in
  let ws := open_writers (OutputPaths opts) in
  let ws := match ws with
            | [] => ws ++ [Stdout]
            | _ => ws
            end in
  mkLogger level encoder enc_level ws (Development opts).

(** [Init]: [once.Do] runs its function the first time only. *)
Definition Init (opts : option Options) (s : State) : State :=
  if once_done s then s else mkState (Some (newLogger opts)) true.

Definition getStd (s : State) : option logger * State :=
  match std s with
  | None => let s' := Init (Some DefaultOptions) s in (std s', s')
  | Some l => (Some l, s)
  end.

(** The writer a path of the configuration stands for, if any. *)
Definition writer_of (path : string) : option WriteSyncer :=
  if String.eqb path "stdout" then Some Stdout
  else if String.eqb path "stderr" then Some Stderr
  else if can_open path then Some (FileSyncer path)
  else None.

End Logger.

(** The state of the package when the program starts. *)
Definition initial : State := mkState None false.

End log.

(** ** Hosts used in the examples *)

Module scenario.
Import os.

(** A Linux host with the temporary directory [/tmp]; the calling
    process has PID 100. *)
Definition linux (files : gmap string File) (ps : gmap Z bool) : World :=
  mkWorld "linux" "/tmp" 100 files 7 ∅ ps.

(** A lock file left by an earlier run. *)
Definition left_over (data : string) (rd rm : bool) : gmap string File :=
  {[ "/tmp/svc-a.lock"%string := mkFile 3 data rd rm ]}.

Definition app : string := "svc-a".

(** The handle [svc-a] is given on such a host. *)
Definition svc_lock : util.FileLock :=
  util.mkFileLock (Some (mkHandle 7 "/tmp/svc-a.lock")) "/tmp/svc-a.lock".

(** A process on a host [w], started at instant 0, with the broker and
    the engine answering as [n] says. *)
Definition process (w : World) (n : sync.Net) : sync.Proc :=
  sync.mkProc w ∅ (Some "edge-1"%string) 0 n ∅ [] [] [] [].

Definition online : sync.Net := sync.mkNet true true true (Some 200%nat).
Definition offline : sync.Net := sync.mkNet false false false None.

Definition config (lock : bool) (heartbeat : Z) : node.Config :=
  node.mkConfig "tcp://broker:1883" EmptyString EmptyString EmptyString heartbeat lock ∅.

(** A decoder that knows the payloads of the examples (their quotes
    left out). *)
Definition decode (payload : string) : option Command.t :=
  if String.eqb payload "{command:stop}"
  then Some (Command.mk "stop" EmptyString EmptyString ∅)
  else if String.eqb payload "{command:reboot,request_id:r1}"
  then Some (Command.mk "reboot" EmptyString "r1" ∅)
  else if String.eqb payload "{command:status,request_id:r2}"
  then Some (Command.mk "status" EmptyString "r2" ∅)
  else None.


(** [svc-a] registered on a host with broker and engine up, and the
    goroutine that [connectMQTT] starts run to its end. *)
Definition started (cfg : node.Config) : sync.Outcome node.Instance :=
  (let* out := node.RegisterWithConfig util.join_clean app cfg None in
   match snd out with
   | Some inst => node.startCommandReceiver inst "tcp://broker:1883"
   | None => fun p => sync.Panicked p
   end) (process (linux ∅ {[ 100 := true ]}) online).


(** The instance of [svc-a] as [RegisterWithConfig] builds it on that
    host, before any connection. *)
Definition instance (cfg : node.Config) : node.Instance :=
  node.mkInstance "svc-a" "svc-a-edge-1-100" "edge-1" 100 None None false
                  (Some false) None cfg.

(** A node context that has been running since instant 0, and a process
    that holds it at address 0. *)
Definition running_context : sync.NodeContext :=
  sync.mkNodeContext false "svc-a" EmptyString (Some sync.StatusRunning) 0 [1; 2]%nat.

Definition process_with_context (n : sync.Net) : sync.Proc :=
  sync.set_heap (process (linux ∅ {[ 100 := true ]}) n) {[ 0%nat := running_context ]}.

(** A receiver of [svc-a] that is connected and uses that context. *)
Definition connected_receiver : command.CommandReceiver :=
  command.mkReceiver "svc-a" "svc-a-edge-1-100" "tcp://broker:1883"
                     (Some (command.mkClient true ["v1/subapp/pcs/svc-a/control"%string]))
                     ∅ command.ReceiverStatusRunning (Some 0%nat) (Some false).

(** A level parser that knows the lower-case names, and a host on which
    only files under [/var/log] can be opened. *)
Definition parse_level (s : string) : option log.Level :=
  if String.eqb s "debug" then Some log.DebugLevel
  else if String.eqb s "info" then Some log.InfoLevel
  else if String.eqb s "warn" then Some log.WarnLevel
  else if String.eqb s "error" then Some log.ErrorLevel
  else None.

Definition can_open (path : string) : bool := String.prefix "/var/log/" path.

End scenario.

(** * Properties *)

Example Atoi_plain : strconv.Atoi "4242" = Some 4242.
Proof. reflexivity. Qed.
Example Atoi_newline : strconv.Atoi (String "1" (String "010"%char EmptyString)) = None.
Proof. reflexivity. Qed.
Example Atoi_signs : strconv.Atoi "+-5" = None /\ strconv.Atoi "-5" = Some (-5)
                     /\ strconv.Atoi "+" = None /\ strconv.Atoi "+007" = Some 7.
Proof. repeat split. Qed.
Example Atoi_range : strconv.Atoi "9223372036854775808" = None
                     /\ strconv.Atoi "-9223372036854775808" = Some (- 2 ^ 63).
Proof. split; reflexivity. Qed.
Example FormatInt_ex : strconv.FormatInt 0 = "0"%string /\ strconv.FormatInt 4242 = "4242"%string
                       /\ strconv.FormatInt (-17) = "-17"%string.
Proof. repeat split. Qed.

(** ** Facts about the conversions *)

Lemma string_of_uint_head (d : Decimal.uint) :
  d <> Decimal.Nil ->
  exists c r, NilEmpty.string_of_uint d = String c r
              /\ Ascii.eqb c "-" = false /\ Ascii.eqb c "+" = false.
Proof.
  destruct d; [congruence | ..]; intros _; simpl; eauto.
Qed.

Lemma digits_string_of_uint (d : Decimal.uint) :
  d <> Decimal.Nil ->
  strconv.digits (NilEmpty.string_of_uint d) = Some (Z.of_uint d).
Proof.
  intros Hd. unfold strconv.digits.
  destruct (NilEmpty.string_of_uint d) eqn:E.
  - destruct (string_of_uint_head d Hd) as (c & r & Hs & _). congruence.
  - rewrite <- E, NilEmpty.usu. reflexivity.
Qed.

Lemma to_uint_nonnil (p : positive) : Pos.to_uint p <> Decimal.Nil.
Proof.
  intros H. pose proof (DecimalPos.Unsigned.of_to p) as Hp.
  rewrite H in Hp. discriminate.
Qed.

Lemma of_uint_to_uint (p : positive) : Z.of_uint (Pos.to_uint p) = Z.pos p.
Proof.
  pose proof (DecimalZ.of_to (Z.pos p)) as H. exact H.
Qed.

(** What [%d] prints, [Atoi] reads back. *)
Lemma Atoi_FormatInt (z : Z) :
  strconv.intMin <= z <= strconv.intMax ->
  strconv.Atoi (strconv.FormatInt z) = Some z.
Proof.
  intros Hz. unfold strconv.FormatInt.
  destruct z as [|p|p]; [reflexivity | |].
  - cbn [Z.to_int NilZero.string_of_int].
    assert (Hs : NilZero.string_of_uint (Pos.to_uint p)
                 = NilEmpty.string_of_uint (Pos.to_uint p)).
    { pose proof (to_uint_nonnil p). unfold NilZero.string_of_uint.
      destruct (Pos.to_uint p); congruence. }
    rewrite Hs.
    destruct (string_of_uint_head _ (to_uint_nonnil p)) as (c & r & E & Hm & Hp).
    pose proof (digits_string_of_uint _ (to_uint_nonnil p)) as Hd.
    rewrite E in Hd |- *. unfold strconv.Atoi. rewrite Hm, Hp, Hd.
    rewrite of_uint_to_uint.
    destruct Hz as [Hlo Hhi].
    apply Z.leb_le in Hlo, Hhi. rewrite Hlo, Hhi. reflexivity.
  - cbn [Z.to_int NilZero.string_of_int].
    assert (Hs : NilZero.string_of_uint (Pos.to_uint p)
                 = NilEmpty.string_of_uint (Pos.to_uint p)).
    { pose proof (to_uint_nonnil p). unfold NilZero.string_of_uint.
      destruct (Pos.to_uint p); congruence. }
    rewrite Hs. unfold strconv.Atoi.
    change (Ascii.eqb "-" "-") with true. cbv iota beta.
    rewrite (digits_string_of_uint _ (to_uint_nonnil p)), of_uint_to_uint.
    change (- Z.pos p) with (Z.neg p).
    destruct Hz as [Hlo Hhi].
    apply Z.leb_le in Hlo, Hhi. rewrite Hlo, Hhi. reflexivity.
Qed.

(** ** The lock guard, one process at a time *)

Section FilelockFacts.
Import os util.
Variable J : string -> string -> string.

Lemma overwrite_empty (data : string) : overwrite data EmptyString = data.
Proof.
  unfold overwrite. 
  assert (H : forall n m, String.substring n m EmptyString = EmptyString).
  { intros [|n] [|m]; reflexivity. }
  rewrite H. induction data as [|c data IH]; [reflexivity|].
  change (String c (data +:+ EmptyString) = String c data). f_equal. exact IH.
Qed.

Lemma isProcessRunning_pure (pid : Z) (w : World) :
  isProcessRunning pid w = (running pid w, w).
Proof.
  unfold running, isProcessRunning, bind, ret, Kill0.
  destruct (pid <=? 0); [reflexivity|].
  destruct (negb _); [|reflexivity].
  destruct (procs w !! pid) as [[|]|]; reflexivity.
Qed.


Lemma running_signalable (pid : Z) (w : World) :
  0 < pid -> procs w !! pid = Some true -> running pid w = true.
Proof.
  intros Hpos Hp. unfold running, isProcessRunning, bind, ret, Kill0.
  destruct (Z.leb_spec pid 0); [lia|].
  destruct (negb _); [|reflexivity]. rewrite Hp. reflexivity.
Qed.


(** Exclusive creation on a free name, and the write of the PID that
    follows it. *)
Lemma create_free (path : string) (w : World) :
  path <> EmptyString -> entry w path = None ->
  OpenFile_excl path w
  = (inl (mkHandle (next_ino w) path),
     mkWorld (GOOS w) (TempDir w) (Getpid w)
             (<[path := mkFile (next_ino w) EmptyString true true]> (fs w))
             (S (next_ino w)) ({[ next_ino w ]} ∪ open_files w) (procs w)).
Proof.
  intros Hne Hfree. unfold OpenFile_excl.
  destruct (decide (path = EmptyString)) as [|_]; [contradiction|].
  rewrite Hfree. reflexivity.
Qed.

Lemma write_fresh (path : string) (w : World) :
  path <> EmptyString ->
  Write (mkHandle (next_ino w) path) (strconv.FormatInt (Getpid w))
    (mkWorld (GOOS w) (TempDir w) (Getpid w)
             (<[path := mkFile (next_ino w) EmptyString true true]> (fs w))
             (S (next_ino w)) ({[ next_ino w ]} ∪ open_files w) (procs w))
  = (tt, locked_world w path).
Proof.
  intros Hne. unfold Write, entry; simpl.
  destruct (decide (path = EmptyString)) as [|_]; [contradiction|].
  rewrite lookup_insert_eq; simpl.
  destruct (decide (next_ino w = next_ino w)) as [_|]; [|contradiction].
  unfold locked_world, set_fs; simpl.
  rewrite insert_insert_eq, overwrite_empty. reflexivity.
Qed.

Lemma create_taken (path : string) (w : World) :
  entry w path <> None ->
  OpenFile_excl path w = (inr EEXIST, w).
Proof.
  intros Hex. unfold OpenFile_excl.
  destruct (decide (path = EmptyString)) as [->|_].
  - exfalso. apply Hex. reflexivity.
  - destruct (entry w path); [reflexivity | contradiction].
Qed.

Lemma entry_some_path (w : World) (path : string) (f : os.File) :
  entry w path = Some f -> path <> EmptyString /\ fs w !! path = Some f.
Proof.
  unfold entry. destruct (decide (path = EmptyString)); [discriminate|]. auto.
Qed.

Lemma entry_after_remove (w : World) (path : string) :
  entry (set_fs w (delete path (fs w))) path = None.
Proof.
  unfold entry. destruct (decide _); [reflexivity|]. simpl. apply lookup_delete_eq.
Qed.

Lemma locked_world_after_remove (w : World) (path : string) :
  locked_world (set_fs w (delete path (fs w))) path = locked_world w path.
Proof.
  unfold locked_world, set_fs; simpl. rewrite insert_delete_eq. reflexivity.
Qed.

(** The acquisition, case by case on what it finds. *)
Theorem acquire_cases (appName : string) (w : World) :
  let path := lock_path J w appName in
  let won := ((Some (mkHandle (next_ino w) path), path), locked_world w path) in
  let lost := ((None, EmptyString), w) in
  AcquireApplicationLock J appName w =
    match classify w path with
    | Held _ => lost
    | Absent => if decide (path = EmptyString) then lost else won
    | Unreadable | Corrupt | Stale _ => if may_remove w path then won else lost
    end.
Proof.
  intros path won lost.
  cbv [AcquireApplicationLock bind ret GetLockFilePath Stat ReadFile].
  change (J (TempDir w) (appName +:+ ".lock")) with path.
  unfold classify, may_remove.
  destruct (entry w path) as [f|] eqn:Hent.
  - destruct (entry_some_path _ _ _ Hent) as [Hne _].
    assert (Hrm : Remove path w
                  = if removable f then (None, set_fs w (delete path (fs w)))
                    else (Some EPERM, w)).
    { unfold Remove. rewrite Hent. reflexivity. }
    assert (Hmk : removable f = true ->
                  OpenFile_excl path (set_fs w (delete path (fs w)))
                  = (inl (mkHandle (next_ino w) path),
                     mkWorld (GOOS w) (TempDir w) (Getpid w)
                       (<[path := mkFile (next_ino w) EmptyString true true]> (fs w))
                       (S (next_ino w)) ({[ next_ino w ]} ∪ open_files w) (procs w))).
    { intros _. rewrite create_free by (auto using entry_after_remove).
      simpl. rewrite insert_delete_eq. reflexivity. }
    assert (Htk : OpenFile_excl path w = (inr EEXIST, w)).
    { apply create_taken. rewrite Hent. discriminate. }
    cbv beta iota zeta. rewrite ?Hent.
    destruct (readable f);
      [destruct (strconv.Atoi (content f)) as [pid|];
       [rewrite isProcessRunning_pure; destruct (running pid w); [reflexivity|] |] |];
      cbv beta iota zeta; rewrite Hrm; destruct (removable f);
      cbv beta iota zeta.
    all: try (rewrite Htk; reflexivity).
    all: rewrite Hmk by reflexivity; cbv beta iota zeta; simpl Getpid.
    all: rewrite (write_fresh path w Hne); reflexivity.
  - cbv beta iota zeta.
    destruct (decide (path = EmptyString)) as [He|Hne].
    + unfold OpenFile_excl. rewrite He.
      destruct (decide (EmptyString = EmptyString)); [reflexivity | contradiction].
    + rewrite create_free by assumption. cbv beta iota zeta. simpl Getpid.
      rewrite (write_fresh path w Hne). reflexivity.
Qed.

Lemma AcquireLock_cases (appName : string) (w : World) :
  AcquireLock J appName w =
    match AcquireApplicationLock J appName w with
    | ((Some file, path), w') => (Some (mkFileLock (Some file) path), w')
    | ((None, _), w') => (None, w')
    end.
Proof.
  unfold AcquireLock, bind, ret.
  destruct (AcquireApplicationLock J appName w) as [[[file|] path] w']; reflexivity.
Qed.

(** A successful acquisition is the creation of the record, whatever
    was there before. *)
Lemma acquire_won (appName : string) (w w1 : World) (h : Handle) (p : string) :
  AcquireApplicationLock J appName w = ((Some h, p), w1) ->
  p = lock_path J w appName /\ p <> EmptyString
  /\ h = mkHandle (next_ino w) p /\ w1 = locked_world w p.
Proof.
  rewrite acquire_cases. cbv zeta.
  set (path := lock_path J w appName).
  assert (Hne : may_remove w path = true -> path <> EmptyString).
  { unfold may_remove. destruct (entry w path) eqn:E; [|discriminate].
    intros _. apply (entry_some_path _ _ _ E). }
  destruct (classify w path);
    [destruct (decide (path = EmptyString)) | destruct (may_remove w path) eqn:R ..
     | ]; intros [= <- <- <-]; auto.
Qed.

(** The probe [IsLocked], case by case; it hands back the world it was
    given. *)
Theorem IsLocked_cases (appName : string) (w : World) :
  IsLocked J appName w =
    (match classify w (lock_path J w appName) with
     | Held pid => (true, pid)
     | Unreadable => (true, 0)
     | Absent | Corrupt | Stale _ => (false, 0)
     end, w).
Proof.
  cbv [IsLocked bind ret GetLockFilePath Stat ReadFile lock_path fst].
  set (path := J (TempDir w) (appName +:+ ".lock")).
  unfold classify.
  destruct (entry w path) as [f|] eqn:Hent; cbv [IsNotExist]; cbv beta iota zeta;
    rewrite ?Hent; [|reflexivity].
  destruct (readable f); [|reflexivity].
  destruct (strconv.Atoi (content f)) as [pid|]; [|reflexivity].
  rewrite isProcessRunning_pure. destruct (running pid w); reflexivity.
Qed.

Lemma lock_path_tempdir (appName : string) (w' w : World) :
  TempDir w' = TempDir w -> lock_path J w' appName = lock_path J w appName.
Proof. unfold lock_path, GetLockFilePath. simpl. intros ->. reflexivity. Qed.

Lemma release_after_acquire (w : World) (path : string) (h : Handle) :
  path <> EmptyString ->
  entry (snd (Release (Some (mkFileLock (Some h) path)) (locked_world w path))) path = None.
Proof.
  intros Hne. cbv [Release ReleaseFileLock File Path bind ret Close].
  destruct (decide (path = EmptyString)) as [|_]; [contradiction|].
  unfold Remove, entry. simpl.
  destruct (decide (path = EmptyString)) as [|_]; [contradiction|].
  rewrite lookup_insert_eq. simpl. apply lookup_delete_eq.
Qed.

Lemma release_keeps_tempdir (l : option FileLock) (w : World) :
  TempDir (snd (Release l w)) = TempDir w.
Proof.
  destruct l as [[file path]|]; [|reflexivity].
  cbv [Release ReleaseFileLock File Path bind ret].
  destruct file as [f|]; simpl;
    (destruct (decide (path = EmptyString)); [reflexivity|]);
    unfold Remove; simpl;
    match goal with |- context [entry ?w ?p] => destruct (entry w p) as [g|] end;
    try destruct (removable g); reflexivity.
Qed.

End FilelockFacts.

(** ** Release, then probe *)

Section ReleaseProbe.
Import os util.
Variable J : string -> string -> string.

(** C9.  Releasing the handle that an acquisition for a name returned and
    then calling [IsLocked] on the same name answers not locked, with
    owner PID 0. *)
Theorem release_then_IsLocked (appName : string) (w w1 : World) (l : FileLock) :
  AcquireLock J appName w = (Some l, w1) ->
  fst (IsLocked J appName (snd (Release (Some l) w1))) = (false, 0).
Proof.
  rewrite AcquireLock_cases.
  destruct (AcquireApplicationLock J appName w) as [[[h|] p] w'] eqn:Hacq;
    [|discriminate].
  intros [= <- <-].
  destruct (acquire_won J _ _ _ _ _ Hacq) as (Hp & Hne & _ & ->).
  rewrite IsLocked_cases.
  rewrite (lock_path_tempdir J appName _ w)
    by (rewrite release_keeps_tempdir; reflexivity).
  rewrite <- Hp. unfold classify.
  pose proof (release_after_acquire w p h Hne) as Hgone. simpl in Hgone |- *.
  rewrite Hgone. reflexivity.
Qed.

End ReleaseProbe.

Lemma release_then_IsLocked_witness :
  util.AcquireLock util.join_clean scenario.app (scenario.linux ∅ {[ 100 := true ]})
  = (Some scenario.svc_lock,
     util.locked_world (scenario.linux ∅ {[ 100 := true ]}) "/tmp/svc-a.lock")
  /\ fst (util.IsLocked util.join_clean scenario.app
            (snd (util.Release (Some scenario.svc_lock)
                    (util.locked_world (scenario.linux ∅ {[ 100 := true ]})
                                       "/tmp/svc-a.lock"))))
     = (false, 0).
Proof.
  split; [vm_compute; reflexivity|].
  apply (release_then_IsLocked util.join_clean scenario.app
           (scenario.linux ∅ {[ 100 := true ]})).
  vm_compute. reflexivity.
Defined.

(** One life of the lock of [svc-a] on an empty host: process 100 acquires
    it, the probe names 100, process 200 is refused, 100 releases it, the
    probe finds nothing, 200 acquires it. *)
Example lock_lifecycle :
  let w := scenario.linux ∅ {[ 100 := true; 200 := true ]} in
  let '(l, w1) := util.AcquireLock util.join_clean scenario.app w in
  let w2 := snd (util.Release l w1) in
  l = Some scenario.svc_lock
  /\ fst (util.IsLocked util.join_clean scenario.app w1) = (true, 100)
  /\ fst (util.AcquireLock util.join_clean scenario.app (os.as_process 200 w1)) = None
  /\ fst (util.IsLocked util.join_clean scenario.app w2) = (false, 0)
  /\ fst (util.AcquireLock util.join_clean scenario.app (os.as_process 200 w2))
     = Some (util.mkFileLock (Some (os.mkHandle 8 "/tmp/svc-a.lock")) "/tmp/svc-a.lock").
Proof. vm_compute. repeat split; reflexivity. Qed.

(** ** Damaged, stale and held records *)

Section Records.
Import os util.
Variable J : string -> string -> string.

Lemma classify_unreadable (w : World) (path : string) (f : os.File) :
  entry w path = Some f -> readable f = false -> classify w path = Unreadable.
Proof. unfold classify. intros -> ->. reflexivity. Qed.

Lemma classify_corrupt (w : World) (path : string) (f : os.File) :
  entry w path = Some f -> strconv.Atoi (content f) = None ->
  classify w path = Unreadable \/ classify w path = Corrupt.
Proof. unfold classify. intros -> ->. destruct (readable f); auto. Qed.


Lemma may_remove_entry (w : World) (path : string) (f : os.File) :
  entry w path = Some f -> may_remove w path = removable f.
Proof. unfold may_remove. intros ->. reflexivity. Qed.

(** C10.  On a record that exists but cannot be read [IsLocked] answers
    locked with owner PID 0; on a readable record whose content does not
    parse it answers not locked with PID 0; [AcquireApplicationLock]
    takes both for reclaimable (it goes on to delete the record and to
    create its own, and wins whenever the deletion goes through); and
    [IsLocked] hands back the world, files included, as it found it. *)
Theorem IsLocked_damaged_record (appName : string) (w : World) (f : os.File) :
  let path := lock_path J w appName in
  entry w path = Some f ->
  (readable f = false -> IsLocked J appName w = ((true, 0), w))
  /\ (readable f = true -> strconv.Atoi (content f) = None ->
      IsLocked J appName w = ((false, 0), w))
  /\ (readable f = false \/ strconv.Atoi (content f) = None ->
      AcquireApplicationLock J appName w
      = if removable f
        then ((Some (mkHandle (next_ino w) path), path), locked_world w path)
        else ((None, EmptyString), w))
  /\ snd (IsLocked J appName w) = w.
Proof.
  intros path Hent. repeat split.
  - intros Hr. rewrite IsLocked_cases.
    fold path. rewrite (classify_unreadable _ _ _ Hent Hr). reflexivity.
  - intros Hr Hc. rewrite IsLocked_cases. fold path.
    unfold classify. rewrite Hent, Hr, Hc. reflexivity.
  - intros Hd. rewrite acquire_cases. cbv zeta. fold path.
    rewrite (may_remove_entry _ _ _ Hent).
    destruct Hd as [Hr|Hc].
    + rewrite (classify_unreadable _ _ _ Hent Hr). reflexivity.
    + destruct (classify_corrupt _ _ _ Hent Hc) as [-> | ->]; reflexivity.
  - rewrite IsLocked_cases. reflexivity.
Qed.


(** C1, first half, as the code has it.  When the record can be read,
    its content parses as a PID and the probe [isProcessRunning] answers
    yes for it, the acquisition fails with a nil handle and an empty
    path, and the world is as before. *)
Lemma acquire_held (appName : string) (w : World) (f : os.File) (pid : Z) :
  entry w (lock_path J w appName) = Some f ->
  readable f = true -> strconv.Atoi (content f) = Some pid ->
  running pid w = true ->
  AcquireApplicationLock J appName w = ((None, EmptyString), w)
  /\ AcquireLock J appName w = (None, w).
Proof.
  intros Hent Hr Hp Hrun.
  assert (H : AcquireApplicationLock J appName w = ((None, EmptyString), w)).
  { rewrite acquire_cases. cbv zeta. unfold classify.
    rewrite Hent, Hr, Hp, Hrun. reflexivity. }
  split; [exact H|]. rewrite AcquireLock_cases, H. reflexivity.
Qed.

End Records.

(** ** Two processes acquiring one name *)

Section Race.
Import os util.
Variable J : string -> string -> string.

(** One process running its steps alone is the function
    [AcquireApplicationLock]. *)
Theorem acquire_steps_agree (appName : string) (w : World) :
  run_steps 6 (lock_path J w appName) (Getpid w) AtStat w
  = (Done (fst (AcquireApplicationLock J appName w)),
     snd (AcquireApplicationLock J appName w)).
Proof.
  rewrite acquire_cases. cbv zeta.
  set (path := lock_path J w appName).
  cbv [run_steps acquire_step bind ret Stat ReadFile].
  unfold classify, may_remove.
  destruct (entry w path) as [f|] eqn:Hent.
  - destruct (entry_some_path _ _ _ Hent) as [Hne _].
    assert (Hrm : Remove path w
                  = if removable f then (None, set_fs w (delete path (fs w)))
                    else (Some EPERM, w)).
    { unfold Remove. rewrite Hent. reflexivity. }
    assert (Hmk : removable f = true ->
                  OpenFile_excl path (set_fs w (delete path (fs w)))
                  = (inl (mkHandle (next_ino w) path),
                     mkWorld (GOOS w) (TempDir w) (Getpid w)
                       (<[path := mkFile (next_ino w) EmptyString true true]> (fs w))
                       (S (next_ino w)) ({[ next_ino w ]} ∪ open_files w) (procs w))).
    { intros _. rewrite create_free by (auto using entry_after_remove).
      simpl. rewrite insert_delete_eq. reflexivity. }
    assert (Htk : OpenFile_excl path w = (inr EEXIST, w)).
    { apply create_taken. rewrite Hent. discriminate. }
    cbv beta iota zeta. rewrite ?Hent.
    destruct (readable f);
      [destruct (strconv.Atoi (content f)) as [pid|];
       [cbv beta iota zeta; rewrite isProcessRunning_pure;
        destruct (running pid w); [reflexivity|] |] |];
      cbv beta iota zeta; rewrite Hrm; destruct (removable f);
      cbv beta iota zeta.
    all: try (rewrite Htk; reflexivity).
    all: rewrite Hmk by reflexivity; cbv beta iota zeta.
    all: rewrite (write_fresh path w Hne); reflexivity.
  - cbv beta iota zeta.
    destruct (decide (path = EmptyString)) as [He|Hne].
    + unfold OpenFile_excl. rewrite He.
      destruct (decide (EmptyString = EmptyString)); [reflexivity | contradiction].
    + rewrite create_free by assumption. cbv beta iota zeta.
      rewrite (write_fresh path w Hne). reflexivity.
Qed.

Lemma write_keeps_entries (h : Handle) (data path : string) (w : World) :
  entry w path <> None -> entry (snd (Write h data w)) path <> None.
Proof.
  unfold Write. destruct (entry w (h_path h)) as [f|] eqn:Hh; [|auto].
  destruct (decide (ino f = h_ino h)); [|auto].
  unfold entry; simpl.
  destruct (decide (path = EmptyString)); [auto|].
  destruct (decide (h_path h = path)) as [->|Hne].
  - rewrite lookup_insert_eq. discriminate.
  - rewrite lookup_insert_ne by assumption. auto.
Qed.

(** A step of a process that is past the check: it stays past it, it
    never frees the name, and it comes to hold a descriptor only by
    taking a name that was free. *)
Lemma step_past_check (path : string) (self : Z) (p : pc) (w : World) :
  past_check p = true ->
  past_check (fst (acquire_step path self p w)) = true
  /\ (entry w path <> None -> entry (snd (acquire_step path self p w)) path <> None)
  /\ (holds p = false -> holds (fst (acquire_step path self p w)) = true ->
      entry w path = None /\ entry (snd (acquire_step path self p w)) path <> None)
  /\ (holds p = true -> holds (fst (acquire_step path self p w)) = true).
Proof.
  destruct p as [| | pid | | | f | r]; try discriminate; intros _.
  - (* AtCreate *)
    cbv [acquire_step bind ret].
    destruct (decide (path = EmptyString)) as [He|Hne].
    + unfold OpenFile_excl. destruct (decide (path = EmptyString)); [|contradiction].
      simpl. repeat split; auto; discriminate.
    + destruct (entry w path) as [g|] eqn:Hent.
      * rewrite create_taken by (rewrite Hent; discriminate).
        simpl. rewrite Hent. repeat split; auto; discriminate.
      * rewrite create_free by assumption. simpl.
        assert (Hnew : entry (mkWorld (GOOS w) (TempDir w) (Getpid w)
                   (<[path := mkFile (next_ino w) EmptyString true true]> (fs w))
                   (S (next_ino w)) ({[ next_ino w ]} ∪ open_files w) (procs w)) path
                 <> None).
        { unfold entry. destruct (decide (path = EmptyString)); [contradiction|].
          simpl. rewrite lookup_insert_eq. discriminate. }
        repeat split; auto.
  - (* AtWrite *)
    cbv [acquire_step bind ret].
    pose proof (write_keeps_entries f (strconv.FormatInt self) path w) as K.
    destruct (Write f (strconv.FormatInt self) w) as [u w'].
    simpl in *. repeat split; auto; discriminate.
  - (* Done *)
    simpl. repeat split; auto; intros; congruence.
Qed.

Lemma race_step_inv (path : string) (pidA pidB : Z) (c : Race) (t : tid) :
  race_inv path c -> race_inv path (race_step path pidA pidB c t).
Proof.
  intros (HpA & HpB & Hex & Hnot).
  destruct t; unfold race_step.
  - destruct (step_past_check path pidA (pcA c) (host c) HpA) as (Ha & Hb & Hc & Hd).
    destruct (acquire_step path pidA (pcA c) (host c)) as [p' w']. simpl in *.
    unfold race_inv; simpl. split; [exact Ha|]. split; [exact HpB|].
    destruct (holds (pcA c)) eqn:HA, (holds (pcB c)) eqn:HB, (holds p') eqn:HP;
      simpl in *; try discriminate; repeat split; auto;
      try (intros _; apply Hb, Hex; reflexivity);
      try (intros _; apply Hc; reflexivity);
      try (intros H; discriminate H);
      try (exfalso; destruct (Hc eq_refl eq_refl) as [Hnone _];
           apply (Hex eq_refl); exact Hnone).
  - destruct (step_past_check path pidB (pcB c) (host c) HpB) as (Ha & Hb & Hc & Hd).
    destruct (acquire_step path pidB (pcB c) (host c)) as [p' w']. simpl in *.
    unfold race_inv; simpl. split; [exact HpA|]. split; [exact Ha|].
    destruct (holds (pcA c)) eqn:HA, (holds (pcB c)) eqn:HB, (holds p') eqn:HP;
      simpl in *; try discriminate; repeat split; auto;
      try (intros _; apply Hb, Hex; reflexivity);
      try (intros _; apply Hc; reflexivity);
      try (intros H; discriminate H);
      try (exfalso; destruct (Hc eq_refl eq_refl) as [Hnone _];
           apply (Hex eq_refl); exact Hnone).
Qed.

Lemma race_run_inv (path : string) (pidA pidB : Z) (sched : list tid) (c : Race) :
  race_inv path c -> race_inv path (race_run path pidA pidB sched c).
Proof.
  unfold race_run. revert c.
  induction sched as [|t sched IH]; intros c Hc; simpl; [exact Hc|].
  apply IH, race_step_inv, Hc.
Qed.

(** When both processes found no record, they both go straight to the
    exclusive creation. *)
Lemma both_find_nothing (path : string) (pidA pidB : Z) (w : World) (t1 t2 : tid) :
  entry w path = None -> t1 <> t2 ->
  race_run path pidA pidB [t1; t2] (mkRace AtStat AtStat w)
  = mkRace AtCreate AtCreate w.
Proof.
  intros Hent Hne.
  destruct t1, t2; try contradiction;
    cbv [race_run fold_left race_step acquire_step bind ret Stat pcA pcB host];
    rewrite Hent; cbv beta iota zeta; rewrite ?Hent; reflexivity.
Qed.

(** Exclusive creation: of two processes that both found no record, at
    most one is given a descriptor, however their steps interleave. *)
Lemma exclusive_creation
      (path : string) (pidA pidB : Z) (w : World) (t1 t2 : tid) (sched : list tid) :
  entry w path = None -> t1 <> t2 ->
  let c := race_run path pidA pidB (t1 :: t2 :: sched) (mkRace AtStat AtStat w) in
  holds (pcA c) && holds (pcB c) = false.
Proof.
  intros Hent Hne c.
  assert (Hc : c = race_run path pidA pidB sched (mkRace AtCreate AtCreate w)).
  { subst c. rewrite <- (both_find_nothing path pidA pidB w t1 t2 Hent Hne).
    reflexivity. }
  rewrite Hc.
  apply (race_run_inv path pidA pidB sched (mkRace AtCreate AtCreate w)).
  unfold race_inv; simpl. repeat split; auto; discriminate.
Qed.

End Race.

(** ** Mutual exclusion *)

(** C1, as the code has it.  When the lock record can be read, its content
    parses as a PID and the probe [isProcessRunning] answers yes for that
    PID, [AcquireApplicationLock] and [AcquireLock] fail (nil handle, empty
    path) and change nothing; and when two processes race for a name and
    both find no record, exclusive creation gives a descriptor to at most
    one of them, however their system calls interleave. *)
Theorem lock_mutual_exclusion
        (J : string -> string -> string) (appName : string) (w : os.World) :
  let path := util.lock_path J w appName in
  (forall (f : os.File) (pid : Z),
      os.entry w path = Some f -> os.readable f = true ->
      strconv.Atoi (os.content f) = Some pid -> util.running pid w = true ->
      util.AcquireApplicationLock J appName w = ((None, EmptyString), w)
      /\ util.AcquireLock J appName w = (None, w))
  /\ (forall (pidA pidB : Z) (t1 t2 : util.tid) (sched : list util.tid),
         os.entry w path = None -> t1 <> t2 ->
         let c := util.race_run path pidA pidB (t1 :: t2 :: sched)
                                (util.mkRace util.AtStat util.AtStat w) in
         util.holds (util.pcA c) && util.holds (util.pcB c) = false).
Proof.
  intros path. split.
  - intros f pid. apply acquire_held.
  - intros pidA pidB t1 t2 sched. apply exclusive_creation.
Qed.

Lemma lock_mutual_exclusion_witness :
  (let w := scenario.linux (scenario.left_over "4242" true true)
                           {[ 100 := true; 4242 := true ]} in
   util.AcquireLock util.join_clean scenario.app w = (None, w))
  /\ (let c := util.race_run "/tmp/svc-a.lock" 100 200
                 [util.ProcA; util.ProcB; util.ProcB; util.ProcA; util.ProcA; util.ProcB]
                 (util.mkRace util.AtStat util.AtStat
                              (scenario.linux ∅ {[ 100 := true; 200 := true ]})) in
      util.holds (util.pcA c) && util.holds (util.pcB c) = false).
Proof.
  split.
  - apply (proj1 (lock_mutual_exclusion util.join_clean scenario.app
                    (scenario.linux (scenario.left_over "4242" true true)
                                    {[ 100 := true; 4242 := true ]}))
                 (os.mkFile 3 "4242" true true) 4242);
      vm_compute; reflexivity.
  - apply (proj2 (lock_mutual_exclusion util.join_clean scenario.app
                    (scenario.linux ∅ {[ 100 := true; 200 := true ]}))
                 100 200 util.ProcA util.ProcB);
      [vm_compute; reflexivity | discriminate].
Defined.

(** C1 as it is worded does not hold.  First, the stored PID 4242
    identifies a live process that the caller may not signal ([Kill]
    answers EPERM, which [isProcessRunning] takes for not running): the
    acquisition deletes the record and succeeds.  Second, two processes
    race from an empty directory: B tests the record between the creation
    by A and the write of A's PID, finds it empty, deletes it and creates
    its own; both end up with a handle. *)
Lemma lock_mutual_exclusion_counterexample :
  (let w := scenario.linux (scenario.left_over "4242" true true)
                           {[ 100 := true; 4242 := false ]} in
   os.entry w "/tmp/svc-a.lock" = Some (os.mkFile 3 "4242" true true)
   /\ strconv.Atoi "4242" = Some 4242
   /\ os.alive w 4242 = true
   /\ fst (util.AcquireApplicationLock util.join_clean scenario.app w)
      = (Some (os.mkHandle 7 "/tmp/svc-a.lock"), "/tmp/svc-a.lock"%string))
  /\ (let c := util.race_run "/tmp/svc-a.lock" 100 200
                 [util.ProcA; util.ProcA; util.ProcB; util.ProcB; util.ProcB;
                  util.ProcB; util.ProcB; util.ProcA]
                 (util.mkRace util.AtStat util.AtStat
                              (scenario.linux ∅ {[ 100 := true; 200 := true ]})) in
      util.pcA c = util.Done (Some (os.mkHandle 7 "/tmp/svc-a.lock"), "/tmp/svc-a.lock"%string)
      /\ util.pcB c = util.Done (Some (os.mkHandle 8 "/tmp/svc-a.lock"), "/tmp/svc-a.lock"%string)
      /\ os.content <$> os.entry (util.host c) "/tmp/svc-a.lock" = Some "200"%string).
Proof.
  vm_compute. repeat split; reflexivity.
Qed.



Lemma IsLocked_damaged_record_witness :
  (let w := scenario.linux (scenario.left_over "4242" false true) {[ 100 := true; 4242 := true ]} in
   util.IsLocked util.join_clean scenario.app w = ((true, 0), w))
  /\ (let w := scenario.linux (scenario.left_over "pid=4242" true true)
                              {[ 100 := true; 4242 := true ]} in
      util.IsLocked util.join_clean scenario.app w = ((false, 0), w)
      /\ util.AcquireApplicationLock util.join_clean scenario.app w
         = ((Some (os.mkHandle 7 "/tmp/svc-a.lock"), "/tmp/svc-a.lock"%string),
            util.locked_world w "/tmp/svc-a.lock")).
Proof.
  split.
  - refine (proj1 (IsLocked_damaged_record util.join_clean scenario.app
                     (scenario.linux (scenario.left_over "4242" false true)
                                     {[ 100 := true; 4242 := true ]})
                     (os.mkFile 3 "4242" false true) _) _);
      vm_compute; reflexivity.
  - pose proof (IsLocked_damaged_record util.join_clean scenario.app
                  (scenario.linux (scenario.left_over "pid=4242" true true)
                                  {[ 100 := true; 4242 := true ]})
                  (os.mkFile 3 "pid=4242" true true)) as H.
    cbv zeta in H. destruct H as (_ & Hprobe & Hacq & _).
    + vm_compute. reflexivity.
    + split.
      * apply Hprobe; vm_compute; reflexivity.
      * rewrite Hacq by (right; vm_compute; reflexivity). reflexivity.
Defined.


(** ** Command dispatch *)

Section DispatchFacts.
Import sync context handlers command.
Variable json_Unmarshal : string -> option Command.t.

(** A command with a registered handler: the handler is called with the
    node context of the receiver, and what it returns is logged. *)
Lemma dispatch_hit (r : CommandReceiver) (payload : string) (p : Proc)
      (cmd : Command.t) (h : CommandHandler) :
  json_Unmarshal payload = Some cmd ->
  handlers r !! Command.Command cmd = Some h ->
  handleControlMessage json_Unmarshal r payload p
  = (let* out := Handle h (WithNodeContext Background (nodeCtx r)) cmd in
     match out with
     | (_, Some err) => logf "command failed" [nodeName r; err]
     | (result, None) => logf "command result" (nodeName r :: show_result result)
     end)
      (add_log p (mkLog "control command" [nodeName r; Command.Command cmd])).
Proof.
  intros Hcmd Hhit. unfold handleControlMessage.
  rewrite Hcmd. unfold bind at 1. unfold logf at 1. rewrite Hhit. reflexivity.
Qed.


End DispatchFacts.


(** ** Shutdown *)

Section StopFacts.
Import sync context.

Lemma add_hooks_run_nil (p : Proc) : add_hooks_run p [] = p.
Proof. destruct p. unfold add_hooks_run; simpl. rewrite app_nil_r. reflexivity. Qed.

Lemma add_hooks_run_app (p : Proc) (a b : list nat) :
  add_hooks_run (add_hooks_run p a) b = add_hooks_run p (a ++ b).
Proof. unfold add_hooks_run; simpl. rewrite app_assoc. reflexivity. Qed.

(** The loop over the indices [n - 1] down to 0 runs the first [n] hooks,
    last one first. *)
Lemma hooks_downfrom_rev (hooks : list nat) (n : nat) (p : Proc) :
  (n <= length hooks)%nat ->
  hooks_downfrom hooks n p = Returned tt (add_hooks_run p (rev (take n hooks))).
Proof.
  revert p. induction n as [|i IH]; intros p Hn.
  - simpl. unfold ret. rewrite add_hooks_run_nil. reflexivity.
  - destruct (lookup_lt_is_Some_2 hooks i) as [h Hh]; [lia|].
    simpl. unfold bind, call_hook. rewrite Hh.
    rewrite IH by lia.
    rewrite (take_S_r _ _ _ Hh), rev_app_distr. simpl.
    change (add_hook_run p h) with (add_hooks_run p [h]).
    rewrite add_hooks_run_app. reflexivity.
Qed.

(** [ExecuteShutdownHooks] runs every registered hook, the one registered
    last first, and then stores the status [stopped]. *)
Lemma ExecuteShutdownHooks_spec (c : nat) (x : NodeContext) (p : Proc) :
  heap p !! c = Some x ->
  ExecuteShutdownHooks (Some c) p
  = Returned tt
      (set_heap (add_hooks_run p (rev (shutdownHooks x)))
                (<[c := mkNodeContext (done x) (nodeName x) (version x) (Some StatusStopped)
                                      (startTime x) (shutdownHooks x)]> (heap p))).
Proof.
  intros Hc. unfold ExecuteShutdownHooks, bind, deref. rewrite Hc.
  rewrite hooks_downfrom_rev by lia.
  rewrite firstn_all.
  unfold SetStatus, bind, deref, store. simpl. rewrite Hc. reflexivity.
Qed.

Lemma AddShutdownHook_spec (c : nat) (x : NodeContext) (h : nat) (p : Proc) :
  heap p !! c = Some x ->
  AddShutdownHook (Some c) h p
  = Returned tt
      (set_heap p (<[c := mkNodeContext (done x) (nodeName x) (version x) (status x)
                                        (startTime x) (shutdownHooks x ++ [h])]> (heap p))).
Proof.
  intros Hc. unfold AddShutdownHook, bind, deref, store. rewrite Hc. reflexivity.
Qed.

Lemma Disconnect_not_connected (m : transport.MQTTClient) :
  transport.IsConnected (transport.Disconnect m) = false
  /\ (transport.connected m = true ->
      command.IsConnected (transport.client (transport.Disconnect m)) = false).
Proof.
  unfold transport.IsConnected, transport.Disconnect.
  destruct (transport.connected m) eqn:E; simpl; rewrite ?E;
    split; try reflexivity; try discriminate; auto.
Qed.



End StopFacts.

(** ** Where the process ends *)

Section ExitFacts.
Import sync context handlers.

Lemma handleControl_stop (inst : node.Instance) (p : Proc) :
  node.handleControl inst "stop" p
  = Exited 0 (add_log (add_log p (mkLog "control action" ["stop"%string]))
                      (mkLog "stop: exiting" [])).
Proof. reflexivity. Qed.

Lemma Stop_returns (inst : node.Instance) (p : Proc) :
  exists inst' p', node.Stop inst p = Returned inst' p'.
Proof.
  unfold node.Stop, bind, lift, logf, ret.
  destruct (node.fileLock inst) as [l|]; [|eauto].
  destruct (util.Release (Some l) (host p)). eauto.
Qed.

Lemma handleControl_restart (inst : node.Instance) (p : Proc) :
  exists inst' p',
    node.Stop inst (add_log (add_log p (mkLog "control action" ["restart"%string]))
                            (mkLog "restart" []))
    = Returned inst' p'
    /\ node.handleControl inst "restart" p = Exited 0 p'.
Proof.
  destruct (Stop_returns inst (add_log (add_log p (mkLog "control action" ["restart"%string]))
                                       (mkLog "restart" [])))
    as (inst' & p' & Hstop).
  exists inst', p'. split; [exact Hstop|].
  unfold node.handleControl, bind, logf, Exit.
  destruct (decide ("restart"%string = "stop"%string)) as [E|_]; [discriminate E|].
  destruct (decide ("restart"%string = "restart"%string)) as [_|E]; [|contradiction].
  rewrite Hstop. reflexivity.
Qed.


(** The receiver keeps its registry through [Start]. *)
Lemma Start_total (r : command.CommandReceiver) (p : Proc) :
  exists err r' p',
    command.Start r Background p = Returned (err, r') p'
    /\ command.handlers r' = command.handlers r
    /\ (exists c x, command.nodeCtx r' = Some c /\ heap p' !! c = Some x)
    /\ (err = None <-> mqtt_connect_ok (net p) = true)
    /\ (err = None -> exists c, command.client r' = Some c /\ command.IsConnected c = true)
    /\ net p' = net p.
Proof.
  unfold command.Start, Background, GetNodeContextFromContext, NewNodeContext,
    NewNodeContextWithVersion, bind, now, alloc, ret, logf, go,
    command.sendRegisterMessage, GetVersion, GetStartTime, Getpid, command.Publish,
    SetStatus, deref, store, bind, ret.
  simpl. rewrite ?lookup_insert_eq.
  destruct (mqtt_connect_ok (net p)) eqn:Hc; simpl.
  - repeat first
        [ progress (rewrite ?lookup_insert_eq; simpl)
        | match goal with
          | |- context [mqtt_subscribe_ok (net p)] => destruct (mqtt_subscribe_ok (net p))
          | |- context [mqtt_publish_ok (net p)] => destruct (mqtt_publish_ok (net p))
          end ];
      (do 3 eexists; split; [reflexivity|]; simpl;
       split; [reflexivity|];
       split; [do 2 eexists; split; [reflexivity | rewrite lookup_insert_eq; reflexivity]|];
       split; [tauto|]; split; [|reflexivity]; intros _; eexists; split; reflexivity).
  - do 3 eexists. split; [reflexivity|]. simpl.
    split; [reflexivity|].
    split; [do 2 eexists; split; [reflexivity | rewrite lookup_insert_eq; reflexivity]|].
    split; [split; discriminate|]. split; [discriminate | reflexivity].
Qed.

Lemma startCommandReceiver_total (inst : node.Instance) (url : string) (p : Proc) :
  exists inst' p' r',
    node.startCommandReceiver inst url p = Returned inst' p'
    /\ node.receiver inst' = Some r'
    /\ command.handlers r' !! "stop"%string
       = Some (NewStopHandler (Some (node.stop_callback inst)))
    /\ command.handlers r' !! "status"%string = Some NewStatusHandler
    /\ command.handlers r' !! "query"%string = Some NewQueryHandler
    /\ (exists c x, command.nodeCtx r' = Some c /\ heap p' !! c = Some x)
    /\ node.config inst' = node.config inst
    /\ net p' = net p
    /\ (mqtt_connect_ok (net p) = true ->
        exists c, command.client r' = Some c /\ command.IsConnected c = true).
Proof.
  unfold node.startCommandReceiver.
  set (r0 := command.RegisterHandler _ "query" _).
  destruct (Start_total r0 p)
    as (err & r' & p1 & Hstart & Hh & (c & x & Hc & Hx) & Herr & Hcl & Hnet).
  unfold bind. rewrite Hstart.
  assert (Hreg : command.handlers r' !! "stop"%string
                 = Some (NewStopHandler (Some (node.stop_callback inst)))
                 /\ command.handlers r' !! "status"%string = Some NewStatusHandler
                 /\ command.handlers r' !! "query"%string = Some NewQueryHandler).
  { rewrite Hh. subst r0. unfold command.RegisterHandler; simpl.
    split; [|split].
    - rewrite lookup_insert_ne by discriminate.
      rewrite lookup_insert_ne by discriminate. apply lookup_insert_eq.
    - rewrite lookup_insert_ne by discriminate. apply lookup_insert_eq.
    - apply lookup_insert_eq. }
  destruct err as [e|]; unfold logf, ret;
    (do 3 eexists; split; [reflexivity|]; split; [reflexivity|];
     destruct Hreg as (H1 & H2 & H3);
     repeat (split; [assumption|]);
     split; [exists c, x; split; [exact Hc | exact Hx]|];
     split; [reflexivity|]; split; [exact Hnet|]).
  - intros Hup. apply Herr in Hup. discriminate.
  - intros _. apply Hcl. reflexivity.
Qed.




End ExitFacts.

Section ExitPaths.
Import sync context handlers.
Variable json_Unmarshal : string -> option Command.t.
Variable json_Unmarshal_action : string -> option string.


End ExitPaths.





(** ** Registration *)

Section RegisterFacts.
Import sync context.
Variable J : string -> string -> string.

Lemma bind_returned {A B} (m : P A) (k : A -> P B) (p p' : Proc) (a : A) :
  m p = Returned a p' -> bind m k p = k a p'.
Proof. intros H. unfold bind. rewrite H. reflexivity. Qed.

Lemma getMQTTBroker_total (p : Proc) : exists url, node.getMQTTBroker p = Returned url p.
Proof.
  unfold node.getMQTTBroker, node.getEnvOrDefault, bind, Getenv, ret.
  destruct (_ || _);
    repeat match goal with |- context [decide ?P] => destruct (decide P) end;
    eexists; reflexivity.
Qed.


Lemma registerViaHTTP_total (inst : node.Instance) (p : Proc) :
  exists e, node.registerViaHTTP inst p = Returned e p.
Proof.
  unfold node.registerViaHTTP, node.resolveEndpoint, bind, Getenv, ret.
  destruct (decide _); destruct (http_status (net p)) as [code|];
    try destruct (decide (code = 200%nat)); eexists; reflexivity.
Qed.


Lemma DefaultConfig_total (p : Proc) :
  exists cfg, node.DefaultConfig p = Returned cfg p /\ node.EnableFileLock cfg = false.
Proof.
  unfold node.DefaultConfig. destruct (getMQTTBroker_total p) as [url Hurl].
  rewrite (bind_returned _ _ _ _ _ Hurl). eexists. split; reflexivity.
Qed.


End RegisterFacts.


(** ** What the caller learns when the lock is held *)

Section BusyFacts.
Import sync.
Variable J : string -> string -> string.

Lemma set_host_same (p : Proc) : set_host p (host p) = p.
Proof. destruct p. reflexivity. Qed.

(** After a process acquired the lock, any other process of the host
    finds the record held by it, as long as it can be signalled. *)
Lemma held_after_acquire (appName : string) (w w1 : os.World) (l : util.FileLock) (other : Z) :
  util.AcquireLock J appName w = (Some l, w1) ->
  0 < os.Getpid w <= strconv.intMax ->
  os.procs w !! os.Getpid w = Some true ->
  exists f,
    os.entry (os.as_process other w1) (util.lock_path J (os.as_process other w1) appName)
    = Some f
    /\ os.readable f = true
    /\ strconv.Atoi (os.content f) = Some (os.Getpid w)
    /\ util.running (os.Getpid w) (os.as_process other w1) = true.
Proof.
  intros Hacq Hpid Hsig. rewrite AcquireLock_cases in Hacq.
  destruct (util.AcquireApplicationLock J appName w) as [[[h|] path] w'] eqn:Ha;
    [|discriminate].
  injection Hacq as <- <-.
  destruct (acquire_won J _ _ _ _ _ Ha) as (Hp & Hne & _ & ->).
  exists (os.mkFile (os.next_ino w) (strconv.FormatInt (os.Getpid w)) true true).
  assert (Hpath : util.lock_path J (os.as_process other (util.locked_world w path)) appName
                  = path).
  { rewrite Hp. reflexivity. }
  rewrite Hpath. split; [|split; [reflexivity|split]].
  - unfold os.entry. destruct (decide (path = EmptyString)); [contradiction|].
    simpl. apply lookup_insert_eq.
  - simpl. apply Atoi_FormatInt. unfold strconv.intMin. lia.
  - apply running_signalable; [lia | exact Hsig].
Qed.

(** C3, as the code has it.  When the record is held (readable, a PID, the
    probe answers yes), [AcquireApplicationLock] returns a nil handle and
    an empty path and [AcquireLock] returns nil: no PID comes with the
    failure.  [RegisterWithConfig] with the lock enabled fails with an
    error whose text names the application and nothing else.  The owner's
    PID is what the separate probe [IsLocked] returns.  This is the state
    every other process finds after one process acquired the lock. *)
Theorem busy_outcome (appName : string) (w : os.World) :
  (forall (f : os.File) (pid : Z),
      os.entry w (util.lock_path J w appName) = Some f ->
      os.readable f = true -> strconv.Atoi (os.content f) = Some pid ->
      util.running pid w = true ->
      util.AcquireApplicationLock J appName w = ((None, EmptyString), w)
      /\ util.AcquireLock J appName w = (None, w)
      /\ util.IsLocked J appName w = ((true, pid), w)
      /\ forall cfg cur p,
          host p = w -> appName <> EmptyString -> node.EnableFileLock cfg = true ->
          node.RegisterWithConfig J appName cfg cur p
          = Returned (Some (node.errAlreadyRunning appName), cur) p)
  /\ (forall (l : util.FileLock) (w1 : os.World) (other : Z),
         util.AcquireLock J appName w = (Some l, w1) ->
         0 < os.Getpid w <= strconv.intMax ->
         os.procs w !! os.Getpid w = Some true ->
         fst (util.AcquireLock J appName (os.as_process other w1)) = None
         /\ fst (util.IsLocked J appName (os.as_process other w1)) = (true, os.Getpid w)).
Proof.
  assert (Hheld : forall w (f : os.File) (pid : Z),
      os.entry w (util.lock_path J w appName) = Some f ->
      os.readable f = true -> strconv.Atoi (os.content f) = Some pid ->
      util.running pid w = true ->
      util.AcquireLock J appName w = (None, w)
      /\ util.IsLocked J appName w = ((true, pid), w)).
  { intros w0 f pid Hent Hr Hp Hrun. split.
    - apply (acquire_held J appName w0 f pid); assumption.
    - rewrite IsLocked_cases. unfold util.classify. rewrite Hent, Hr, Hp, Hrun. reflexivity. }
  split.
  - intros f pid Hent Hr Hp Hrun.
    destruct (acquire_held J appName w f pid Hent Hr Hp Hrun) as [Ha Hl].
    destruct (Hheld w f pid Hent Hr Hp Hrun) as [_ Hprobe].
    split; [exact Ha|]. split; [exact Hl|]. split; [exact Hprobe|].
    intros cfg cur p Hw Hn Hcfg. unfold node.RegisterWithConfig.
    destruct (decide (appName = EmptyString)); [contradiction|].
    rewrite Hcfg.
    erewrite bind_returned
      by (unfold bind, lift, ret; rewrite Hw, Hl; reflexivity).
    unfold ret. rewrite <- Hw, set_host_same. reflexivity.
  - intros l w1 other Hacq Hpid Hsig.
    destruct (held_after_acquire appName w w1 l other Hacq Hpid Hsig)
      as (f & Hent & Hr & Hp & Hrun).
    destruct (Hheld _ f _ Hent Hr Hp Hrun) as [Hl Hprobe].
    rewrite Hl, Hprobe. split; reflexivity.
Qed.

End BusyFacts.

(** C3 as it is worded does not hold: two hosts on which [svc-a] is held,
    by the live processes 4242 and 5151; [IsLocked] tells them apart, but
    the failed acquisition and the error of [RegisterWithConfig] are the
    same on both, so neither carries the PID of the owner. *)
Lemma busy_outcome_counterexample :
  let w1 := scenario.linux (scenario.left_over "4242" true true)
                           {[ 100 := true; 4242 := true ]} in
  let w2 := scenario.linux (scenario.left_over "5151" true true)
                           {[ 100 := true; 5151 := true ]} in
  let register w := node.RegisterWithConfig util.join_clean scenario.app
                      (scenario.config true (30 * context.Second)) None
                      (scenario.process w scenario.online) in
  fst (util.IsLocked util.join_clean scenario.app w1) = (true, 4242)
  /\ fst (util.IsLocked util.join_clean scenario.app w2) = (true, 5151)
  /\ fst (util.AcquireApplicationLock util.join_clean scenario.app w1) = (None, EmptyString)
  /\ fst (util.AcquireApplicationLock util.join_clean scenario.app w2) = (None, EmptyString)
  /\ register w1 = sync.Returned (Some (node.errAlreadyRunning "svc-a"), None)
                                 (scenario.process w1 scenario.online)
  /\ register w2 = sync.Returned (Some (node.errAlreadyRunning "svc-a"), None)
                                 (scenario.process w2 scenario.online).
Proof.
  vm_compute. repeat split; reflexivity.
Qed.

Lemma busy_outcome_witness :
  let w := scenario.linux ∅ {[ 100 := true ]} in
  let w1 := util.locked_world w "/tmp/svc-a.lock" in
  fst (util.AcquireLock util.join_clean scenario.app (os.as_process 200 w1)) = None
  /\ fst (util.IsLocked util.join_clean scenario.app (os.as_process 200 w1)) = (true, 100).
Proof.
  intros w w1.
  apply (proj2 (busy_outcome util.join_clean scenario.app w) scenario.svc_lock w1 200);
    vm_compute; try reflexivity. split; [reflexivity | discriminate].
Defined.

(** ** The heartbeat *)

Section HeartbeatFacts.
Import sync context command.

Lemma tick_times_S (first d : Z) (n : nat) :
  tick_times first d (S n) = first :: tick_times (first + d) d n.
Proof.
  unfold tick_times. simpl. f_equal; [lia|].
  rewrite <- seq_shift, map_map. apply map_ext. intros i. lia.
Qed.

Lemma heartbeat_instants_add (p : Proc) (t : string) (at_ : Z) (id st : string) (pid up : Z) :
  heartbeat_instants (add_publication p (mkPublication t at_ (HeartbeatMsg id st pid up)))
  = heartbeat_instants p ++ [at_].
Proof.
  unfold heartbeat_instants, add_publication. simpl.
  rewrite List.filter_app, map_app. reflexivity.
Qed.

Lemma sendHeartbeat_ok (r : CommandReceiver) (p : Proc) :
  can_send r p ->
  exists p', sendHeartbeat r p = Returned tt p'
             /\ clock p' = clock p + 500 * Millisecond
             /\ heartbeat_instants p' = heartbeat_instants p ++ [clock p + 500 * Millisecond]
             /\ can_send r p'.
Proof.
  intros ((c & x & Hc & Hx) & (cl & Hcl & Hconn) & Hpub).
  unfold sendHeartbeat. rewrite Hcl, Hconn. simpl negb. cbv iota.
  unfold bind, getCPUUsage, Sleep, context.GetStatus, Getpid, GetUptime, GetVersion,
    now, deref, Publish, ret, bind.
  repeat first [ progress simpl | rewrite Hc | rewrite Hx | rewrite Hpub
               | match goal with
                 | |- context [sync.status x] => destruct (sync.status x)
                 end ];
    (eexists; split; [reflexivity|]; split; [reflexivity|];
     split; [rewrite heartbeat_instants_add; reflexivity|];
     unfold can_send; simpl; rewrite Hc, Hcl; eauto 10).
Qed.

Lemma heartbeat_rounds_schedule (n : nat) (r : CommandReceiver) (t : Ticker) (p : Proc) :
  can_send r p -> clock p <= next_tick t -> 500 * Millisecond <= period t ->
  exists p', heartbeat_rounds n r t p = Returned tt p'
             /\ heartbeat_instants p'
                = heartbeat_instants p
                  ++ tick_times (next_tick t + 500 * Millisecond) (period t) n.
Proof.
  revert t p. induction n as [|n IH]; intros t p Hsend Hclk Hper.
  - eexists. split; [reflexivity|]. unfold tick_times. simpl. rewrite app_nil_r. reflexivity.
  - simpl heartbeat_rounds. unfold bind at 1. unfold await at 1.
    set (p1 := set_clock p (Z.max (clock p) (next_tick t))).
    assert (Hsend1 : can_send r p1) by exact Hsend.
    destruct (sendHeartbeat_ok r p1 Hsend1) as (p2 & Hrun & Hclk2 & Hinst & Hsend2).
    rewrite (bind_returned _ _ _ _ _ Hrun).
    destruct (IH (mkTicker (next_tick t + period t) (period t)) p2 Hsend2)
      as (p3 & Hrest & Hinst3).
    + rewrite Hclk2. subst p1. simpl. lia.
    + exact Hper.
    + exists p3. split; [exact Hrest|].
      rewrite Hinst3, Hinst. subst p1. simpl clock. simpl next_tick. simpl period.
      rewrite Z.max_r by lia. rewrite tick_times_S, <- app_assoc. simpl.
      unfold heartbeat_instants. simpl.
      replace (next_tick t + period t + 500 * Millisecond)
        with (next_tick t + 500 * Millisecond + period t) by lia.
      reflexivity.
Qed.

(** The first heartbeat leaves a second and a half after the loop starts
    (the sleep and the sampling of the processor), the following ones
    thirty seconds apart, from thirty and a half seconds on. *)
Lemma heartbeatLoop_schedule (n : nat) (r : CommandReceiver) (p : Proc) :
  can_send r p ->
  exists p', heartbeatLoop n r p = Returned tt p'
             /\ heartbeat_instants p'
                = heartbeat_instants p
                  ++ (clock p + 1500 * Millisecond)
                  :: tick_times (clock p + 30 * Second + 500 * Millisecond) (30 * Second) n.
Proof.
  intros Hsend. unfold heartbeatLoop.
  unfold bind at 1. unfold NewTicker at 1.
  unfold bind at 1. unfold Sleep at 1.
  set (p1 := set_clock p (clock p + 1 * Second)).
  assert (Hsend1 : can_send r p1) by exact Hsend.
  destruct (sendHeartbeat_ok r p1 Hsend1) as (p2 & Hrun & Hclk2 & Hinst & Hsend2).
  rewrite (bind_returned _ _ _ _ _ Hrun).
  destruct (heartbeat_rounds_schedule n r (mkTicker (clock p + 30 * Second) (30 * Second))
              p2 Hsend2) as (p3 & Hrest & Hinst3).
  - rewrite Hclk2. subst p1. simpl. unfold Second, Millisecond. lia.
  - simpl. unfold Second, Millisecond. lia.
  - exists p3. split; [exact Hrest|].
    rewrite Hinst3, Hinst. subst p1. simpl. rewrite <- app_assoc. simpl.
    unfold heartbeat_instants. simpl.
    replace (clock p + 1 * Second + 500 * Millisecond)
      with (clock p + 1500 * Millisecond) by (unfold Second, Millisecond; lia).
    reflexivity.
Qed.

End HeartbeatFacts.

(** Whatever period the configuration of the instance holds, the receiver
    that [startCommandReceiver] makes for it sends its heartbeats thirty
    seconds apart. *)
Lemma heartbeat_period_fixed (inst : node.Instance) (url : string) (p : sync.Proc) (n : nat) :
  sync.mqtt_connect_ok (sync.net p) = true ->
  sync.mqtt_publish_ok (sync.net p) = true ->
  exists inst' p' r,
    node.startCommandReceiver inst url p = sync.Returned inst' p'
    /\ node.receiver inst' = Some r
    /\ node.config inst' = node.config inst
    /\ exists p'',
        command.heartbeatLoop n r p' = sync.Returned tt p''
        /\ command.heartbeat_instants p''
           = command.heartbeat_instants p'
             ++ (sync.clock p' + 1500 * context.Millisecond)
             :: command.tick_times
                  (sync.clock p' + 30 * context.Second + 500 * context.Millisecond)
                  (30 * context.Second) n.
Proof.
  intros Hup Hpub.
  destruct (startCommandReceiver_total inst url p)
    as (inst' & p' & r & Hrun & Hr & _ & _ & _ & Hctx & Hcfg & Hnet & Hcl).
  exists inst', p', r. split; [exact Hrun|]. split; [exact Hr|]. split; [exact Hcfg|].
  apply heartbeatLoop_schedule.
  unfold command.can_send. split; [exact Hctx|]. split; [apply Hcl, Hup|].
  rewrite Hnet. exact Hpub.
Qed.

(** C5, on the code: the configuration asks for a heartbeat every ten
    seconds; the heartbeats of the first three rounds of the loop leave at
    1.5 s, 30.5 s, 60.5 s and 90.5 s, thirty seconds apart. *)
Theorem heartbeat_ignores_config :
  match scenario.started (scenario.config true (10 * context.Second)) with
  | sync.Returned inst p =>
      node.cfg_HeartbeatInterval (node.config inst) = 10000000000
      /\ sync.clock p = 0
      /\ match node.receiver inst with
         | Some r =>
             match command.heartbeatLoop 3 r p with
             | sync.Returned _ p' =>
                 command.heartbeat_instants p'
                 = [1500000000; 30500000000; 60500000000; 90500000000]
             | _ => False
             end
         | None => False
         end
  | _ => False
  end.
Proof.
  vm_compute. repeat split; reflexivity.
Qed.

(** * More of the packages *)

(** ** The lock guard: more of its behaviour *)

Section GuardFacts.
Import os util.
Variable J : string -> string -> string.

Lemma entry_locked_world (w : World) (path : string) :
  path <> EmptyString ->
  entry (locked_world w path) path
  = Some (mkFile (next_ino w) (strconv.FormatInt (Getpid w)) true true).
Proof.
  intros Hne. unfold entry, locked_world. simpl.
  destruct (decide (path = EmptyString)); [contradiction|]. apply lookup_insert_eq.
Qed.

Lemma entry_locked_world_ne (w : World) (path q : string) :
  q <> path -> entry (locked_world w path) q = entry w q.
Proof.
  intros Hne. unfold entry, locked_world. simpl.
  destruct (decide (q = EmptyString)); [reflexivity|].
  apply lookup_insert_ne. congruence.
Qed.

(** The acquisition either wins, leaving [locked_world], or loses and
    leaves the world as it was. *)
Lemma acquire_outcomes (appName : string) (w : World) :
  let path := lock_path J w appName in
  (AcquireApplicationLock J appName w
   = ((Some (mkHandle (next_ino w) path), path), locked_world w path)
   /\ path <> EmptyString)
  \/ AcquireApplicationLock J appName w = ((None, EmptyString), w).
Proof.
  intros path.
  destruct (AcquireApplicationLock J appName w) as [[[h|] p] w1] eqn:Ha.
  - left. destruct (acquire_won J _ _ _ _ _ Ha) as (Hp & Hne & -> & ->).
    fold path in Hp. subst p. auto.
  - right. revert Ha. rewrite acquire_cases. cbv zeta. fold path.
    destruct (classify w path);
      [destruct (decide (path = EmptyString)) | destruct (may_remove w path) ..
       | ]; intros [= <- <-]; reflexivity.
Qed.



Lemma Release_world (l : FileLock) (w : World) :
  snd (Release (Some l) w)
  = let w0 := match File l with
              | Some h => snd (Close h w)
              | None => w
              end in
    if decide (Path l = EmptyString) then w0
    else match entry w (Path l) with
         | Some f => if removable f then set_fs w0 (delete (Path l) (fs w)) else w0
         | None => w0
         end.
Proof.
  destruct l as [file path].
  cbv [Release ReleaseFileLock File Path bind ret].
  destruct file as [h|]; simpl;
    (destruct (decide (path = EmptyString)); [reflexivity|]);
    unfold Remove, entry; simpl;
    (destruct (decide (path = EmptyString)); [contradiction|]);
    destruct (fs w !! path) as [g|]; try destruct (removable g); reflexivity.
Qed.

(** X3.  The acquisition and the release touch one path only: every
    other path of the host names what it named before, and the process
    table is as before. *)
Theorem lock_operations_frame (appName : string) (l : FileLock) (w : World) (q : string) :
  (q <> lock_path J w appName ->
   entry (snd (AcquireApplicationLock J appName w)) q = entry w q)
  /\ (q <> Path l -> entry (snd (Release (Some l) w)) q = entry w q)
  /\ procs (snd (AcquireApplicationLock J appName w)) = procs w
  /\ procs (snd (Release (Some l) w)) = procs w.
Proof.
  split; [|split; [|split]].
  - intros Hq. destruct (acquire_outcomes appName w) as [[-> _] | ->]; simpl;
      [apply entry_locked_world_ne, Hq | reflexivity].
  - intros Hq. rewrite Release_world. cbv zeta.
    assert (H0 : forall w0, fs w0 = fs w ->
                 entry (set_fs w0 (delete (Path l) (fs w))) q = entry w q).
    { intros w0 _. unfold entry. destruct (decide (q = EmptyString)); [reflexivity|].
      simpl. apply lookup_delete_ne. congruence. }
    destruct (File l) as [h|]; simpl;
      (destruct (decide (Path l = EmptyString)); [reflexivity|]);
      destruct (entry w (Path l)) as [g|]; try destruct (removable g);
      first [reflexivity | apply H0; reflexivity].
  - destruct (acquire_outcomes appName w) as [[-> _] | ->]; reflexivity.
  - rewrite Release_world. cbv zeta.
    destruct (File l) as [h|]; simpl;
      (destruct (decide (Path l = EmptyString)); [reflexivity|]);
      destruct (entry w (Path l)) as [g|]; try destruct (removable g); reflexivity.
Qed.




(** X5.  A record whose content parses to zero or to a negative number
    is never taken for held, whatever the process table and the platform:
    [IsLocked] answers not locked, and the acquisition reclaims the record
    when the caller may delete it. *)
Theorem nonpositive_pid_never_held (appName : string) (w : World) (f : os.File) (pid : Z) :
  let path := lock_path J w appName in
  entry w path = Some f -> readable f = true ->
  strconv.Atoi (content f) = Some pid -> pid <= 0 ->
  IsLocked J appName w = ((false, 0), w)
  /\ AcquireApplicationLock J appName w
     = if removable f
       then ((Some (mkHandle (next_ino w) path), path), locked_world w path)
       else ((None, EmptyString), w).
Proof.
  intros path Hent Hr Ha Hpid.
  assert (Hc : classify w path = Stale pid).
  { unfold classify. rewrite Hent, Hr, Ha.
    unfold running, isProcessRunning.
    destruct (Z.leb_spec pid 0); [reflexivity | lia]. }
  split.
  - rewrite IsLocked_cases. fold path. rewrite Hc. reflexivity.
  - rewrite acquire_cases. cbv zeta. fold path. rewrite Hc.
    unfold may_remove. rewrite Hent. reflexivity.
Qed.

(** X6.  [Release] deletes by name.  Whatever file is under the path of
    the handle (also one that another process created after this handle
    was given) is gone after the release when the caller may delete it,
    and stays when it may not. *)
Theorem release_deletes_by_name (l : FileLock) (w : World) (f : os.File) :
  entry w (Path l) = Some f ->
  (removable f = true -> entry (snd (Release (Some l) w)) (Path l) = None)
  /\ (removable f = false -> entry (snd (Release (Some l) w)) (Path l) = Some f).
Proof.
  intros Hent. destruct (entry_some_path _ _ _ Hent) as [Hne Hfs].
  rewrite Release_world. cbv zeta. rewrite Hent.
  destruct (decide (Path l = EmptyString)); [contradiction|].
  split; intros ->.
  - unfold entry. destruct (decide (Path l = EmptyString)); [contradiction|].
    simpl. apply lookup_delete_eq.
  - destruct (File l); exact Hent.
Qed.

Lemma Release_twice (l : FileLock) (w : World) :
  snd (Release (Some l) (snd (Release (Some l) w))) = snd (Release (Some l) w).
Proof.
  rewrite !Release_world. cbv zeta.
  assert (Hset : forall (X : gset nat) i, X ∖ {[i]} ∖ {[i]} = X ∖ {[i]}).
  { intros X i. apply set_eq. intros x. rewrite !elem_of_difference. tauto. }
  destruct (File l) as [h|]; simpl;
    (destruct (decide (Path l = EmptyString)) as [He|Hne];
     [unfold Close; simpl; rewrite ?Hset; reflexivity|]);
    unfold entry; simpl;
    (destruct (decide (Path l = EmptyString)); [contradiction|]);
    destruct (fs w !! Path l) as [g|] eqn:Hg; simpl;
    try (destruct (removable g) eqn:Hrm); simpl;
    rewrite ?lookup_delete_eq, ?Hg, ?Hrm; unfold set_fs; simpl; rewrite ?Hset;
    reflexivity.
Qed.

(** X7.  A nil handle is released without effect; releasing a handle a
    second time leaves the host as the first release left it; and a
    release that finds no record under its path changes no file. *)
Theorem release_idempotent (l : FileLock) (w : World) :
  Release None w = (tt, w)
  /\ snd (Release (Some l) (snd (Release (Some l) w))) = snd (Release (Some l) w)
  /\ (entry w (Path l) = None -> fs (snd (Release (Some l) w)) = fs w).
Proof.
  split; [reflexivity|]. split; [apply Release_twice|].
  intros Hnone. rewrite Release_world. cbv zeta. rewrite Hnone.
  destruct (File l), (decide (Path l = EmptyString)); reflexivity.
Qed.

End GuardFacts.

(** ** The race, to its end *)

Section RaceWinner.
Import os util.









End RaceWinner.



Lemma lock_operations_frame_witness :
  let w := scenario.linux {[ "/tmp/svc-b.lock"%string := os.mkFile 4 "77" true true ]}
                          {[ 100 := true ]} in
  os.entry (snd (util.AcquireApplicationLock util.join_clean scenario.app w)) "/tmp/svc-b.lock"
  = Some (os.mkFile 4 "77" true true)
  /\ os.entry (snd (util.Release (Some scenario.svc_lock) w)) "/tmp/svc-b.lock"
     = Some (os.mkFile 4 "77" true true).
Proof.
  intros w.
  destruct (lock_operations_frame util.join_clean scenario.app scenario.svc_lock w
              "/tmp/svc-b.lock") as (Ha & Hr & _).
  split.
  - rewrite Ha; [reflexivity|]. vm_compute. discriminate.
  - rewrite Hr; [reflexivity|]. vm_compute. discriminate.
Defined.


Lemma nonpositive_pid_never_held_witness :
  let w := scenario.linux (scenario.left_over "0" true true) {[ 100 := true; 0 := true ]} in
  util.IsLocked util.join_clean scenario.app w = ((false, 0), w)
  /\ util.AcquireApplicationLock util.join_clean scenario.app w
     = ((Some (os.mkHandle 7 "/tmp/svc-a.lock"), "/tmp/svc-a.lock"%string),
        util.locked_world w "/tmp/svc-a.lock").
Proof.
  intros w.
  apply (nonpositive_pid_never_held util.join_clean scenario.app w
           (os.mkFile 3 "0" true true) 0); first [reflexivity | lia].
Defined.

(** Process 100 holds a handle from an earlier acquisition; the record
    under the path is by now the one of process 200 (inode 9).  The
    release by 100 deletes it. *)
Lemma release_deletes_by_name_witness :
  let w := scenario.linux {[ "/tmp/svc-a.lock"%string := os.mkFile 9 "200" true true ]}
                          {[ 100 := true; 200 := true ]} in
  fst (util.IsLocked util.join_clean scenario.app w) = (true, 200)
  /\ os.entry (snd (util.Release (Some scenario.svc_lock) w)) "/tmp/svc-a.lock" = None.
Proof.
  intros w. split; [vm_compute; reflexivity|].
  apply (proj1 (release_deletes_by_name scenario.svc_lock w
                  (os.mkFile 9 "200" true true) eq_refl)).
  reflexivity.
Defined.


Lemma release_idempotent_witness :
  let w := scenario.linux ∅ {[ 100 := true ]} in
  os.fs (snd (util.Release (Some scenario.svc_lock) w)) = os.fs w.
Proof.
  intros w. apply (proj2 (proj2 (release_idempotent scenario.svc_lock w))).
  reflexivity.
Defined.

(** ** Node context and handlers *)

Section ContextFacts.
Import sync context handlers.

Lemma SetStatus_spec (c : nat) (x : NodeContext) (s : NodeStatus) (p : Proc) :
  heap p !! c = Some x ->
  SetStatus (Some c) s p
  = Returned tt
      (set_heap p (<[c := mkNodeContext (done x) (nodeName x) (version x) (Some s)
                                        (startTime x) (shutdownHooks x)]> (heap p))).
Proof.
  intros Hc. unfold SetStatus, bind, deref, store. rewrite Hc. reflexivity.
Qed.

Lemma Cancel_spec (c : nat) (x : NodeContext) (p : Proc) :
  heap p !! c = Some x ->
  Cancel (Some c) p
  = Returned tt
      (set_heap p (<[c := mkNodeContext true (nodeName x) (version x) (Some StatusStopping)
                                        (startTime x) (shutdownHooks x)]> (heap p))).
Proof.
  intros Hc. unfold Cancel. rewrite (bind_returned _ _ _ _ _ (SetStatus_spec c x _ p Hc)).
  unfold bind, deref, store. simpl. rewrite lookup_insert_eq. simpl.
  rewrite insert_insert_eq. reflexivity.
Qed.

(** X9.  [ExecuteShutdownHooks] does not clear the hooks and does not
    cancel the context: a hook registered last runs first, a second call
    runs every hook again, in the same order, and the context is left
    with the status [stopped] and its done flag as before. *)
Theorem shutdown_hooks_not_cleared (c : nat) (x : NodeContext) (h : nat) (p : Proc) :
  heap p !! c = Some x ->
  exists p',
    (let* _ := AddShutdownHook (Some c) h in
     let* _ := ExecuteShutdownHooks (Some c) in
     ExecuteShutdownHooks (Some c)) p = Returned tt p'
    /\ hooks_run p'
       = hooks_run p ++ (h :: rev (shutdownHooks x)) ++ (h :: rev (shutdownHooks x))
    /\ heap p' !! c
       = Some (mkNodeContext (done x) (nodeName x) (version x) (Some StatusStopped)
                             (startTime x) (shutdownHooks x ++ [h])).
Proof.
  intros Hc.
  rewrite (bind_returned _ _ _ _ _ (AddShutdownHook_spec c x h p Hc)).
  erewrite bind_returned
    by (apply ExecuteShutdownHooks_spec; simpl; apply lookup_insert_eq).
  erewrite ExecuteShutdownHooks_spec by (simpl; apply lookup_insert_eq).
  eexists. split; [reflexivity|]. simpl.
  rewrite rev_app_distr. simpl. rewrite <- app_assoc. split; [reflexivity|].
  apply lookup_insert_eq.
Qed.

End ContextFacts.

Section HandlerFacts.
Import sync context handlers.


Ltac run_ctx :=
  repeat first
    [ progress cbv beta iota zeta delta
        [bind ret deref store logf now Getpid Handle
         NewStatusHandler NewQueryHandler NewStopHandler NewRestartHandler
         formatNodeInfo GetNodeName GetVersion context.GetStatus GetUptime
         SetStatus Cancel WithNodeContext GetNodeContextFromContext Background]
    | progress simpl
    | match goal with
      | H : heap _ !! _ = Some _ |- _ => rewrite H
      end
    | rewrite lookup_insert_eq ].


(** X11.  After the stop handler (made without a cancel function) or the
    restart handler ran on a node context, the status handler reports
    [stopping].  The restart handler has cancelled the context it was
    made with; the stop handler has left the done flag as it was. *)
Theorem stop_and_restart_then_status (c : nat) (x : NodeContext) (cmd cmd' : Command.t) (p : Proc) :
  heap p !! c = Some x ->
  let ctx := WithNodeContext Background (Some c) in
  (exists res p1,
      Handle (NewStopHandler None) ctx cmd p = Returned (Some res, None) p1
      /\ Handle NewStatusHandler ctx cmd' p1
         = Returned (Some (CommandResult.mk true "stopping" (Command.RequestID cmd')), None) p1
      /\ done <$> heap p1 !! c = Some (done x))
  /\ (exists res p1,
         Handle (NewRestartHandler (Some c)) ctx cmd p = Returned (Some res, None) p1
         /\ Handle NewStatusHandler ctx cmd' p1
            = Returned (Some (CommandResult.mk true "stopping" (Command.RequestID cmd')), None)
                       p1
         /\ done <$> heap p1 !! c = Some true).
Proof.
  intros Hx ctx. subst ctx. split.
  - unfold NewStopHandler, Handle, WithNodeContext, GetNodeContextFromContext.
    unfold bind at 1. unfold logf at 1.
    erewrite bind_returned by (apply SetStatus_spec; exact Hx).
    unfold bind at 1. unfold ret at 1. unfold ret at 1.
    do 2 eexists. split; [reflexivity|].
    split; [run_ctx; reflexivity|]. simpl. rewrite lookup_insert_eq. reflexivity.
  - unfold NewRestartHandler, Handle, WithNodeContext, GetNodeContextFromContext.
    unfold bind at 1. unfold logf at 1. unfold bind at 1. unfold bind at 1.
    erewrite SetStatus_spec by (simpl; exact Hx).
    erewrite Cancel_spec by (simpl; apply lookup_insert_eq).
    unfold ret at 1. do 2 eexists. split; [reflexivity|].
    split; [run_ctx; reflexivity|]. simpl. rewrite lookup_insert_eq. reflexivity.
Qed.

End HandlerFacts.

Lemma shutdown_hooks_not_cleared_witness :
  let p := scenario.process_with_context scenario.online in
  exists p',
    (let* _ := context.AddShutdownHook (Some 0%nat) 3 in
     let* _ := context.ExecuteShutdownHooks (Some 0%nat) in
     context.ExecuteShutdownHooks (Some 0%nat)) p = sync.Returned tt p'
    /\ sync.hooks_run p' = [3; 2; 1; 3; 2; 1]%nat
    /\ sync.heap p' !! 0%nat
       = Some (sync.mkNodeContext false "svc-a" EmptyString (Some sync.StatusStopped) 0
                                  [1; 2; 3]%nat).
Proof.
  intros p.
  apply (shutdown_hooks_not_cleared 0 scenario.running_context 3 p).
  reflexivity.
Defined.


Lemma stop_and_restart_then_status_witness :
  let p := scenario.process_with_context scenario.online in
  let ctx := context.WithNodeContext context.Background (Some 0%nat) in
  let cmd := Command.mk "stop" EmptyString "r1" ∅ in
  let cmd' := Command.mk "status" EmptyString "r2" ∅ in
  exists res p1,
    handlers.Handle (handlers.NewStopHandler None) ctx cmd p = sync.Returned (Some res, None) p1
    /\ handlers.Handle handlers.NewStatusHandler ctx cmd' p1
       = sync.Returned (Some (CommandResult.mk true "stopping" "r2"), None) p1
    /\ sync.done <$> sync.heap p1 !! 0%nat = Some false.
Proof.
  intros p ctx cmd cmd'.
  apply (proj1 (stop_and_restart_then_status 0 scenario.running_context cmd cmd' p eq_refl)).
Defined.

(** ** The command receiver *)

Section ReceiverFacts.
Import sync context handlers command.
Variable json_Unmarshal : string -> option Command.t.


(** X12.  [RegisterHandler] binds the handler to the key it is
    registered under: a command with that name runs it (whatever was
    registered under the key before, and whatever the handler itself
    gives as its command name), and every other message is treated as it
    was before the registration. *)
Theorem RegisterHandler_dispatch
        (r : CommandReceiver) (key : string) (h : CommandHandler) (payload : string) (p : Proc) :
  (forall cmd,
      json_Unmarshal payload = Some cmd -> Command.Command cmd = key ->
      handleControlMessage json_Unmarshal (RegisterHandler r key h) payload p
      = (let* out := Handle h (WithNodeContext Background (nodeCtx r)) cmd in
         match out with
         | (_, Some err) => logf "command failed" [nodeName r; err]
         | (result, None) => logf "command result" (nodeName r :: show_result result)
         end)
          (add_log p (mkLog "control command" [nodeName r; key])))
  /\ (json_Unmarshal payload = None
      \/ (exists cmd, json_Unmarshal payload = Some cmd /\ Command.Command cmd <> key) ->
      handleControlMessage json_Unmarshal (RegisterHandler r key h) payload p
      = handleControlMessage json_Unmarshal r payload p).
Proof.
  split.
  - intros cmd Hcmd Hkey.
    rewrite (dispatch_hit json_Unmarshal (RegisterHandler r key h) payload p cmd h Hcmd).
    + rewrite Hkey. reflexivity.
    + rewrite Hkey. simpl. apply lookup_insert_eq.
  - intros [Hbad | (cmd & Hcmd & Hne)]; unfold handleControlMessage.
    + rewrite Hbad. reflexivity.
    + rewrite Hcmd. simpl. rewrite lookup_insert_ne by congruence. reflexivity.
Qed.

Lemma receiver_Stop_Stop (r : CommandReceiver) : Stop (Stop r) = Stop r.
Proof.
  unfold Stop. simpl.
  destruct (cancelFunc r), (client r) as [c|]; simpl;
    try destruct (IsConnected c) eqn:E; simpl; rewrite ?E; reflexivity.
Qed.

(** X13.  [Stop] of a receiver can be called twice with the effect of
    one call, a stopped receiver sends no heartbeat, and [Stop] on a
    receiver that was never started leaves it as it was. *)
Theorem receiver_Stop_idempotent (r : CommandReceiver) (p : Proc) :
  Stop (Stop r) = Stop r
  /\ sendHeartbeat (Stop r) p = Returned tt p
  /\ (client r = None -> cancelFunc r = None -> status r = ReceiverStatusStopped ->
      Stop r = r).
Proof.
  split; [apply receiver_Stop_Stop|split].
  - unfold sendHeartbeat, Stop. simpl.
    destruct (client r) as [c|]; [|reflexivity].
    destruct (IsConnected c) eqn:E; simpl; rewrite ?E; reflexivity.
  - intros Hc Hf Hs. destruct r. simpl in *. subst. reflexivity.
Qed.

(** X14.  [Start] with a valid or absent node context always returns.
    It uses the node context the call context carries, and creates one
    when there is none.  When the broker refuses the connection it
    returns an error, the receiver has the status [error], no heartbeat
    loop is started and nothing is published.  When the broker accepts
    it there is no error even if the subscription to the control topic or
    the register message failed: the receiver and the node are
    [running], one heartbeat loop is started, and the register message is
    published iff the broker takes it. *)
Theorem Start_outcomes (r : CommandReceiver) (ctx : Context) (p : Proc) :
  let given := GetNodeContextFromContext ctx in
  valid given p ->
  exists err r' p' c,
    Start r ctx p = Returned (err, r') p'
    /\ nodeCtx r' = Some c
    /\ (given = None -> heap p !! c = None) /\ (given <> None -> given = Some c)
    /\ handlers r' = handlers r /\ host p' = host p /\ clock p' = clock p
    /\ if mqtt_connect_ok (net p)
       then err = None /\ command.status r' = ReceiverStatusRunning
            /\ sync.status <$> heap p' !! c = Some (Some StatusRunning)
            /\ spawned p' = spawned p ++ [HeartbeatLoop]
            /\ published p'
               = published p
                 ++ (if mqtt_publish_ok (net p)
                     then [mkPublication (TopicRegister (nodeName r)) (clock p)
                                         (RegisterMsg (instanceID r) (os.Getpid (host p)))]
                     else [])
            /\ client r'
               = Some (mkClient true (if mqtt_subscribe_ok (net p)
                                      then [TopicControl (nodeName r)] else []))
       else err <> None /\ command.status r' = ReceiverStatusError
            /\ spawned p' = spawned p /\ published p' = published p
            /\ (given = None ->
                heap p' !! c
                = Some (mkNodeContext false (nodeName r) EmptyString (Some StatusStarting)
                                      (clock p) [])).
Proof.
  intros given Hgiven.
  assert (Hg : given = GetNodeContextFromContext ctx) by reflexivity. clearbody given.
  unfold Start. rewrite <- Hg.
  destruct Hgiven as [-> | (a & -> & [x Hx])].
  - assert (Hfresh : heap p !! fresh (dom (heap p)) = None).
    { apply not_elem_of_dom, is_fresh. }
    unfold NewNodeContext, NewNodeContextWithVersion, bind, now, alloc, ret, logf, go,
      sendRegisterMessage, GetVersion, GetStartTime, Getpid, Publish,
      SetStatus, deref, store, bind, ret.
    simpl. rewrite ?lookup_insert_eq.
    destruct (mqtt_connect_ok (net p)) eqn:Hc; simpl.
    + repeat first
        [ progress (rewrite ?lookup_insert_eq; simpl)
        | match goal with
          | |- context [mqtt_subscribe_ok (net p)] => destruct (mqtt_subscribe_ok (net p))
          | |- context [mqtt_publish_ok (net p)] => destruct (mqtt_publish_ok (net p))
          end ];
        (do 4 eexists; split; [reflexivity|]; simpl;
         rewrite ?lookup_insert_eq, ?app_nil_r;
         repeat split; solve [assumption | congruence | reflexivity]).
    + do 4 eexists. split; [reflexivity|]. simpl. rewrite ?lookup_insert_eq.
      repeat split; solve [assumption | congruence | reflexivity].
  - unfold bind, ret, logf, go,
      sendRegisterMessage, GetVersion, GetStartTime, Getpid, Publish,
      SetStatus, deref, store, bind, ret.
    simpl. rewrite ?Hx.
    destruct (mqtt_connect_ok (net p)) eqn:Hc; simpl.
    + repeat first
        [ progress (rewrite ?Hx; simpl)
        | match goal with
          | |- context [mqtt_subscribe_ok (net p)] => destruct (mqtt_subscribe_ok (net p))
          | |- context [mqtt_publish_ok (net p)] => destruct (mqtt_publish_ok (net p))
          end ];
        (do 4 eexists; split; [reflexivity|]; simpl;
         rewrite ?lookup_insert_eq, ?app_nil_r;
         repeat split; solve [assumption | congruence | reflexivity]).
    + do 4 eexists. split; [reflexivity|]. simpl.
      repeat split; solve [assumption | congruence | reflexivity].
Qed.

End ReceiverFacts.

Lemma RegisterHandler_dispatch_witness :
  let r := command.NewCommandReceiver "svc-a" "tcp://broker:1883" in
  let p := scenario.process (scenario.linux ∅ {[ 100 := true ]}) scenario.online in
  command.handleControlMessage scenario.decode
    (command.RegisterHandler r "status" handlers.NewStatusHandler)
    "{command:reboot,request_id:r1}" p
  = command.handleControlMessage scenario.decode r "{command:reboot,request_id:r1}" p.
Proof.
  intros r p.
  apply (proj2 (RegisterHandler_dispatch scenario.decode r "status" handlers.NewStatusHandler
                  "{command:reboot,request_id:r1}" p)).
  right. eexists. split; [reflexivity | discriminate].
Defined.

Lemma receiver_Stop_idempotent_witness :
  let r := command.NewCommandReceiver "svc-a" "tcp://broker:1883" in
  command.Stop r = r.
Proof.
  intros r.
  apply (proj2 (proj2 (receiver_Stop_idempotent r
                         (scenario.process (scenario.linux ∅ {[ 100 := true ]})
                                           scenario.online))));
    reflexivity.
Defined.

Lemma Start_outcomes_witness :
  let r := command.NewCommandReceiver "svc-a" "tcp://broker:1883" in
  let p := scenario.process (scenario.linux ∅ {[ 100 := true ]})
                            (sync.mkNet true false true (Some 200%nat)) in
  exists err r' p' c,
    command.Start r context.Background p = sync.Returned (err, r') p'
    /\ err = None /\ command.status r' = command.ReceiverStatusRunning
    /\ command.nodeCtx r' = Some c
    /\ sync.spawned p' = [sync.HeartbeatLoop]
    /\ command.client r' = Some (command.mkClient true []).
Proof.
  intros r p.
  destruct (Start_outcomes r context.Background p)
    as (err & r' & p' & c & Hrun & Hc & _ & _ & _ & _ & _ & Hif).
  - left. reflexivity.
  - simpl in Hif. destruct Hif as (He & Hs & _ & Hsp & _ & Hcl).
    exists err, r', p', c. repeat split; assumption.
Defined.

(** ** What the heartbeats carry, and when none is sent *)

Section HeartbeatMore.
Import sync context command.

(** The three ways a call of [sendHeartbeat] goes. *)
Lemma sendHeartbeat_cases (r : CommandReceiver) (p : Proc) (c : nat) (x : NodeContext) :
  nodeCtx r = Some c -> heap p !! c = Some x ->
  sendHeartbeat r p
  = match client r with
    | None => Returned tt p
    | Some cl =>
        if IsConnected cl then
          let p1 := set_clock p (clock p + 500 * Millisecond) in
          if mqtt_publish_ok (net p)
          then Returned tt
                 (add_publication p1
                    (mkPublication (TopicHeartbeat (nodeName r)) (clock p1)
                       (HeartbeatMsg (instanceID r)
                          (status_string (default StatusUnknown (sync.status x)))
                          (os.Getpid (host p))
                          (Z.quot (clock p1 - startTime x) Second))))
          else Returned tt (add_log p1 (mkLog "heartbeat failed" [instanceID r]))
        else Returned tt p
    end.
Proof.
  intros Hc Hx. unfold sendHeartbeat.
  destruct (client r) as [cl|]; [|reflexivity].
  destruct (IsConnected cl); [|reflexivity]. simpl negb. cbv iota.
  unfold bind, getCPUUsage, Sleep, context.GetStatus, Getpid, GetUptime, GetVersion,
    now, deref, Publish, ret, bind.
  rewrite Hc.
  repeat first [ progress simpl | rewrite Hx
               | match goal with
                 | |- context [sync.status x] => destruct (sync.status x)
                 end ];
    destruct (mqtt_publish_ok (net p)); reflexivity.
Qed.


(** The rounds of the loop, whether the broker takes the messages or not. *)
Lemma heartbeat_rounds_cases (n : nat) (r : CommandReceiver) (t : Ticker) (p : Proc)
      (c : nat) (x : NodeContext) (cl : Client) :
  nodeCtx r = Some c -> heap p !! c = Some x -> client r = Some cl ->
  IsConnected cl = true ->
  clock p <= next_tick t -> 500 * Millisecond <= period t ->
  let beat := fun at_ =>
    mkPublication (TopicHeartbeat (nodeName r)) at_
      (HeartbeatMsg (instanceID r) (status_string (default StatusUnknown (sync.status x)))
                    (os.Getpid (host p)) (Z.quot (at_ - startTime x) Second)) in
  exists p', heartbeat_rounds n r t p = Returned tt p'
    /\ heap p' = heap p /\ host p' = host p /\ net p' = net p
    /\ spawned p' = spawned p
    /\ if mqtt_publish_ok (net p)
       then published p'
            = published p
              ++ map beat (tick_times (next_tick t + 500 * Millisecond) (period t) n)
            /\ log p' = log p
       else published p' = published p
            /\ log p' = log p ++ repeat (mkLog "heartbeat failed" [instanceID r]) n.
Proof.
  intros Hc Hx Hcl Hconn. revert t p Hx.
  induction n as [|n IH]; intros t p Hx Hclk Hper beat.
  - exists p. split; [reflexivity|]. repeat split.
    destruct (mqtt_publish_ok (net p)); simpl; rewrite !app_nil_r; split; reflexivity.
  - simpl heartbeat_rounds. unfold bind at 1. unfold await at 1.
    set (p1 := set_clock p (Z.max (clock p) (next_tick t))).
    assert (Hx1 : heap p1 !! c = Some x) by exact Hx.
    pose proof (sendHeartbeat_cases r p1 c x Hc Hx1) as Hsend.
    rewrite Hcl, Hconn in Hsend. cbv zeta in Hsend.
    change (net p1) with (net p) in Hsend.
    destruct (mqtt_publish_ok (net p)) eqn:Hpub;
      rewrite (bind_returned _ _ _ _ _ Hsend); clear Hsend.
    + match goal with |- context [heartbeat_rounds n r ?t' ?q] =>
        destruct (IH t' q) as (p' & Hrun & Hh & Hw & Hn & Hs & Hrest)
      end.
      * exact Hx.
      * subst p1. simpl. lia.
      * exact Hper.
      * exists p'. split; [exact Hrun|].
        simpl in Hh, Hw, Hn, Hs, Hrest. rewrite Hpub in Hrest.
        destruct Hrest as [Hp Hl].
        repeat split; try assumption.
        rewrite Hp, tick_times_S, <- app_assoc. subst p1. simpl.
        rewrite Z.max_r by lia.
        replace (next_tick t + period t + 500 * Millisecond)
          with (next_tick t + 500 * Millisecond + period t) by lia.
        reflexivity.
    + match goal with |- context [heartbeat_rounds n r ?t' ?q] =>
        destruct (IH t' q) as (p' & Hrun & Hh & Hw & Hn & Hs & Hrest)
      end.
      * exact Hx.
      * subst p1. simpl. lia.
      * exact Hper.
      * exists p'. split; [exact Hrun|].
        simpl in Hh, Hw, Hn, Hs, Hrest. rewrite Hpub in Hrest.
        destruct Hrest as [Hp Hl].
        repeat split; try assumption.
        rewrite Hl, <- app_assoc. reflexivity.
Qed.


(** X16.  When the broker refuses the messages, the heartbeat loop
    publishes nothing and logs one failure per round, and goes on; when
    the receiver has no client or the client is not connected, it neither
    publishes nor logs. *)
Theorem heartbeat_silent (n : nat) (r : CommandReceiver) (p : Proc)
        (c : nat) (x : NodeContext) :
  nodeCtx r = Some c -> heap p !! c = Some x ->
  (forall cl, client r = Some cl -> IsConnected cl = true ->
     mqtt_publish_ok (net p) = false ->
     exists p', heartbeatLoop n r p = Returned tt p'
       /\ published p' = published p
       /\ log p' = log p ++ repeat (mkLog "heartbeat failed" [instanceID r]) (S n))
  /\ (client r = None \/ (exists cl, client r = Some cl /\ IsConnected cl = false) ->
      exists p', heartbeatLoop n r p = Returned tt p'
        /\ published p' = published p /\ log p' = log p).
Proof.
  intros Hc Hx. split.
  - intros cl Hcl Hconn Hpub. unfold heartbeatLoop.
    unfold bind at 1. unfold NewTicker at 1.
    unfold bind at 1. unfold Sleep at 1.
    set (p1 := set_clock p (clock p + 1 * Second)).
    assert (Hx1 : heap p1 !! c = Some x) by exact Hx.
    pose proof (sendHeartbeat_cases r p1 c x Hc Hx1) as Hsend.
    rewrite Hcl, Hconn in Hsend. cbv zeta in Hsend.
    change (net p1) with (net p) in Hsend. rewrite Hpub in Hsend.
    rewrite (bind_returned _ _ _ _ _ Hsend). clear Hsend.
    match goal with |- context [heartbeat_rounds n r ?t' ?q] =>
      destruct (heartbeat_rounds_cases n r t' q c x cl Hc Hx Hcl Hconn)
        as (p' & Hrun & Hh & Hw & Hn & Hs & Hrest)
    end.
    + subst p1. simpl. unfold Second, Millisecond. lia.
    + simpl. unfold Second, Millisecond. lia.
    + exists p'. split; [exact Hrun|].
      simpl in Hrest. rewrite Hpub in Hrest. destruct Hrest as [Hp Hl].
      split; [exact Hp|]. rewrite Hl, <- app_assoc. reflexivity.
  - intros Hoff.
    assert (Hsend : forall q, sendHeartbeat r q = Returned tt q).
    { intros q. unfold sendHeartbeat.
      destruct Hoff as [-> | (cl & -> & ->)]; reflexivity. }
    assert (Hrounds : forall m t q, exists q',
               heartbeat_rounds m r t q = Returned tt q'
               /\ published q' = published q /\ log q' = log q).
    { induction m as [|m IH]; intros t q.
      - exists q. repeat split.
      - simpl. unfold bind at 1. unfold await at 1.
        rewrite (bind_returned _ _ _ _ _ (Hsend _)).
        match goal with |- context [heartbeat_rounds m r ?t' ?q0] =>
          destruct (IH t' q0) as (q' & Hrun & Hp & Hl)
        end.
        exists q'. split; [exact Hrun|]. split; assumption. }
    unfold heartbeatLoop.
    unfold bind at 1. unfold NewTicker at 1.
    unfold bind at 1. unfold Sleep at 1.
    rewrite (bind_returned _ _ _ _ _ (Hsend _)).
    match goal with |- context [heartbeat_rounds n r ?t' ?q0] =>
      destruct (Hrounds n t' q0) as (q' & Hrun & Hp & Hl)
    end.
    exists q'. split; [exact Hrun|]. split; assumption.
Qed.

End HeartbeatMore.


Lemma heartbeat_silent_witness :
  let p := scenario.process_with_context (sync.mkNet true true false (Some 200%nat)) in
  exists p',
    command.heartbeatLoop 2 scenario.connected_receiver p = sync.Returned tt p'
    /\ sync.published p' = []
    /\ sync.log p' = repeat (sync.mkLog "heartbeat failed" ["svc-a-edge-1-100"%string]) 3.
Proof.
  intros p.
  apply (proj1 (heartbeat_silent 2 scenario.connected_receiver p 0 scenario.running_context
                  eq_refl eq_refl)
               (command.mkClient true ["v1/subapp/pcs/svc-a/control"%string]));
    reflexivity.
Defined.

(** ** Registration, reconnection and shutdown of an instance *)

Section InstanceFacts.
Import sync context.
Variable J : string -> string -> string.

(** The broker address [connectMQTT] uses. *)
Lemma broker_url (inst : node.Instance) (p : Proc) :
  exists url,
    (if decide (node.MQTTBroker (node.config inst) = EmptyString)
     then node.getMQTTBroker else ret (node.MQTTBroker (node.config inst))) p
    = Returned url p
    /\ (node.MQTTBroker (node.config inst) <> EmptyString ->
        url = node.MQTTBroker (node.config inst)).
Proof.
  destruct (decide _) as [He|Hne].
  - destruct (getMQTTBroker_total p) as [url Hurl]. exists url.
    split; [exact Hurl | contradiction].
  - eexists. split; reflexivity.
Qed.

(** What a connection attempt does to the instance and to the process. *)
Lemma connectMQTT_result (inst : node.Instance) (p : Proc) :
  exists err inst' p' url,
    node.connectMQTT inst p = Returned (err, inst') p'
    /\ (node.MQTTBroker (node.config inst) <> EmptyString ->
        url = node.MQTTBroker (node.config inst))
    /\ host p' = host p /\ heap p' = heap p /\ published p' = published p
    /\ net p' = net p /\ clock p' = clock p /\ hooks_run p' = hooks_run p
    /\ node.NodeName inst' = node.NodeName inst
    /\ node.InstanceID inst' = node.InstanceID inst
    /\ node.PID inst' = node.PID inst
    /\ node.fileLock inst' = node.fileLock inst
    /\ node.config inst' = node.config inst
    /\ node.ctx inst' = node.ctx inst
    /\ node.receiver inst' = node.receiver inst
    /\ if mqtt_connect_ok (net p) && mqtt_subscribe_ok (net p)
       then err = None /\ node.IsConnected inst' = true
            /\ (exists m, node.mqttClient inst' = Some m
                          /\ transport.onControl m = true
                          /\ transport.NodeName m = node.NodeName inst)
            /\ spawned p' = spawned p ++ [CommandReceiverTask url]
       else err <> None /\ inst' = inst /\ spawned p' = spawned p.
Proof.
  unfold node.connectMQTT.
  destruct (broker_url inst p) as (url & Hurl & Hcfg).
  rewrite (bind_returned _ _ _ _ _ Hurl).
  unfold bind, transport.Connect, transport.NewMQTTClientWithID, go, ret. simpl.
  destruct (mqtt_connect_ok (net p)); [destruct (mqtt_subscribe_ok (net p))|]; simpl;
    do 3 eexists; exists url; (split; [reflexivity|]); simpl;
    repeat split; try discriminate; try assumption.
  eexists. repeat split.
Qed.


Lemma AcquireLock_outcomes (nodeName : string) (w : os.World) :
  let path := util.lock_path J w nodeName in
  (util.AcquireLock J nodeName w
   = (Some (util.mkFileLock (Some (os.mkHandle (os.next_ino w) path)) path),
      util.locked_world w path)
   /\ path <> EmptyString)
  \/ util.AcquireLock J nodeName w = (None, w).
Proof.
  intros path. rewrite AcquireLock_cases.
  destruct (acquire_outcomes J nodeName w) as [[-> Hne] | ->]; auto.
Qed.

(** What a registration returns and leaves, in full. *)
Lemma RegisterWithConfig_result
      (nodeName : string) (cfg : node.Config) (cur : option node.Instance) (p : Proc) :
  nodeName <> EmptyString ->
  let acq := util.AcquireLock J nodeName (host p) in
  (node.EnableFileLock cfg = true -> fst acq = None ->
   node.RegisterWithConfig J nodeName cfg cur p
   = Returned (Some (node.errAlreadyRunning nodeName), cur) p)
  /\ (node.EnableFileLock cfg = false \/ fst acq <> None ->
      exists inst p',
        node.RegisterWithConfig J nodeName cfg cur p = Returned (None, Some inst) p'
        /\ node.registered nodeName cfg (if node.EnableFileLock cfg then fst acq else None) p inst
        /\ host p' = (if node.EnableFileLock cfg then snd acq else host p)
        /\ heap p' = heap p /\ published p' = published p /\ hooks_run p' = hooks_run p
        /\ node.IsConnected inst = mqtt_connect_ok (net p) && mqtt_subscribe_ok (net p)
        /\ exists url,
            spawned p'
            = spawned p ++ [if mqtt_connect_ok (net p) && mqtt_subscribe_ok (net p)
                            then CommandReceiverTask url else ReconnectLoop]
            /\ (node.MQTTBroker cfg <> EmptyString -> url = node.MQTTBroker cfg)).
Proof.
  intros Hn acq. unfold node.RegisterWithConfig.
  destruct (decide (nodeName = EmptyString)) as [|_]; [contradiction|].
  assert (Htail : forall fl p1,
    net p1 = net p -> hostname p1 = hostname p ->
    os.Getpid (host p1) = os.Getpid (host p) ->
    exists inst p',
      (let* hn := (fun p => Returned (default EmptyString (hostname p)) p) in
       let* id := node.GetInstanceID nodeName in
       let* pid := Getpid in
       let inst := node.mkInstance nodeName id hn pid None None false (Some false) fl cfg in
       let* _ := logf "instance" [nodeName; id; hn; strconv.FormatInt pid] in
       let* out := node.connectMQTT inst in
       let* _ := match out with
                 | (Some err, _) =>
                     let* _ := logf "initial MQTT connect failed" [err] in
                     go ReconnectLoop
                 | (None, _) => logf "MQTT connected" [id]
                 end in
       let inst' := snd out in
       let* herr := node.registerViaHTTP inst' in
       let* _ := match herr with
                 | Some err => logf "HTTP register failed" [err]
                 | None => ret tt
                 end in
       ret (@None string, Some inst')) p1
      = Returned (None, Some inst) p'
      /\ node.registered nodeName cfg fl p inst
      /\ host p' = host p1 /\ heap p' = heap p1 /\ published p' = published p1
      /\ hooks_run p' = hooks_run p1
      /\ node.IsConnected inst = mqtt_connect_ok (net p) && mqtt_subscribe_ok (net p)
      /\ exists url,
          spawned p'
          = spawned p1 ++ [if mqtt_connect_ok (net p) && mqtt_subscribe_ok (net p)
                           then CommandReceiverTask url else ReconnectLoop]
          /\ (node.MQTTBroker cfg <> EmptyString -> url = node.MQTTBroker cfg)).
  { intros fl p1 Hnet Hhn Hpid.
    do 4 (erewrite bind_returned by reflexivity; cbv beta zeta).
    match goal with |- context [bind (node.connectMQTT ?i) _ ?q] =>
      destruct (connectMQTT_result i q)
        as (err & inst' & p2 & url & Hc & Hurl & Hh & Hhp & Hpb & Hnt & _ & Hhk
            & Hnn & Hid & Hpd & Hfl & Hcf & Hcx & Hrc & Hif)
    end.
    rewrite (bind_returned _ _ _ _ _ Hc).
    simpl in Hurl, Hh, Hhp, Hpb, Hnt, Hhk, Hnn, Hid, Hpd, Hfl, Hcf, Hcx, Hrc, Hif.
    rewrite Hnet in Hif.
    assert (Hreg : node.registered nodeName cfg fl p inst').
    { unfold node.registered. rewrite Hnn, Hid, Hpd, Hfl, Hcf, Hcx, Hrc.
      unfold node.GetInstanceID. rewrite Hhn, Hpid.
      repeat split. }
    destruct (mqtt_connect_ok (net p) && mqtt_subscribe_ok (net p)).
    - destruct Hif as (-> & Hconn & _ & Hsp).
      erewrite bind_returned by reflexivity. cbv beta zeta. simpl snd.
      match goal with |- context [node.registerViaHTTP ?i] =>
        match goal with |- context [add_log p2 ?l] =>
          destruct (registerViaHTTP_total i (add_log p2 l)) as [herr Hhttp]
        end
      end.
      rewrite (bind_returned _ _ _ _ _ Hhttp).
      destruct herr; (erewrite bind_returned by reflexivity); unfold ret;
        do 2 eexists; (split; [reflexivity|]); simpl;
        (split; [exact Hreg|]); repeat (split; [assumption|]);
        exists url; (split; [exact Hsp | exact Hurl]).
    - destruct Hif as (Herr & -> & Hsp).
      destruct err as [e|]; [|contradiction].
      erewrite bind_returned by reflexivity. cbv beta zeta. simpl snd.
      match goal with |- context [bind (node.registerViaHTTP ?i) _ ?q] =>
        destruct (registerViaHTTP_total i q) as [herr Hhttp]
      end.
      rewrite (bind_returned _ _ _ _ _ Hhttp).
      destruct herr; (erewrite bind_returned by reflexivity); unfold ret;
        do 2 eexists; (split; [reflexivity|]); simpl;
        (split; [exact Hreg|]); repeat (split; [assumption|]);
        (split; [reflexivity|]);
        exists url; (split; [rewrite Hsp; reflexivity | exact Hurl]). }
  destruct (node.EnableFileLock cfg) eqn:Hlock.
  - subst acq.
    destruct (AcquireLock_outcomes nodeName (host p)) as [[Hacq Hne] | Hacq];
      rewrite Hacq; simpl fst; simpl snd.
    + split; [intros _ H; discriminate H|]. intros _.
      match goal with
      | |- context [Some ?l] =>
          match l with
          | util.mkFileLock _ _ =>
              destruct (Htail (Some l)
                          (add_log (set_host (set_host p
                             (util.locked_world (host p) (util.lock_path J (host p) nodeName)))
                             (util.locked_world (host p) (util.lock_path J (host p) nodeName)))
                             (mkLog "file lock acquired"
                                    [util.lock_path J (host p) nodeName]))
                          eq_refl eq_refl eq_refl)
                as (inst & p' & Hrun & Hrest)
          end
      end.
      erewrite bind_returned
        by (unfold bind, lift, logf, ret, util.GetLockFilePath; rewrite Hacq; reflexivity).
      exists inst, p'. split; [exact Hrun | exact Hrest].
    + split.
      * intros _ _.
        erewrite bind_returned by (unfold bind, lift, ret; rewrite Hacq; reflexivity).
        unfold ret. rewrite set_host_same. reflexivity.
      * intros [H | H]; [discriminate H | contradiction H; reflexivity].
  - split; [discriminate|]. intros _.
    destruct (Htail None p eq_refl eq_refl eq_refl) as (inst & p' & Hrun & Hrest).
    erewrite bind_returned by reflexivity.
    exists inst, p'. split; [exact Hrun | exact Hrest].
Qed.


(** X17.  A successful registration without the file lock builds the
    instance identifier from name, host name ([unknown] when the host
    name cannot be read) and PID, touches no file, creates no node
    context, publishes nothing, and starts exactly one goroutine: the
    command receiver when broker connection and subscription succeeded
    (the instance then reports connected), the reconnect loop
    otherwise. *)
Theorem register_starts_one_task
        (nodeName : string) (cfg : node.Config) (cur : option node.Instance) (p : Proc) :
  nodeName <> EmptyString -> node.EnableFileLock cfg = false ->
  exists inst p' url,
    node.RegisterWithConfig J nodeName cfg cur p = Returned (None, Some inst) p'
    /\ node.InstanceID inst
       = nodeName +:+ "-" +:+ default "unknown"%string (hostname p) +:+ "-"
         +:+ strconv.FormatInt (os.Getpid (host p))
    /\ node.fileLock inst = None /\ host p' = host p
    /\ heap p' = heap p /\ published p' = published p
    /\ (node.MQTTBroker cfg <> EmptyString -> url = node.MQTTBroker cfg)
    /\ if mqtt_connect_ok (net p) && mqtt_subscribe_ok (net p)
       then node.IsConnected inst = true
            /\ spawned p' = spawned p ++ [CommandReceiverTask url]
       else node.IsConnected inst = false
            /\ spawned p' = spawned p ++ [ReconnectLoop].
Proof.
  intros Hn Hoff.
  destruct (proj2 (RegisterWithConfig_result nodeName cfg cur p Hn) (or_introl Hoff))
    as (inst & p' & Hrun & Hreg & Hhost & Hheap & Hpub & _ & Hconn & url & Hsp & Hurl).
  rewrite Hoff in Hreg, Hhost.
  destruct Hreg as (_ & Hid & _ & Hfl & _).
  exists inst, p', url. split; [exact Hrun|].
  repeat (split; [assumption|]).
  destruct (mqtt_connect_ok (net p) && mqtt_subscribe_ok (net p)); split; assumption.
Qed.

Lemma held_by_owner (nodeName : string) (w : os.World) :
  let path := util.lock_path J w nodeName in
  path <> EmptyString ->
  0 < os.Getpid w <= strconv.intMax ->
  util.running (os.Getpid w) w = true ->
  util.classify (util.locked_world w path) (util.lock_path J (util.locked_world w path) nodeName)
  = util.Held (os.Getpid w).
Proof.
  intros path Hne Hpid Hrun.
  change (util.lock_path J (util.locked_world w path) nodeName) with path.
  unfold util.classify. rewrite (entry_locked_world w path Hne). simpl.
  rewrite Atoi_FormatInt by (unfold strconv.intMin; lia).
  assert (Hr : util.running (os.Getpid w) (util.locked_world w path)
               = util.running (os.Getpid w) w).
  { unfold util.running, util.isProcessRunning, os.bind, os.Kill0, os.ret.
    destruct (os.Getpid w <=? 0); [reflexivity|]. simpl.
    destruct (negb _); [|reflexivity].
    destruct (os.procs w !! os.Getpid w) as [[|]|]; reflexivity. }
  rewrite Hr, Hrun. reflexivity.
Qed.

(** X18.  The lock also excludes the process that holds it: after a
    registration with the file lock, a second registration of the same
    name with the lock, in the same process, fails with the error of the
    running instance, leaves the current instance and the process as they
    were, and [IsLocked] names the PID of the process itself. *)
Theorem register_twice_refused
        (nodeName : string) (cfg cfg' : node.Config) (cur : option node.Instance) (p : Proc)
        (inst : node.Instance) (p' : Proc) :
  nodeName <> EmptyString ->
  node.EnableFileLock cfg = true -> node.EnableFileLock cfg' = true ->
  0 < os.Getpid (host p) <= strconv.intMax ->
  util.running (os.Getpid (host p)) (host p) = true ->
  node.RegisterWithConfig J nodeName cfg cur p = Returned (None, Some inst) p' ->
  node.RegisterWithConfig J nodeName cfg' (Some inst) p'
  = Returned (Some (node.errAlreadyRunning nodeName), Some inst) p'
  /\ fst (util.IsLocked J nodeName (host p')) = (true, os.Getpid (host p)).
Proof.
  intros Hn Hlock Hlock' Hpid Hrun Hreg.
  destruct (RegisterWithConfig_result nodeName cfg cur p Hn) as [Hfail Hok].
  destruct (AcquireLock_outcomes nodeName (host p)) as [[Hacq Hne] | Hacq].
  - destruct Hok as (inst0 & p0 & Hrun0 & _ & Hhost & _).
    { right. rewrite Hacq. discriminate. }
    rewrite Hreg in Hrun0. injection Hrun0 as <- <-.
    rewrite Hlock, Hacq in Hhost. simpl in Hhost.
    pose proof (held_by_owner nodeName (host p) Hne Hpid Hrun) as Hheld.
    rewrite <- Hhost in Hheld.
    split.
    + apply (proj1 (RegisterWithConfig_result nodeName cfg' (Some inst) p' Hn) Hlock').
      rewrite AcquireLock_cases, acquire_cases. cbv zeta. rewrite Hheld. reflexivity.
    + rewrite IsLocked_cases, Hheld. reflexivity.
  - rewrite (Hfail Hlock) in Hreg by (rewrite Hacq; reflexivity). discriminate Hreg.
Qed.

Lemma Stop_result (inst : node.Instance) (p : Proc) :
  exists p',
    node.Stop inst p
    = Returned (node.mkInstance (node.NodeName inst) (node.InstanceID inst)
                  (node.Hostname inst) (node.PID inst)
                  (transport.Disconnect <$> node.mqttClient inst)
                  (command.Stop <$> node.receiver inst)
                  (node.connected inst)
                  (match node.ctx inst with Some _ => Some true | None => None end)
                  (node.fileLock inst) (node.config inst)) p'
    /\ host p' = snd (util.Release (node.fileLock inst) (host p))
    /\ heap p' = heap p /\ published p' = published p /\ spawned p' = spawned p
    /\ hooks_run p' = hooks_run p /\ net p' = net p.
Proof.
  unfold node.Stop, bind, lift, logf, ret.
  destruct (node.fileLock inst) as [l|].
  - destruct (util.Release (Some l) (host p)) as [u w] eqn:Hrel.
    eexists. split.
    + destruct (node.mqttClient inst), (node.receiver inst); reflexivity.
    + simpl. repeat split.
  - exists p. split.
    + destruct (node.mqttClient inst), (node.receiver inst); reflexivity.
    + repeat split.
Qed.

(** X19.  Registration with the file lock followed by [Shutdown]: the
    registration leaves the lock record on the host, [Shutdown] stops the
    instance, clears the current instance and deletes the record, so that
    [IsLocked] answers not locked; a further [Shutdown] does nothing. *)
Theorem register_then_shutdown
        (nodeName : string) (cfg : node.Config) (cur : option node.Instance) (p : Proc) :
  nodeName <> EmptyString -> node.EnableFileLock cfg = true ->
  fst (util.AcquireLock J nodeName (host p)) <> None ->
  exists inst p1 p2,
    node.RegisterWithConfig J nodeName cfg cur p = Returned (None, Some inst) p1
    /\ is_Some (os.entry (host p1) (util.lock_path J (host p) nodeName))
    /\ node.Shutdown (Some inst) p1 = Returned None p2
    /\ os.entry (host p2) (util.lock_path J (host p) nodeName) = None
    /\ fst (util.IsLocked J nodeName (host p2)) = (false, 0)
    /\ node.Shutdown None p2 = Returned None p2.
Proof.
  intros Hn Hlock Hgot.
  destruct (proj2 (RegisterWithConfig_result nodeName cfg cur p Hn) (or_intror Hgot))
    as (inst & p1 & Hrun & Hreg & Hhost & _).
  destruct (AcquireLock_outcomes nodeName (host p)) as [[Hacq Hne] | Hacq];
    [|rewrite Hacq in Hgot; contradiction Hgot; reflexivity].
  rewrite Hlock, Hacq in Hreg, Hhost. simpl in Hreg, Hhost.
  destruct Hreg as (_ & _ & _ & Hfl & _).
  destruct (Stop_result inst p1) as (p2 & Hstop & Hhost2 & _).
  exists inst, p1, p2. split; [exact Hrun|].
  set (path := util.lock_path J (host p) nodeName) in *.
  assert (Hgone : os.entry (host p2) path = None).
  { rewrite Hhost2, Hfl, Hhost. apply release_after_acquire, Hne. }
  split; [rewrite Hhost, (entry_locked_world _ _ Hne); eauto|].
  split; [unfold node.Shutdown; rewrite (bind_returned _ _ _ _ _ Hstop); reflexivity|].
  split; [exact Hgone|]. split; [|reflexivity].
  rewrite IsLocked_cases.
  assert (Hpath : util.lock_path J (host p2) nodeName = path).
  { subst path. apply lock_path_tempdir.
    rewrite Hhost2, release_keeps_tempdir, Hhost. reflexivity. }
  rewrite Hpath. unfold util.classify. rewrite Hgone. reflexivity.
Qed.

(** X20.  After [Stop] the instance reports not connected, and a second
    [Stop] changes neither the instance nor the host. *)
Theorem Stop_idempotent (inst : node.Instance) (p : Proc) :
  exists inst' p' p'',
    node.Stop inst p = Returned inst' p'
    /\ node.IsConnected inst' = false
    /\ node.Stop inst' p' = Returned inst' p''
    /\ host p'' = host p'.
Proof.
  destruct (Stop_result inst p) as (p' & Hstop & Hhost & _).
  eexists. exists p'. 
  match type of Hstop with _ = Returned ?i _ =>
    destruct (Stop_result i p') as (p'' & Hstop2 & Hhost2 & _)
  end.
  exists p''. split; [exact Hstop|]. split.
  - unfold node.IsConnected. cbn [node.mqttClient node.connected].
    destruct (node.mqttClient inst) as [m|];
      cbn [fmap option_fmap option_map]; [|apply andb_false_r].
    rewrite (proj1 (Disconnect_not_connected m)). apply andb_false_r.
  - split.
    + rewrite Hstop2. simpl. f_equal. f_equal.
      * destruct (node.mqttClient inst) as [m|]; [|reflexivity]. simpl. f_equal.
        unfold transport.Disconnect.
        destruct (transport.connected m) eqn:E; simpl; rewrite ?E; [|reflexivity].
        simpl. f_equal. f_equal. apply list_filter_filter_l. auto.
      * destruct (node.receiver inst) as [r|]; [|reflexivity]. simpl. f_equal.
        apply receiver_Stop_Stop.
      * destruct (node.ctx inst); reflexivity.
    + rewrite Hhost2. simpl node.fileLock. rewrite Hhost.
      destruct (node.fileLock inst) as [l|]; [|reflexivity].
      apply Release_twice.
Qed.

End InstanceFacts.

Lemma register_starts_one_task_witness :
  let p := scenario.process (scenario.linux ∅ {[ 100 := true ]}) scenario.offline in
  exists inst p',
    node.RegisterWithConfig util.join_clean scenario.app
                            (scenario.config false (30 * context.Second)) None p
    = sync.Returned (None, Some inst) p'
    /\ node.InstanceID inst = "svc-a-edge-1-100"%string
    /\ node.IsConnected inst = false
    /\ sync.spawned p' = [sync.ReconnectLoop].
Proof.
  intros p.
  destruct (register_starts_one_task util.join_clean scenario.app
              (scenario.config false (30 * context.Second)) None p)
    as (inst & p' & url & Hrun & Hid & _ & _ & _ & _ & _ & Hif).
  - discriminate.
  - reflexivity.
  - simpl in Hif. destruct Hif as [Hoff Hsp].
    exists inst, p'. split; [exact Hrun|]. split; [exact Hid|]. split; assumption.
Defined.

Lemma register_twice_refused_witness :
  let p := scenario.process (scenario.linux ∅ {[ 100 := true ]}) scenario.online in
  let cfg := scenario.config true (30 * context.Second) in
  exists inst p',
    node.RegisterWithConfig util.join_clean scenario.app cfg None p
    = sync.Returned (None, Some inst) p'
    /\ node.RegisterWithConfig util.join_clean scenario.app cfg (Some inst) p'
       = sync.Returned (Some (node.errAlreadyRunning "svc-a"), Some inst) p'
    /\ fst (util.IsLocked util.join_clean scenario.app (sync.host p')) = (true, 100).
Proof.
  intros p cfg.
  assert (H : exists inst p',
             node.RegisterWithConfig util.join_clean scenario.app cfg None p
             = sync.Returned (None, Some inst) p').
  { vm_compute. do 2 eexists. reflexivity. }
  destruct H as (inst & p' & H).
  exists inst, p'. split; [exact H|].
  apply (register_twice_refused util.join_clean scenario.app cfg cfg None p inst p');
    try reflexivity; try discriminate; try exact H.
  vm_compute. split; [reflexivity | discriminate].
Defined.

Lemma register_then_shutdown_witness :
  let p := scenario.process (scenario.linux ∅ {[ 100 := true ]}) scenario.online in
  let cfg := scenario.config true (30 * context.Second) in
  exists inst p1 p2,
    node.RegisterWithConfig util.join_clean scenario.app cfg None p
    = sync.Returned (None, Some inst) p1
    /\ is_Some (os.entry (sync.host p1) "/tmp/svc-a.lock")
    /\ node.Shutdown (Some inst) p1 = sync.Returned None p2
    /\ os.entry (sync.host p2) "/tmp/svc-a.lock" = None
    /\ fst (util.IsLocked util.join_clean scenario.app (sync.host p2)) = (false, 0)
    /\ node.Shutdown None p2 = sync.Returned None p2.
Proof.
  intros p cfg.
  apply (register_then_shutdown util.join_clean scenario.app cfg None p).
  - discriminate.
  - reflexivity.
  - vm_compute. discriminate.
Defined.

(** ** Exit on a failed registration, and the reconnect loop *)

Section ReconnectFacts.
Import sync context.
Variable J : string -> string -> string.

Lemma RegisterWithLock_config (nodeName : string) (cur : option node.Instance) (p : Proc) :
  exists cfg, node.EnableFileLock cfg = true
              /\ node.RegisterWithLock J nodeName cur p
                 = node.RegisterWithConfig J nodeName cfg cur p.
Proof.
  unfold node.RegisterWithLock.
  destruct (DefaultConfig_total p) as (cfg & Hcfg & _).
  rewrite (bind_returned _ _ _ _ _ Hcfg).
  eexists. split; [|reflexivity]. reflexivity.
Qed.

(** X21.  [MustRegisterWithLock] ends the process with exit status 1
    when the name is empty or the lock is not obtained, before any file is
    touched or goroutine started; otherwise it returns with the instance
    registered and holding the lock. *)
Theorem MustRegisterWithLock_exits (nodeName : string) (cur : option node.Instance) (p : Proc) :
  (nodeName = EmptyString \/ fst (util.AcquireLock J nodeName (host p)) = None ->
   exists p', node.MustRegisterWithLock J nodeName cur p = Exited 1 p'
              /\ host p' = host p /\ spawned p' = spawned p)
  /\ (nodeName <> EmptyString -> fst (util.AcquireLock J nodeName (host p)) <> None ->
      exists inst p',
        node.MustRegisterWithLock J nodeName cur p = Returned (Some inst) p'
        /\ node.fileLock inst = fst (util.AcquireLock J nodeName (host p))
        /\ host p' = snd (util.AcquireLock J nodeName (host p))).
Proof.
  destruct (RegisterWithLock_config nodeName cur p) as (cfg' & Hon & Heq).
  unfold node.MustRegisterWithLock.
  split.
  - intros Hwhy.
    destruct (decide (nodeName = EmptyString)) as [He|Hn].
    + unfold bind. rewrite Heq. unfold node.RegisterWithConfig.
      destruct (decide (nodeName = EmptyString)); [|contradiction].
      eexists. split; [reflexivity|]. split; reflexivity.
    + destruct Hwhy as [He|Hbusy]; [contradiction|].
      unfold bind. rewrite Heq.
      rewrite (proj1 (RegisterWithConfig_result J nodeName cfg' cur p Hn) Hon Hbusy).
      eexists. split; [reflexivity|]. split; reflexivity.
  - intros Hn Hgot.
    destruct (proj2 (RegisterWithConfig_result J nodeName cfg' cur p Hn) (or_intror Hgot))
      as (inst & p' & Hrun & Hreg & Hhost & _).
    unfold bind. rewrite Heq, Hrun.
    exists inst, p'. split; [reflexivity|].
    rewrite Hon in Hreg, Hhost.
    destruct Hreg as (_ & _ & _ & Hfl & _). split; [exact Hfl | exact Hhost].
Qed.

(** One tick of the reconnect loop. *)
Lemma reconnect_tick_cases (inst : node.Instance) (p : Proc) :
  (node.IsConnected inst = true -> node.reconnect_tick inst p = Returned inst p)
  /\ (node.IsConnected inst = false ->
      exists inst' p' url,
        node.reconnect_tick inst p = Returned inst' p'
        /\ host p' = host p /\ net p' = net p /\ clock p' = clock p
        /\ published p' = published p /\ heap p' = heap p
        /\ node.fileLock inst' = node.fileLock inst
        /\ if mqtt_connect_ok (net p) && mqtt_subscribe_ok (net p)
           then node.IsConnected inst' = true
                /\ spawned p' = spawned p ++ [CommandReceiverTask url]
                /\ node.attempts p' = S (node.attempts p)
                /\ last (log p') = Some (mkLog "reconnected" [node.InstanceID inst])
           else node.IsConnected inst' = false
                /\ node.mqttClient inst' = node.mqttClient inst
                /\ spawned p' = spawned p
                /\ node.attempts p' = S (node.attempts p)
                /\ exists err, last (log p') = Some (mkLog "reconnect failed" [err])).
Proof.
  unfold node.reconnect_tick, node.IsConnected. split.
  - intros ->. reflexivity.
  - intros Hoff. rewrite Hoff.
    set (inst1 := if node.connected inst then node.set_connected inst false else inst).
    unfold bind at 1. unfold logf at 1.
    set (p1 := add_log p (mkLog "reconnecting" [])).
    assert (Hoff1 : node.connected inst1
                    && match node.mqttClient inst1 with
                       | Some m => transport.IsConnected m
                       | None => false
                       end = false).
    { subst inst1. destruct (node.connected inst) eqn:E; [reflexivity|].
      rewrite E. reflexivity. }
    assert (Hsame : node.fileLock inst1 = node.fileLock inst
                    /\ node.mqttClient inst1 = node.mqttClient inst
                    /\ node.NodeName inst1 = node.NodeName inst
                    /\ node.InstanceID inst1 = node.InstanceID inst).
    { subst inst1. destruct (node.connected inst); repeat split. }
    destruct Hsame as (Hfl1 & Hm1 & Hn1 & Hi1).
    unfold bind at 1. unfold node.connectMQTT.
    destruct (broker_url inst1 p1) as (url & Hurl & _).
    rewrite (bind_returned _ _ _ _ _ Hurl).
    unfold bind, transport.Connect, transport.NewMQTTClientWithID, go, ret, logf.
    change (net p1) with (net p). simpl.
    destruct (mqtt_connect_ok (net p)); [destruct (mqtt_subscribe_ok (net p))|]; simpl.
    + do 2 eexists. exists url. split; [reflexivity|]. simpl.
      repeat (split; [first [reflexivity | assumption]|]).
      split.
      * unfold node.attempts. subst p1. simpl. rewrite !List.filter_app, !length_app. simpl. lia.
      * rewrite Hi1. apply last_snoc.
    + do 2 eexists. exists url. split; [reflexivity|]. simpl.
      repeat (split; [first [reflexivity | assumption]|]).
      split.
      * unfold node.attempts. subst p1. simpl. rewrite !List.filter_app, !length_app. simpl. lia.
      * eexists. apply last_snoc.
    + do 2 eexists. exists url. split; [reflexivity|]. simpl.
      repeat (split; [first [reflexivity | assumption]|]).
      split.
      * unfold node.attempts. subst p1. simpl. rewrite !List.filter_app, !length_app. simpl. lia.
      * eexists. apply last_snoc.
Qed.


Lemma reconnect_rounds_connected (n : nat) (inst : node.Instance) (t : command.Ticker) (p : Proc) :
  node.IsConnected inst = true ->
  clock p <= command.next_tick t -> 0 <= command.period t ->
  exists p', node.reconnect_rounds n inst t p = Returned inst p'
             /\ log p' = log p /\ spawned p' = spawned p /\ host p' = host p
             /\ clock p' = node.after_ticks n t (clock p).
Proof.
  intros Hon. revert t p. induction n as [|n IH]; intros t p Hclk Hper.
  - exists p. repeat split.
  - simpl node.reconnect_rounds. unfold bind at 1. unfold command.await at 1.
    rewrite (bind_returned _ _ _ _ _ (proj1 (reconnect_tick_cases inst _) Hon)).
    match goal with |- context [node.reconnect_rounds n inst ?t' ?q] =>
      destruct (IH t' q) as (p' & Hrun & Hl & Hs & Hh & Hc)
    end.
    + simpl. lia.
    + exact Hper.
    + exists p'. split; [exact Hrun|]. simpl in Hl, Hs, Hh, Hc.
      repeat (split; [assumption|]). rewrite Hc.
      destruct n as [|m]; cbn [node.after_ticks command.next_tick command.period];
        [|rewrite Nat2Z.inj_succ]; lia.
Qed.

Lemma reconnect_rounds_down (n : nat) (inst : node.Instance) (t : command.Ticker) (p : Proc) :
  mqtt_connect_ok (net p) && mqtt_subscribe_ok (net p) = false ->
  node.IsConnected inst = false ->
  clock p <= command.next_tick t -> 0 <= command.period t ->
  exists inst' p', node.reconnect_rounds n inst t p = Returned inst' p'
    /\ node.IsConnected inst' = false
    /\ spawned p' = spawned p /\ host p' = host p /\ published p' = published p
    /\ node.attempts p' = (node.attempts p + n)%nat
    /\ clock p' = node.after_ticks n t (clock p).
Proof.
  revert inst t p. induction n as [|n IH]; intros inst t p Hdown Hoff Hclk Hper.
  - exists inst, p. split; [reflexivity|]. repeat split; [exact Hoff|].
    rewrite Nat.add_0_r. reflexivity.
  - simpl node.reconnect_rounds. unfold bind at 1. unfold command.await at 1.
    set (p1 := set_clock p (Z.max (clock p) (command.next_tick t))).
    destruct (proj2 (reconnect_tick_cases inst p1) Hoff)
      as (inst1 & p2 & url & Htick & Hh & Hn & Hc & Hpb & _ & _ & Hif).
    change (net p1) with (net p) in Hif, Hn. rewrite Hdown in Hif.
    destruct Hif as (Hoff1 & _ & Hsp & Hatt & _).
    rewrite (bind_returned _ _ _ _ _ Htick).
    match goal with |- context [node.reconnect_rounds n inst1 ?t' p2] =>
      destruct (IH inst1 t' p2) as (inst' & p' & Hrun & Hoff' & Hs & Hh' & Hpb' & Ha & Hc')
    end.
    + rewrite Hn. exact Hdown.
    + exact Hoff1.
    + rewrite Hc. subst p1. simpl. lia.
    + exact Hper.
    + exists inst', p'. split; [exact Hrun|]. split; [exact Hoff'|].
      split; [rewrite Hs, Hsp; reflexivity|].
      split; [rewrite Hh', Hh; reflexivity|].
      split; [rewrite Hpb', Hpb; reflexivity|].
      split.
      * rewrite Ha, Hatt. change (node.attempts p1) with (node.attempts p). lia.
      * rewrite Hc', Hc. subst p1. cbn [clock set_clock].
        rewrite Z.max_r by lia.
        destruct n as [|m]; cbn [node.after_ticks command.next_tick command.period];
          [|rewrite Nat2Z.inj_succ]; lia.
Qed.

(** X22.  The reconnect loop of an unconnected instance attempts nothing
    before its first tick.  While the broker refuses, every tick makes
    one attempt, the instance stays unconnected and no goroutine is
    started; the ticks are fifteen minutes apart.  When the broker
    accepts, the first tick connects the instance and starts one command
    receiver, and the later ticks attempt nothing. *)
Theorem reconnect_loop (n : nat) (inst : node.Instance) (p : Proc) :
  node.IsConnected inst = false ->
  node.startReconnectLoop 0 inst p
  = Returned inst (add_log p (mkLog "reconnect loop started" []))
  /\ (mqtt_connect_ok (net p) && mqtt_subscribe_ok (net p) = false ->
      exists inst' p',
        node.startReconnectLoop n inst p = Returned inst' p'
        /\ node.IsConnected inst' = false
        /\ node.attempts p' = (node.attempts p + n)%nat
        /\ spawned p' = spawned p
        /\ clock p' = clock p + Z.of_nat n * node.ReconnectInterval)
  /\ (mqtt_connect_ok (net p) && mqtt_subscribe_ok (net p) = true ->
      exists inst' p' url,
        node.startReconnectLoop (S n) inst p = Returned inst' p'
        /\ node.IsConnected inst' = true
        /\ node.attempts p' = S (node.attempts p)
        /\ spawned p' = spawned p ++ [CommandReceiverTask url]
        /\ clock p' = clock p + Z.of_nat (S n) * node.ReconnectInterval).
Proof.
  intros Hoff. split; [reflexivity|].
  assert (Hint : 0 <= node.ReconnectInterval).
  { unfold node.ReconnectInterval, Minute, Second. lia. }
  unfold node.startReconnectLoop.
  unfold bind at 1. unfold command.NewTicker at 1.
  unfold bind at 1. unfold logf at 1.
  unfold bind at 1. unfold command.NewTicker at 1.
  unfold bind at 1. unfold logf at 1.
  set (p0 := add_log p (mkLog "reconnect loop started" [])).
  set (t0 := command.mkTicker (clock p + node.ReconnectInterval) node.ReconnectInterval).
  assert (Hatt0 : node.attempts p0 = node.attempts p).
  { unfold node.attempts. subst p0. simpl. rewrite List.filter_app, length_app. simpl. lia. }
  split.
  - intros Hdown.
    destruct (reconnect_rounds_down n inst t0 p0 Hdown Hoff)
      as (inst' & p' & Hrun & Hoff' & Hs & _ & _ & Ha & Hc).
    { subst p0 t0. simpl. lia. }
    { exact Hint. }
    exists inst', p'. split; [exact Hrun|]. split; [exact Hoff'|].
    split; [rewrite Ha, Hatt0; reflexivity|]. split; [exact Hs|].
    rewrite Hc. subst p0 t0.
    destruct n as [|m]; cbn [node.after_ticks command.next_tick command.period clock add_log];
      [|rewrite Nat2Z.inj_succ]; lia.
  - intros Hup.
    simpl node.reconnect_rounds. unfold bind at 1. unfold command.await at 1.
    set (p1 := set_clock p0 (Z.max (clock p0) (command.next_tick t0))).
    destruct (proj2 (reconnect_tick_cases inst p1) Hoff)
      as (inst1 & p2 & url & Htick & Hh & Hn & Hc & _ & _ & _ & Hif).
    change (net p1) with (net p) in Hif. rewrite Hup in Hif.
    destruct Hif as (Hon & Hsp & Hatt & _).
    rewrite (bind_returned _ _ _ _ _ Htick).
    match goal with |- context [node.reconnect_rounds n inst1 ?t' p2] =>
      destruct (reconnect_rounds_connected n inst1 t' p2 Hon)
        as (p' & Hrun & Hl & Hs & _ & Hc')
    end.
    { rewrite Hc. subst p1 p0 t0. simpl. lia. }
    { exact Hint. }
    exists inst1, p', url. split; [exact Hrun|]. split; [exact Hon|].
    assert (Hsame : node.attempts p' = node.attempts p2).
    { unfold node.attempts. rewrite Hl. reflexivity. }
    split; [rewrite Hsame, Hatt; change (node.attempts p1) with (node.attempts p0);
            rewrite Hatt0; reflexivity|].
    split; [rewrite Hs, Hsp; reflexivity|].
    rewrite Hc', Hc. subst p1 p0 t0. cbn [clock set_clock add_log command.next_tick].
    rewrite Z.max_r by lia.
    destruct n as [|m]; cbn [node.after_ticks command.next_tick command.period];
      [|rewrite Nat2Z.inj_succ]; lia.
Qed.

End ReconnectFacts.

Lemma MustRegisterWithLock_exits_witness :
  let w := scenario.linux (scenario.left_over "4242" true true)
                          {[ 100 := true; 4242 := true ]} in
  let p := scenario.process w scenario.online in
  exists p', node.MustRegisterWithLock util.join_clean scenario.app None p = sync.Exited 1 p'
             /\ sync.host p' = sync.host p /\ sync.spawned p' = sync.spawned p.
Proof.
  intros w p.
  apply (proj1 (MustRegisterWithLock_exits util.join_clean scenario.app None p)).
  right. vm_compute. reflexivity.
Defined.

Lemma reconnect_loop_witness :
  let p := scenario.process (scenario.linux ∅ {[ 100 := true ]}) scenario.offline in
  let inst := scenario.instance (scenario.config false (30 * context.Second)) in
  exists inst' p',
    node.startReconnectLoop 3 inst p = sync.Returned inst' p'
    /\ node.IsConnected inst' = false
    /\ node.attempts p' = 3%nat
    /\ sync.spawned p' = []
    /\ sync.clock p' = 3 * node.ReconnectInterval.
Proof.
  intros p inst.
  apply (proj1 (proj2 (reconnect_loop 3 inst p eq_refl))).
  reflexivity.
Defined.

(** ** The transport client *)

Section TransportFacts.
Import sync transport.

Lemma string_app_length (a b : string) :
  String.length (a +:+ b) = (String.length a + String.length b)%nat.
Proof.
  induction a as [|c a IH]; [reflexivity|].
  change (S (String.length (a +:+ b)) = S (String.length a + String.length b)).
  rewrite IH. reflexivity.
Qed.


(** X24.  A transport client that was never connected, that was
    disconnected, or that lost its connection is not connected, and every
    send operation on a client that is not connected (publish, heartbeat,
    status, log, subscribe, unsubscribe) fails with the error
    [MQTT client not connected] and hands nothing to the broker. *)
Theorem sends_need_connection (m : MQTTClient) (p : Proc) (out : list Sent) :
  (forall name id url user pass,
      IsConnected (NewMQTTClientWithID name id url user pass) = false)
  /\ IsConnected (Disconnect m) = false
  /\ (exists m' p', onConnectionLost m p = Returned m' p' /\ IsConnected m' = false)
  /\ (IsConnected m = false ->
      (forall topic qos retained payload,
          Publish m topic qos retained payload p out = (Some errNotConnected, out))
      /\ SendHeartbeat m p out = (Some errNotConnected, out)
      /\ (forall status details,
             SendStatus m status details p out = (Some errNotConnected, out))
      /\ (forall level message, SendLog m level message p out = (Some errNotConnected, out))
      /\ (forall topic qos, Subscribe m topic qos p = Returned (Some errNotConnected, m) p)
      /\ (forall topics accepted,
             Unsubscribe m topics accepted p = Returned (Some errNotConnected, m) p)).
Proof.
  split; [reflexivity|]. split; [apply Disconnect_not_connected|].
  split; [do 2 eexists; split; reflexivity|].
  intros Hoff.
  unfold Publish, SendHeartbeat, SendStatus, SendLog, Subscribe, Unsubscribe.
  rewrite Hoff. simpl. repeat split.
Qed.

(** X25.  On a connected client, heartbeat and status messages both go
    out on the heartbeat topic of the node (never on its status topic),
    log messages on its log topic with the node name as source; each
    call hands exactly one message to the broker, with QoS 1 and not
    retained. *)
Theorem status_goes_to_heartbeat_topic
        (name id url user pass : string) (m : MQTTClient) (p p' : Proc) (out : list Sent) :
  Connect (NewMQTTClientWithID name id url user pass) p = Returned (None, m) p' ->
  mqtt_publish_ok (net p') = true ->
  let pid := os.Getpid (host p') in
  SendHeartbeat m p' out
  = (None, out ++ [mkSent (HeartbeatTopic name) 1 false (HeartbeatData "running" pid)])
  /\ (forall status details,
         SendStatus m status details p' out
         = (None, out ++ [mkSent (HeartbeatTopic name) 1 false
                                 (StatusData status pid details)]))
  /\ (forall level message,
         SendLog m level message p' out
         = (None, out ++ [mkSent (LogTopic name) 1 false (LogData level message name)]))
  /\ HeartbeatTopic name <> StatusTopic name.
Proof.
  unfold Connect, NewMQTTClientWithID. simpl.
  destruct (mqtt_connect_ok (net p)); [|discriminate].
  destruct (mqtt_subscribe_ok (net p)); [|discriminate].
  intros [= <- <-] Hpub. simpl in Hpub.
  unfold SendHeartbeat, SendStatus, SendLog, Publish, IsConnected. simpl. rewrite Hpub.
  repeat split.
  unfold HeartbeatTopic, StatusTopic. intros H.
  apply (f_equal String.length) in H.
  rewrite !string_app_length in H. simpl in H. lia.
Qed.

End TransportFacts.


Lemma sends_need_connection_witness :
  let p := scenario.process (scenario.linux ∅ {[ 100 := true ]}) scenario.online in
  let m := transport.NewMQTTClientWithID "svc-a" "svc-a-edge-1-100" "tcp://broker:1883"
                                         EmptyString EmptyString in
  transport.SendHeartbeat m p [] = (Some transport.errNotConnected, []).
Proof.
  intros p m.
  destruct (sends_need_connection m p []) as (_ & _ & _ & H).
  destruct (H eq_refl) as (_ & Hbeat & _). exact Hbeat.
Defined.

Lemma status_goes_to_heartbeat_topic_witness :
  let p := scenario.process (scenario.linux ∅ {[ 100 := true ]}) scenario.online in
  exists m p',
    transport.Connect
      (transport.NewMQTTClientWithID "svc-a" "svc-a-edge-1-100" "tcp://broker:1883"
                                     EmptyString EmptyString) p
    = sync.Returned (None, m) p'
    /\ transport.SendStatus m "degraded" ∅ p' []
       = (None, [transport.mkSent "v1/node/sync/svc-a/heartbeat" 1 false
                                  (transport.StatusData "degraded" 100 ∅)]).
Proof.
  intros p. do 2 eexists. split; [vm_compute; reflexivity|].
  refine (proj1 (proj2 (status_goes_to_heartbeat_topic
                          "svc-a" "svc-a-edge-1-100" "tcp://broker:1883"
                          EmptyString EmptyString _ p _ [] _ _)) "degraded"%string ∅);
    vm_compute; reflexivity.
Defined.

(** ** The registry of the receiver of an instance *)

Section RegistryFacts.
Import sync context handlers.
Variable json_Unmarshal : string -> option Command.t.


End RegistryFacts.


(** ** Where the process ends, and the lock *)

Section ExitLock.
Import sync context handlers.

(** X27.  Ending the process and the lock.  The stop action of a
    control message and the stop handler that [startCommandReceiver]
    registers end the process with the host as it was: a lock record of
    the instance stays behind.  The restart action releases the lock of
    the instance, through [Stop], before it ends the process. *)
Theorem exit_and_the_lock (inst : node.Instance) (p : Proc) :
  (exists p', node.handleControl inst "stop" p = Exited 0 p' /\ host p' = host p)
  /\ (exists p', node.handleControl inst "restart" p = Exited 0 p'
                 /\ host p' = snd (util.Release (node.fileLock inst) (host p)))
  /\ (forall nc cmd,
         valid nc p ->
         exists p', Handle (NewStopHandler (Some (node.stop_callback inst)))
                           (WithNodeContext Background nc) cmd p = Exited 0 p'
                    /\ host p' = host p).
Proof.
  split; [|split].
  - rewrite handleControl_stop. eexists. split; reflexivity.
  - destruct (handleControl_restart inst p) as (inst' & p' & Hstop & Hrun).
    exists p'. split; [exact Hrun|].
    match type of Hstop with node.Stop inst ?q = _ =>
      destruct (Stop_result inst q) as (p2 & Hstop2 & Hhost & _)
    end.
    rewrite Hstop in Hstop2. injection Hstop2 as _ <-. exact Hhost.
  - intros nc cmd [-> | (c & -> & [x Hx])];
      unfold NewStopHandler, Handle, WithNodeContext, GetNodeContextFromContext,
        node.stop_callback, bind, logf, ret, Exit, SetStatus, deref, store, bind; simpl;
      rewrite ?Hx; eexists; split; reflexivity.
Qed.

End ExitLock.

Lemma exit_and_the_lock_witness :
  let w := util.locked_world (scenario.linux ∅ {[ 100 := true ]}) "/tmp/svc-a.lock" in
  let p := scenario.process w scenario.online in
  let inst := node.mkInstance "svc-a" "svc-a-edge-1-100" "edge-1" 100 None None false
                (Some false) (Some scenario.svc_lock)
                (scenario.config true (30 * context.Second)) in
  (exists p', node.handleControl inst "stop" p = sync.Exited 0 p'
              /\ is_Some (os.entry (sync.host p') "/tmp/svc-a.lock"))
  /\ (exists p', node.handleControl inst "restart" p = sync.Exited 0 p'
                 /\ os.entry (sync.host p') "/tmp/svc-a.lock" = None).
Proof.
  intros w p inst.
  destruct (exit_and_the_lock inst p) as ((p1 & H1 & Hh1) & (p2 & H2 & Hh2) & _).
  split.
  - exists p1. split; [exact H1|]. rewrite Hh1. vm_compute. eauto.
  - exists p2. split; [exact H2|]. rewrite Hh2. vm_compute. reflexivity.
Defined.

(** ** The logger *)

Section LoggerFacts.
Import log.
Variable UnmarshalText : string -> option Level.
Variable can_open : string -> bool.

Lemma open_writers_omap (paths : list string) :
  open_writers can_open paths = omap (writer_of can_open) paths.
Proof.
  unfold open_writers.
  assert (H : forall acc,
             fold_left
               (fun ws path =>
                  if String.eqb path "stdout" then ws ++ [Stdout]
                  else if String.eqb path "stderr" then ws ++ [Stderr]
                  else if can_open path then ws ++ [FileSyncer path]
                  else ws) paths acc
             = acc ++ omap (writer_of can_open) paths).
  { induction paths as [|path paths IH]; intros acc; simpl.
    - rewrite app_nil_r. reflexivity.
    - rewrite IH. unfold writer_of.
      destruct (String.eqb path "stdout"); [rewrite <- app_assoc; reflexivity|].
      destruct (String.eqb path "stderr"); [rewrite <- app_assoc; reflexivity|].
      destruct (can_open path); [rewrite <- app_assoc; reflexivity | reflexivity]. }
  apply (H []).
Qed.

(** X28.  [newLogger] always ends up with a writer: the usable output
    paths give one writer each, in their order, a file that cannot be
    opened is skipped, and when none is left the logger writes to the
    standard output.  A level that does not parse becomes [info], a
    format other than [json] gives the console encoder, and levels are
    coloured only for the format [console]. *)
Theorem newLogger_fallbacks (opts : Options) :
  let l := newLogger UnmarshalText can_open (Some opts) in
  writers l = match omap (writer_of can_open) (OutputPaths opts) with
              | [] => [Stdout]
              | ws => ws
              end
  /\ writers l <> []
  /\ (UnmarshalText (opt_Level opts) = None -> level l = InfoLevel)
  /\ (Format opts <> "json"%string -> encoder l = ConsoleEncoder)
  /\ (EncodeLevel l = CapitalColorLevelEncoder ->
      EnableColor opts = true /\ Format opts = "console"%string /\ encoder l = ConsoleEncoder)
  /\ newLogger UnmarshalText can_open None
     = newLogger UnmarshalText can_open (Some DefaultOptions).
Proof.
  intros l. subst l. unfold newLogger. simpl.
  rewrite open_writers_omap.
  split; [destruct (omap _ _); reflexivity|].
  split; [destruct (omap _ _); discriminate|].
  split; [intros ->; reflexivity|].
  split.
  - intros Hf. apply String.eqb_neq in Hf. rewrite Hf. reflexivity.
  - split; [|reflexivity].
    destruct (EnableColor opts); [|discriminate]. simpl.
    destruct (String.eqb_spec (Format opts) "console") as [->|]; [|discriminate].
    intros _. repeat split.
Qed.

(** X29.  [Init] takes effect once: the first call builds the logger, a
    later call with other options changes nothing, and [getStd] then
    returns that logger; without an [Init], [getStd] builds the logger of
    the default options. *)
Theorem Init_once (o1 o2 : option Options) (s : State) :
  Init UnmarshalText can_open o2 (Init UnmarshalText can_open o1 s)
  = Init UnmarshalText can_open o1 s
  /\ Init UnmarshalText can_open o1 initial
     = mkState (Some (newLogger UnmarshalText can_open o1)) true
  /\ getStd UnmarshalText can_open (Init UnmarshalText can_open o1 initial)
     = (Some (newLogger UnmarshalText can_open o1), Init UnmarshalText can_open o1 initial)
  /\ fst (getStd UnmarshalText can_open initial)
     = Some (newLogger UnmarshalText can_open None).
Proof.
  split; [|repeat split].
  unfold Init. destruct (once_done s) eqn:E; simpl; rewrite ?E; reflexivity.
Qed.

End LoggerFacts.

Lemma newLogger_fallbacks_witness :
  let l := log.newLogger scenario.parse_level scenario.can_open
             (Some (log.mkOptions "verbose" "text" ["/root/app.log"%string] false true)) in
  log.level l = log.InfoLevel /\ log.encoder l = log.ConsoleEncoder.
Proof.
  intros l.
  destruct (newLogger_fallbacks scenario.parse_level scenario.can_open
              (log.mkOptions "verbose" "text" ["/root/app.log"%string] false true))
    as (_ & _ & Hlevel & Henc & _).
  split; [apply Hlevel; reflexivity | apply Henc; discriminate].
Defined.

